(** * kelvin-ng: resolution of a light schedule for one day

    A shallow embedding of [configuration.go]: the parser of the time field
    of a schedule entry ([AsTimestamp2], [AsTimestamp]), the builder of the
    new-style schedule of a day ([ComputeNewStyleSchedule]) and the selection
    of the schedule of a light ([lightScheduleForDay]), together with the
    parts of Go's [regexp], [strconv] and [time] packages these functions
    call; the default configuration ([initializeDefaults]); and the saving
    of a configuration ([Write], [HasChanged], [HashValue]), with the
    encoders, the digest and the file system as parameters.

    Conventions of the embedding.
    - A Go [string] is a [string] of bytes; a Go [int] is a [Z] (the
      program does no arithmetic on colour temperatures, brightness values
      or light identifiers); [strconv.Atoi] and [time.Duration] keep the
      range and the wrap-around of 64 bits.
    - A [time.Time] is an unbounded count of nanoseconds since 1 January
      1970 UTC, read in a location of fixed offset; it carries no monotonic
      clock reading.
    - A slice is a [list]; the nil slice and the empty slice are both [[]].
    - A Go function that returns [(v, err)] returns the pair
      [(v, option error)] here; a run-time panic is the outcome [Panics].
    - Calls of the logger and of [fmt.Printf] write to the log and to the
      standard output only; they are left out. *)

From Stdlib Require Import ZArith List String Ascii Bool Lia.
From Stdlib Require Import Floats.
Import ListNotations.

Open Scope string_scope.
Open Scope list_scope.
Open Scope Z_scope.

Set Implicit Arguments.

(** ** Outcomes: normal return or panic *)

(** The run-time errors of Go the program can raise. *)
Inductive runtime_error : Type :=
| IndexOutOfRange (index : Z) (length : Z).

Inductive outcome (A : Type) : Type :=
| Returns (a : A)
| Panics (e : runtime_error).

Arguments Returns {A} a.
Arguments Panics {A} e.

Definition bind {A B : Type} (m : outcome A) (k : A -> outcome B) : outcome B :=
  match m with
  | Returns a => k a
  | Panics e => Panics e
  end.

Notation "x <- m ;; k" := (bind m (fun x => k))
  (at level 61, m at next level, right associativity).
Notation "' p <- m ;; k" := (bind m (fun x => let p := x in k))
  (at level 61, p pattern, m at next level, right associativity).

(** [l[i]]: indexing a slice panics outside [0 <= i < len(l)]. *)
Definition index {A : Type} (l : list A) (i : Z) : outcome A :=
  if i <? 0 then Panics (IndexOutOfRange i (Z.of_nat (List.length l)))
  else match nth_error l (Z.to_nat i) with
       | Some a => Returns a
       | None => Panics (IndexOutOfRange i (Z.of_nat (List.length l)))
       end.

Definition len {A : Type} (l : list A) : Z := Z.of_nat (List.length l).

Definition strlen (s : string) : Z := Z.of_nat (String.length s).

(** ** Package [regexp] *)

Module regexp.

(** The syntax of the patterns the program compiles.  Every repetition in
    them is over a class of single bytes, or is [{0,1}]. *)
Inductive Regexp : Type :=
| EmptyMatch
| CharClass (p : ascii -> bool)
| Literal (l : string)
| Concat (r1 r2 : Regexp)
| Alternate (r1 r2 : Regexp)
| Star (p : ascii -> bool)
| Capture (n : nat) (r : Regexp).

(** [r{0,1}] and [c+], both greedy. *)
Definition Quest (r : Regexp) : Regexp := Alternate r EmptyMatch.
Definition Plus (p : ascii -> bool) : Regexp := Concat (CharClass p) (Star p).
(** [c{1,2}], greedy. *)
Definition Repeat12 (p : ascii -> bool) : Regexp :=
  Concat (CharClass p) (Quest (CharClass p)).

Fixpoint NumSubexp (r : Regexp) : nat :=
  match r with
  | Concat r1 r2 | Alternate r1 r2 => Nat.max (NumSubexp r1) (NumSubexp r2)
  | Capture n r => Nat.max n (NumSubexp r)
  | _ => 0%nat
  end.

(** Perl classes, ASCII only as in Go. *)
Definition perl_d (c : ascii) : bool :=
  let n := nat_of_ascii c in ((48 <=? n) && (n <=? 57))%nat.
Definition perl_s (c : ascii) : bool :=
  let n := nat_of_ascii c in
  ((n =? 9) || (n =? 10) || (n =? 12) || (n =? 13) || (n =? 32))%nat.
(** [.] without the [s] flag: anything but a newline. *)
Definition any_char_not_nl (c : ascii) : bool :=
  negb (nat_of_ascii c =? 10)%nat.

Fixpoint strip_prefix (l s : string) : option string :=
  match l with
  | EmptyString => Some s
  | String a l' =>
      match s with
      | String b s' => if Ascii.eqb a b then strip_prefix l' s' else None
      | EmptyString => None
      end
  end.

Fixpoint set_nth (n : nat) (t : string) (caps : list string) : list string :=
  match caps with
  | [] => []
  | c :: caps' =>
      match n with
      | O => t :: caps'
      | S n' => c :: set_nth n' t caps'
      end
  end.

(** Every byte of [s] is of the class [p]. *)
Fixpoint every (p : ascii -> bool) (s : string) : bool :=
  match s with
  | EmptyString => true
  | String c s' => p c && every p s'
  end.

(** The longest prefix of [s] in the class [p], and what follows it. *)
Fixpoint take_while (p : ascii -> bool) (s : string) : string :=
  match s with
  | EmptyString => EmptyString
  | String c s' => if p c then String c (take_while p s') else EmptyString
  end.

Fixpoint drop_while (p : ascii -> bool) (s : string) : string :=
  match s with
  | EmptyString => EmptyString
  | String c s' => if p c then drop_while p s' else s
  end.

(** [s] does not start with a byte of the class [p]. *)
Definition stops (p : ascii -> bool) (s : string) : bool :=
  match s with
  | EmptyString => true
  | String c _ => negb (p c)
  end.

Section Matcher.
Variable R : Type.

(** Greedy [c*]: the longest run first, then shorter ones. The
    continuation receives the text matched and the rest of the input. *)
Fixpoint star (p : ascii -> bool) (s : string)
         (k : string -> string -> option R) : option R :=
  match s with
  | String c s' =>
      if p c then
        match star p s' (fun t rest => k (String c t) rest) with
        | Some x => Some x
        | None => k EmptyString s
        end
      else k EmptyString s
  | EmptyString => k EmptyString s
  end.

(** Leftmost-first matching at the start of [s], as a backtracking
    search in the order of preference of the pattern: the first
    alternative before the second, the longer repetition before the
    shorter.  [caps] holds the text of the capture groups matched so
    far. *)
Fixpoint run (r : Regexp) (s : string) (caps : list string)
         (k : string -> string -> list string -> option R) : option R :=
  match r with
  | EmptyMatch => k EmptyString s caps
  | CharClass p =>
      match s with
      | String c s' => if p c then k (String c EmptyString) s' caps else None
      | EmptyString => None
      end
  | Literal l =>
      match strip_prefix l s with
      | Some s' => k l s' caps
      | None => None
      end
  | Concat r1 r2 =>
      run r1 s caps (fun t1 s1 caps1 =>
      run r2 s1 caps1 (fun t2 s2 caps2 =>
      k (t1 ++ t2)%string s2 caps2))
  | Alternate r1 r2 =>
      match run r1 s caps k with
      | Some x => Some x
      | None => run r2 s caps k
      end
  | Star p => star p s (fun t rest => k t rest caps)
  | Capture n r1 =>
      run r1 s caps (fun t rest caps1 => k t rest (set_nth n t caps1))
  end.
End Matcher.

(** The match of [re] that starts at the start of [s], if any: the text of
    the whole match followed by the text of each group (the empty string
    for a group that took no part). *)
Definition match_here (re : Regexp) (s : string) : option (list string) :=
  run re s (repeat EmptyString (S (NumSubexp re)))
      (fun t _ caps => Some (set_nth 0 t caps)).

(** [re.FindStringSubmatch(s)]: the leftmost match; nil when there is
    none. *)
Fixpoint FindStringSubmatch (re : Regexp) (s : string) : list string :=
  match match_here re s with
  | Some m => m
  | None =>
      match s with
      | String _ s' => FindStringSubmatch re s'
      | EmptyString => []
      end
  end.

End regexp.

(** ** Package [strconv] *)

Module strconv.

Inductive NumErrorKind : Type := ErrSyntax | ErrRange.

Definition digit_value (c : ascii) : Z := Z.of_nat (nat_of_ascii c) - 48.

(** The value of a string of decimal digits, given the value [acc] of the
    digits read before it. *)
Fixpoint decimal (acc : Z) (s : string) : Z :=
  match s with
  | EmptyString => acc
  | String c s' => decimal (10 * acc + digit_value c) s'
  end.

Definition all_digits (s : string) : bool := regexp.every regexp.perl_d s.

Definition maxInt : Z := 2 ^ 63 - 1.
Definition minInt : Z := - 2 ^ 63.

(** [strconv.Atoi] where [int] has 64 bits: an optional sign and decimal
    digits; a syntax error without digits or with any other byte, a range
    error outside [minInt .. maxInt]. *)
Definition Atoi (s : string) : Z + NumErrorKind :=
  let '(neg, body) :=
    match s with
    | String "-"%char s' => (true, s')
    | String "+"%char s' => (false, s')
    | _ => (false, s)
    end in
  match body with
  | EmptyString => inr ErrSyntax
  | _ =>
      if all_digits body then
        let n := if neg then - decimal 0 body else decimal 0 body in
        if (minInt <=? n) && (n <=? maxInt) then inl n else inr ErrRange
      else inr ErrSyntax
  end.

End strconv.

(** ** Package [time] *)

Module time.

(** A location is a fixed offset, in seconds east of UTC ([time.UTC], the
    zones of [time.FixedZone]).  A location with zone transitions, as a
    zone with daylight saving time is and as [time.Local] may be, is
    outside the model: there [time.Date] looks up the offset in force and
    moves a wall-clock time that a transition skips.  What is proved of the
    wall clock of an instant is therefore stated for the locations of
    [FixedZone], and holds for them only. *)
Record Location : Type := { offset : Z }.

Definition UTC : Location := {| offset := 0 |}.

(** [time.FixedZone(name, offset)]; the name plays no part in the
    computation of instants. *)
Definition FixedZone (name : string) (offset : Z) : Location :=
  {| offset := offset |}.

(** A [Duration] is a count of nanoseconds in an [int64]. *)
Definition Duration : Type := Z.

Definition int64 (z : Z) : Z := (z + 2 ^ 63) mod 2 ^ 64 - 2 ^ 63.

Definition Nanosecond : Duration := 1.
Definition Second : Duration := 1000000000 * Nanosecond.
Definition Minute : Duration := 60 * Second.

(** Product and negation of durations, in [int64]. *)
Definition mul (a b : Duration) : Duration := int64 (a * b).
Definition neg (a : Duration) : Duration := int64 (- a).

(** *** The proleptic Gregorian calendar *)

Definition isLeap (year : Z) : bool :=
  (year mod 4 =? 0) && (negb (year mod 100 =? 0) || (year mod 400 =? 0)).

(** Days from 1 January 1970 to 1 January of [year]. *)
Definition daysSinceEpoch (year : Z) : Z :=
  let y := year - 1 in
  365 * (year - 1970) + (y / 4 - y / 100 + y / 400) - 477.

(** Days of a non-leap year before month [m], counted from 0. *)
Definition daysBefore (m : Z) : Z :=
  nth (Z.to_nat m) [0; 31; 59; 90; 120; 151; 181; 212; 243; 273; 304; 334; 365] 0.

(** Year, month and day of the day [z] days after 1 January 1970. *)
Definition civil (z : Z) : Z * Z * Z :=
  let z := z + 719468 in
  let era := z / 146097 in
  let doe := z - era * 146097 in
  let yoe := (doe - doe / 1460 + doe / 36524 - doe / 146096) / 365 in
  let doy := doe - (365 * yoe + yoe / 4 - yoe / 100) in
  let mp := (5 * doy + 2) / 153 in
  let d := doy - (153 * mp + 2) / 5 + 1 in
  let m := if mp <? 10 then mp + 3 else mp - 9 in
  let y := yoe + era * 400 in
  (if m <=? 2 then y + 1 else y, m, d).

(** *** Instants *)

Module Time.

(** An instant is a count of nanoseconds since 1 January 1970 UTC, read
    in a location.  The count is unbounded, and an instant carries no
    monotonic clock reading. *)
Record t : Type := { instant : Z; Location : time.Location }.

Definition Before (a b : t) : bool := instant a <? instant b.
Definition After (a b : t) : bool := instant b <? instant a.
Definition Equal (a b : t) : bool := instant a =? instant b.

Definition Add (a : t) (d : Duration) : t :=
  {| instant := instant a + d; Location := Location a |}.

(** Seconds since 1 January 1970 00:00:00 of the wall clock of the
    location. *)
Definition abs (a : t) : Z := instant a / Second + offset (Location a).

Definition Nanosecond (a : t) : Z := instant a mod Second.

Definition Date (a : t) : Z * Z * Z := civil (abs a / 86400).

Definition Clock (a : t) : Z * Z * Z :=
  let s := abs a mod 86400 in
  (s / 3600, s mod 3600 / 60, s mod 60).

Definition Hour (a : t) : Z := let '(h, _, _) := Clock a in h.
Definition Minute (a : t) : Z := let '(_, m, _) := Clock a in m.
Definition Second (a : t) : Z := let '(_, _, s) := Clock a in s.

End Time.

(** [norm(hi, lo, base)]: [lo] brought into [0 .. base-1], the carry
    added to [hi]. *)
Definition norm (hi lo base : Z) : Z * Z := (hi + lo / base, lo mod base).

(** [time.Date]: fields out of range are normalized, a month into the
    year, seconds into minutes, and so on up to the day.  The offset of the
    location is subtracted; for a location of fixed offset this is what
    [time.Date] does. *)
Definition Date (year month day hour min sec nsec : Z) (loc : Location) : Time.t :=
  let '(year, m) := norm year (month - 1) 12 in
  let '(sec, nsec) := norm sec nsec 1000000000 in
  let '(min, sec) := norm min sec 60 in
  let '(hour, min) := norm hour min 60 in
  let '(day, hour) := norm day hour 24 in
  let d := daysSinceEpoch year + daysBefore m
           + (if isLeap year && (2 <=? m) then 1 else 0)
           + (day - 1) in
  let unix := d * 86400 + hour * 3600 + min * 60 + sec - offset loc in
  {| Time.instant := unix * 1000000000 + nsec; Time.Location := loc |}.

Definition AddDate (a : Time.t) (years months days : Z) : Time.t :=
  let '(year, month, day) := Time.Date a in
  let '(hour, min, sec) := Time.Clock a in
  Date (year + years) (month + months) (day + days) hour min sec
       (Time.Nanosecond a) (Time.Location a).

(** The zero [Time]: 1 January of year 1, 00:00:00 UTC. *)
Definition zero : Time.t := Date 1 1 1 0 0 0 0 UTC.

(** *** Parsing with the layout ["15:04"] *)

Inductive ParseMessage : Type :=
| NoMessage
| OutOfRange (field : string)
| ExtraText (text : string).

Record ParseError : Type := {
  Layout : string;
  Value : string;
  LayoutElem : string;
  ValueElem : string;
  Message : ParseMessage
}.

(** [getnum(s, fixed)]: a number of one or two digits at the start of [s]
    (of two digits when [fixed]), and the rest of [s]. *)
Definition getnum (s : string) (fixed : bool) : option (Z * string) :=
  match s with
  | String c0 s1 =>
      if regexp.perl_d c0 then
        match s1 with
        | String c1 s2 =>
            if regexp.perl_d c1
            then Some (strconv.digit_value c0 * 10 + strconv.digit_value c1, s2)
            else if fixed then None else Some (strconv.digit_value c0, s1)
        | EmptyString =>
            if fixed then None else Some (strconv.digit_value c0, s1)
        end
      else None
  | EmptyString => None
  end.

(** [time.Parse("15:04", value)]: an hour of one or two digits below 24,
    a colon, a minute of two digits below 60 and nothing else; the instant
    is that time of 1 January of year 0, UTC. *)
Definition Parse_15_04 (value : string) : Time.t + ParseError :=
  let layout := "15:04" in
  let failure elem rest msg :=
    inr {| Layout := layout; Value := value; LayoutElem := elem;
           ValueElem := rest; Message := msg |} in
  match getnum value false with
  | None => failure "15" value NoMessage
  | Some (hour, rest) =>
      if 24 <=? hour then failure "15" rest (OutOfRange "hour") else
      match rest with
      | String ":"%char rest1 =>
          match getnum rest1 true with
          | None => failure "04" rest1 NoMessage
          | Some (min, rest2) =>
              if 60 <=? min then failure "04" rest2 (OutOfRange "minute") else
              match rest2 with
              | EmptyString => inl (Date 0 1 1 hour min 0 0 UTC)
              | _ => failure "" rest2 (ExtraText rest2)
              end
          end
      | _ => failure ":" rest NoMessage
      end
  end.

End time.

(** ** The configuration *)

(** [Location]: the place sunrise and sunset are calculated for. *)
Record Location : Type := { Latitude : float; Longitude : float }.

Record Bridge : Type := { IP : string; Username : string }.

Record WebInterface : Type := { Enabled : bool; Port : Z }.

(** [TimedColorTemperature]: a light configuration to be reached at the
    given time. *)
Module TimedColorTemperature.
Record t : Type := {
  Time : string;
  ColorTemperature : Z;
  Brightness : Z
}.
End TimedColorTemperature.

(** [LightSchedule]: the schedule of any day for the associated lights. *)
Module LightSchedule.
Record t : Type := {
  Name : string;
  AssociatedDeviceIDs : list Z;
  EnableWhenLightsAppear : bool;
  (* Old-style schedule. *)
  DefaultColorTemperature : Z;
  DefaultBrightness : Z;
  BeforeSunrise : list TimedColorTemperature.t;
  AfterSunset : list TimedColorTemperature.t;
  (* New-style schedule. *)
  Schedule : list TimedColorTemperature.t
}.
End LightSchedule.

Module Configuration.
Record t : Type := {
  ConfigurationFile : string;
  Hash : string;
  Version : Z;
  Bridge : Bridge;
  Location : Location;
  WebInterface : WebInterface;
  Schedules : list LightSchedule.t
}.
End Configuration.

(** [TimeStamp]: a parsed and validated [TimedColorTemperature]. *)
Module TimeStamp.
Record t : Type := {
  Time : time.Time.t;
  ColorTemperature : Z;
  Brightness : Z
}.

(** The zero value. *)
Definition zero : t :=
  {| Time := time.zero; ColorTemperature := 0; Brightness := 0 |}.

(** [ts.Time = v]. *)
Definition set_Time (ts : t) (v : time.Time.t) : t :=
  {| Time := v; ColorTemperature := ColorTemperature ts;
     Brightness := Brightness ts |}.
End TimeStamp.

Inductive TimePointType : Type :=
| FixedTimePoint
| Sunrise
| Sunset.

(** The error values the functions below return. *)
Inductive error : Type :=
| InvalidTimestamp (spec : string)
    (* fmt.Errorf("Invalid timestamp %v", color.Time) *)
| TimeParseError (e : time.ParseError)
    (* the *time.ParseError of time.Parse *)
| NumError (Func Num : string) (Err : strconv.NumErrorKind)
    (* the *strconv.NumError of strconv.Atoi *)
| LightNotAssociated (light : Z).
    (* fmt.Errorf("Light %d is not associated with any schedule in
       configuration", light) *)

(** Modelled from the spec: the interface [SunStateCalculatorInterface] is
    declared outside this file; the spec calls it the sunrise/sunset
    supplier, "a capability exposing [CalculateSunrise(date, latitude,
    longitude) -> instant] and [CalculateSunset(date, latitude, longitude)
    -> instant]", and the mock of the test implements these two methods. *)
Record SunStateCalculatorInterface : Type := {
  CalculateSunrise : time.Time.t -> float -> float -> time.Time.t;
  CalculateSunset : time.Time.t -> float -> float -> time.Time.t
}.

(** Modelled from the spec: the struct [Schedule] is declared outside this
    file.  These are the fields [lightScheduleForDay] assigns; the spec
    describes them as the DaySchedule: "end-of-day boundary instant, the
    day's own sunrise/sunset ResolvedPoints (using the schedule's default
    color/brightness), and either (a) a single ordered sequence of
    ResolvedPoint [...] or (b) separate before-sunrise/after-sunset
    sequences (legacy mode)". *)
Module Schedule.
Record t : Type := {
  endOfDay : time.Time.t;
  sunrise : TimeStamp.t;
  sunset : TimeStamp.t;
  times : list TimeStamp.t;
  beforeSunrise : list TimeStamp.t;
  afterSunset : list TimeStamp.t;
  enableWhenLightsAppear : bool
}.

Definition zero : t :=
  {| endOfDay := time.zero; sunrise := TimeStamp.zero;
     sunset := TimeStamp.zero; times := []; beforeSunrise := [];
     afterSunset := []; enableWhenLightsAppear := false |}.
End Schedule.

(** Modelled from the spec: the helper [containsInt] is declared outside
    this file; the spec reads its use as "the definition whose associated
    light-ID set contains it". *)
Definition containsInt (a : list Z) (x : Z) : bool := existsb (Z.eqb x) a.

(** ** Parsing the time of a schedule entry *)

(** The pattern [AsTimestamp2] compiles. *)
Definition timePattern : string :=
  "(?P<time>\d{1,2}:\d\d)|(?P<spec>(sunrise|sunset)(\s*(\+|-)\s*(\d+)\s*m.*){0,1})".

(** The syntax tree of [timePattern], as [regexp.MustCompile] reads it: its
    groups are numbered from 1 in the order of their opening parentheses. *)
Definition timeRegexp : regexp.Regexp :=
  let d := regexp.perl_d in
  let s := regexp.perl_s in
  regexp.Alternate
    (regexp.Capture 1
       (regexp.Concat (regexp.Repeat12 d)
       (regexp.Concat (regexp.Literal ":")
       (regexp.Concat (regexp.CharClass d) (regexp.CharClass d)))))
    (regexp.Capture 2
       (regexp.Concat
          (regexp.Capture 3
             (regexp.Alternate (regexp.Literal "sunrise") (regexp.Literal "sunset")))
          (regexp.Quest
             (regexp.Capture 4
                (regexp.Concat (regexp.Star s)
                (regexp.Concat
                   (regexp.Capture 5
                      (regexp.Alternate (regexp.Literal "+") (regexp.Literal "-")))
                (regexp.Concat (regexp.Star s)
                (regexp.Concat (regexp.Capture 6 (regexp.Plus d))
                (regexp.Concat (regexp.Star s)
                (regexp.Concat (regexp.Literal "m")
                               (regexp.Star regexp.any_char_not_nl))))))))))).

Section Clock.

(** The reading of [time.Now()]: it only fills the [TimeStamp] that comes
    with an error. *)
Variable now : time.Time.t.

Definition failed (color : TimedColorTemperature.t) : TimeStamp.t :=
  {| TimeStamp.Time := now;
     TimeStamp.ColorTemperature := TimedColorTemperature.ColorTemperature color;
     TimeStamp.Brightness := TimedColorTemperature.Brightness color |}.

Definition resolved (color : TimedColorTemperature.t) (at_ : time.Time.t)
  : TimeStamp.t :=
  {| TimeStamp.Time := at_;
     TimeStamp.ColorTemperature := TimedColorTemperature.ColorTemperature color;
     TimeStamp.Brightness := TimedColorTemperature.Brightness color |}.

(** [AsTimestamp]: the time of an old-style entry, ["HH:MM"] on the day of
    [referenceTime]. *)
Definition AsTimestamp (color : TimedColorTemperature.t)
           (referenceTime : time.Time.t) : TimeStamp.t * option error :=
  match time.Parse_15_04 (TimedColorTemperature.Time color) with
  | inr e => (failed color, Some (TimeParseError e))
  | inl t =>
      let '(yr, mth, day) := time.Time.Date referenceTime in
      let targetTime :=
        time.Date yr mth day (time.Time.Hour t) (time.Time.Minute t)
                  (time.Time.Second t) 0 (time.Time.Location referenceTime) in
      (resolved color targetTime, None)
  end.

(** [AsTimestamp2]: the time of a new-style entry. *)
Definition AsTimestamp2 (color : TimedColorTemperature.t)
           (referenceTime sunrise sunset : time.Time.t)
  : outcome (TimeStamp.t * TimePointType * option error) :=
  let matches :=
    regexp.FindStringSubmatch timeRegexp (TimedColorTemperature.Time color) in
  m0 <- index matches 0 ;;
  if strlen m0 =? 0 then
    Returns (failed color, FixedTimePoint,
             Some (InvalidTimestamp (TimedColorTemperature.Time color)))
  else
  m1 <- index matches 1 ;;
  if 0 <? strlen m1 then
    (* Time of the form hh:mm *)
    match time.Parse_15_04 (TimedColorTemperature.Time color) with
    | inr e => Returns (failed color, FixedTimePoint, Some (TimeParseError e))
    | inl t =>
        let '(yr, mth, day) := time.Time.Date referenceTime in
        let retTime :=
          time.Date yr mth day (time.Time.Hour t) (time.Time.Minute t)
                    (time.Time.Second t) 0 (time.Time.Location referenceTime) in
        Returns (resolved color retTime, FixedTimePoint, None)
    end
  else
  m2 <- index matches 2 ;;
  if 0 <? strlen m2 then
    (* sunrise|sunset [(+|-) NN minutes]. *)
    m3 <- index matches 3 ;;
    let '(retTime, timePointType) :=
      if String.eqb m3 "sunrise" then (sunrise, Sunrise) else (sunset, Sunset) in
    m4 <- index matches 4 ;;
    if 0 <? strlen m4 then
      m6 <- index matches 6 ;;
      match strconv.Atoi m6 with
      | inr e => Returns (failed color, FixedTimePoint, Some (NumError "Atoi" m6 e))
      | inl minutes =>
          m5 <- index matches 5 ;;
          let retTime :=
            if String.eqb m5 "+"
            then time.Time.Add retTime (time.mul time.Minute minutes)
            else time.Time.Add retTime (time.mul (time.neg time.Minute) minutes) in
          Returns (resolved color retTime, timePointType, None)
      end
    else Returns (resolved color retTime, timePointType, None)
  else Returns (resolved color time.zero, FixedTimePoint, None).

(** ** The new-style schedule of a day *)

(** The [for ... range configSchedule] loop of [ComputeNewStyleSchedule],
    from the entries still to visit and the values of [timeStamps] and
    [lastTimeType]; an error ends the loop and the function. *)
Fixpoint rangeSchedule (entries : list TimedColorTemperature.t)
         (sunrise sunset date : time.Time.t)
         (timeStamps : list TimeStamp.t) (lastTimeType : TimePointType)
  : outcome (list TimeStamp.t * TimePointType * option error) :=
  match entries with
  | [] => Returns (timeStamps, lastTimeType, None)
  | timedColorTemp :: entries' =>
      '(timestamp, timeType, err) <-
        AsTimestamp2 timedColorTemp date sunrise sunset ;;
      match err with
      | Some e => Returns (timeStamps, lastTimeType, Some e)
      | None =>
          previous <- index timeStamps (len timeStamps - 1) ;;
          let previousTime := TimeStamp.Time previous in
          let timestamp :=
            if time.Time.Before (TimeStamp.Time timestamp) previousTime
               || time.Time.Equal (TimeStamp.Time timestamp) previousTime
            then TimeStamp.set_Time timestamp
                   (time.Time.Add previousTime time.Minute)
            else timestamp in
          rangeSchedule entries' sunrise sunset date
                        (timeStamps ++ [timestamp]) timeType
      end
  end.

Definition ComputeNewStyleSchedule (configSchedule : list TimedColorTemperature.t)
           (sunrise sunset date : time.Time.t)
  : outcome (list TimeStamp.t * option error) :=
  let timeStamps : list TimeStamp.t := [] in
  (* First, add the last time point from the previous day. *)
  lastSchedule <- index configSchedule (len configSchedule - 1) ;;
  '(previousDayLastTimestamp, timeType, err) <-
    AsTimestamp2 lastSchedule (time.AddDate date 0 0 (-1)) sunrise sunset ;;
  match err with
  | Some e => Returns (timeStamps, Some e)
  | None =>
      let timeStamps := timeStamps ++ [previousDayLastTimestamp] in
      '(timeStamps, lastTimeType, err) <-
        rangeSchedule configSchedule sunrise sunset date timeStamps timeType ;;
      match err with
      | Some e => Returns (timeStamps, Some e)
      | None =>
          first <- index configSchedule 0 ;;
          '(nextDayFirstTimestamp, timeType, err) <-
            AsTimestamp2 first (time.AddDate date 0 0 1) sunrise sunset ;;
          match err with
          | Some e => Returns (timeStamps, Some e)
          | None => Returns (timeStamps ++ [nextDayFirstTimestamp], None)
          end
      end
  end.

(** ** The schedule of a light for a day *)

(** The two old-style loops of [lightScheduleForDay]: an entry that does
    not parse is skipped. *)
Fixpoint rangeCandidates (candidates : list TimedColorTemperature.t)
         (date : time.Time.t) (timestamps : list TimeStamp.t)
  : list TimeStamp.t :=
  match candidates with
  | [] => timestamps
  | candidate :: candidates' =>
      match AsTimestamp candidate date with
      | (_, Some _) => rangeCandidates candidates' date timestamps
      | (timestamp, None) =>
          rangeCandidates candidates' date (timestamps ++ [timestamp])
      end
  end.

Definition lightScheduleForDay (configuration : Configuration.t) (light : Z)
           (date : time.Time.t) (sunStateCalculator : SunStateCalculatorInterface)
  : outcome (Schedule.t * option error) :=
  (* initialize schedule with end of day *)
  let '(yr, mth, dy) := time.Time.Date date in
  let endOfDay := time.Date yr mth dy 23 59 59 59 (time.Time.Location date) in
  (* the first candidate that contains the light *)
  match find (fun candidate =>
                containsInt (LightSchedule.AssociatedDeviceIDs candidate) light)
             (Configuration.Schedules configuration) with
  | None =>
      Returns ({| Schedule.endOfDay := endOfDay;
                  Schedule.sunrise := TimeStamp.zero;
                  Schedule.sunset := TimeStamp.zero;
                  Schedule.times := [];
                  Schedule.beforeSunrise := [];
                  Schedule.afterSunset := [];
                  Schedule.enableWhenLightsAppear := false |},
               Some (LightNotAssociated light))
  | Some lightSchedule =>
      let latitude := Latitude (Configuration.Location configuration) in
      let longitude := Longitude (Configuration.Location configuration) in
      let sunrise :=
        {| TimeStamp.Time := CalculateSunrise sunStateCalculator date latitude longitude;
           TimeStamp.ColorTemperature := LightSchedule.DefaultColorTemperature lightSchedule;
           TimeStamp.Brightness := LightSchedule.DefaultBrightness lightSchedule |} in
      let sunset :=
        {| TimeStamp.Time := CalculateSunset sunStateCalculator date latitude longitude;
           TimeStamp.ColorTemperature := LightSchedule.DefaultColorTemperature lightSchedule;
           TimeStamp.Brightness := LightSchedule.DefaultBrightness lightSchedule |} in
      if 0 <? len (LightSchedule.Schedule lightSchedule) then
        (* New-style schedules in the config. *)
        '(newScheduleTimes, err) <-
          ComputeNewStyleSchedule (LightSchedule.Schedule lightSchedule)
            (TimeStamp.Time sunrise) (TimeStamp.Time sunset) date ;;
        match err with
        | Some e =>
            Returns ({| Schedule.endOfDay := endOfDay;
                        Schedule.sunrise := sunrise;
                        Schedule.sunset := sunset;
                        Schedule.times := [];
                        Schedule.beforeSunrise := [];
                        Schedule.afterSunset := [];
                        Schedule.enableWhenLightsAppear := false |},
                     Some e)
        | None =>
            Returns ({| Schedule.endOfDay := endOfDay;
                        Schedule.sunrise := sunrise;
                        Schedule.sunset := sunset;
                        Schedule.times := newScheduleTimes;
                        Schedule.beforeSunrise := [];
                        Schedule.afterSunset := [];
                        Schedule.enableWhenLightsAppear := false |},
                     None)
        end
      else
        (* Old-style schedule. *)
        Returns ({| Schedule.endOfDay := endOfDay;
                    Schedule.sunrise := sunrise;
                    Schedule.sunset := sunset;
                    Schedule.times := [];
                    Schedule.beforeSunrise :=
                      rangeCandidates (LightSchedule.BeforeSunrise lightSchedule) date [];
                    Schedule.afterSunset :=
                      rangeCandidates (LightSchedule.AfterSunset lightSchedule) date [];
                    Schedule.enableWhenLightsAppear :=
                      LightSchedule.EnableWhenLightsAppear lightSchedule |},
                 None)
  end.

End Clock.

(** ** The grammar of the specification *)

(** The grammar of time specifications as the specification words it, to be
    compared with what [AsTimestamp2] accepts: the whole string is [HH:MM]
    (an hour of one or two digits, a minute of two digits), or [sunrise] or
    [sunset], optionally followed by a sign, a number and a word that starts
    with [m], with optional white space around the sign and the number. *)
Module SpecGrammar.

Definition letter (c : ascii) : bool :=
  let n := nat_of_ascii c in
  (((65 <=? n) && (n <=? 90)) || ((97 <=? n) && (n <=? 122)))%nat.

Definition grammar : regexp.Regexp :=
  let d := regexp.perl_d in
  let s := regexp.perl_s in
  regexp.Alternate
    (regexp.Concat (regexp.Repeat12 d)
    (regexp.Concat (regexp.Literal ":")
    (regexp.Concat (regexp.CharClass d) (regexp.CharClass d))))
    (regexp.Concat
       (regexp.Alternate (regexp.Literal "sunrise") (regexp.Literal "sunset"))
       (regexp.Quest
          (regexp.Concat (regexp.Star s)
          (regexp.Concat
             (regexp.Alternate (regexp.Literal "+") (regexp.Literal "-"))
          (regexp.Concat (regexp.Star s)
          (regexp.Concat (regexp.Plus d)
          (regexp.Concat (regexp.Star s)
          (regexp.Concat (regexp.Literal "m") (regexp.Star letter))))))))).


(** The grammar is case-insensitive: upper-case letters read as their
    lower-case ones. *)
Definition lower (c : ascii) : ascii :=
  let n := nat_of_ascii c in
  if ((65 <=? n) && (n <=? 90))%nat then ascii_of_nat (n + 32) else c.

Fixpoint lowercase (s : string) : string :=
  match s with
  | EmptyString => EmptyString
  | String c s' => String (lower c) (lowercase s')
  end.

(** [s] as a whole is a sentence of the grammar. *)
Definition accepts (s : string) : bool :=
  match regexp.run grammar (lowercase s) []
          (fun _ rest _ => match rest with EmptyString => Some tt | _ => None end)
  with
  | Some _ => true
  | None => false
  end.

End SpecGrammar.

(** ** The test of the repository *)

(** The values of [TestLightScheduleForDay]: the mock calculator answers
    07:30 and 20:00 of 28 April 2021, UTC, whatever the date, and the
    schedule is asked for one second after midnight of that day. *)
Definition entry (time : string) (colorTemperature brightness : Z)
  : TimedColorTemperature.t :=
  {| TimedColorTemperature.Time := time;
     TimedColorTemperature.ColorTemperature := colorTemperature;
     TimedColorTemperature.Brightness := brightness |}.

Definition stamp (at_ : time.Time.t) (colorTemperature brightness : Z)
  : TimeStamp.t :=
  {| TimeStamp.Time := at_;
     TimeStamp.ColorTemperature := colorTemperature;
     TimeStamp.Brightness := brightness |}.

Definition MockSunrise : time.Time.t := time.Date 2021 4 28 7 30 0 0 time.UTC.
Definition MockSunset : time.Time.t := time.Date 2021 4 28 20 0 0 0 time.UTC.
Definition testDate : time.Time.t := time.Date 2021 4 28 0 0 1 0 time.UTC.

Definition MockSunStateCalculator : SunStateCalculatorInterface :=
  {| CalculateSunrise := fun _ _ _ => MockSunrise;
     CalculateSunset := fun _ _ _ => MockSunset |}.

(** [expectedTimes] of the test. *)
Definition expectedTimes : list TimeStamp.t :=
  [ stamp (time.Date 2021 4 27 22 0 0 0 time.UTC) 2000 70;
    stamp (time.Date 2021 4 28 4 0 0 0 time.UTC) 2000 60;
    stamp (time.Date 2021 4 28 7 30 0 0 time.UTC) 2700 60;
    stamp (time.Date 2021 4 28 8 0 0 0 time.UTC) 5000 100;
    stamp (time.Date 2021 4 28 19 30 0 0 time.UTC) 5000 100;
    stamp (time.Date 2021 4 28 20 0 0 0 time.UTC) 2700 80;
    stamp (time.Date 2021 4 28 22 0 0 0 time.UTC) 2000 70;
    stamp (time.Date 2021 4 29 4 0 0 0 time.UTC) 2000 60 ].

(** The schedule as the specification lists it in its concrete scenario:
    eight entries. *)
Definition scenarioSchedule : list TimedColorTemperature.t :=
  [ entry "22:00" 2000 70;
    entry "04:00" 2000 60;
    entry "sunrise+0m" 2700 60;
    entry "sunrise+30m" 5000 100;
    entry "sunset-30m" 5000 100;
    entry "sunset+0m" 2700 80;
    entry "22:00" 2000 70;
    entry "04:00" 2000 60 ].

(** The same list without its first and last entries: the six entries of a
    day, from 04:00 to 22:00. *)
Definition daySchedule : list TimedColorTemperature.t :=
  [ entry "04:00" 2000 60;
    entry "sunrise+0m" 2700 60;
    entry "sunrise+30m" 5000 100;
    entry "sunset-30m" 5000 100;
    entry "sunset+0m" 2700 80;
    entry "22:00" 2000 70 ].

(** Adjacent instants of a sequence, compared by [before]. *)
Fixpoint adjacent (before : time.Time.t -> time.Time.t -> bool)
         (l : list TimeStamp.t) : bool :=
  match l with
  | a :: (b :: _) as l' =>
      before (TimeStamp.Time a) (TimeStamp.Time b) && adjacent before l'
  | _ => true
  end.

(** A sequence is non-decreasing when no element is before its
    predecessor, and increasing when every element is after it. *)
Definition nondecreasing (l : list TimeStamp.t) : bool :=
  adjacent (fun a b => negb (time.Time.Before b a)) l.

Definition increasing (l : list TimeStamp.t) : bool :=
  adjacent time.Time.Before l.

(** A configuration like the default one of [initializeDefaults], for the
    light 1: an old-style schedule, and a list [schedule] that is present
    but empty. *)
Definition emptyScheduleConfiguration : Configuration.t :=
  {| Configuration.ConfigurationFile := "config.json";
     Configuration.Hash := "";
     Configuration.Version := 0;
     Configuration.Bridge := {| IP := ""; Username := "" |};
     Configuration.Location := {| Latitude := 0%float; Longitude := 0%float |};
     Configuration.WebInterface := {| Enabled := false; Port := 8080 |};
     Configuration.Schedules :=
       [ {| LightSchedule.Name := "default";
            LightSchedule.AssociatedDeviceIDs := [1];
            LightSchedule.EnableWhenLightsAppear := false;
            LightSchedule.DefaultColorTemperature := 2750;
            LightSchedule.DefaultBrightness := 100;
            LightSchedule.BeforeSunrise := [entry "4:00" 2000 60];
            LightSchedule.AfterSunset := [entry "20:00" 2300 80; entry "22:00" 2000 60];
            LightSchedule.Schedule := [] |} ] |}.

(** ** The steps of the loop *)

(** What one turn of the loop of [ComputeNewStyleSchedule] stores for an
    entry resolved to [timestamp] after the element [previous]. *)
Definition stored (previous timestamp : TimeStamp.t) : TimeStamp.t :=
  if time.Time.Before (TimeStamp.Time timestamp) (TimeStamp.Time previous)
     || time.Time.Equal (TimeStamp.Time timestamp) (TimeStamp.Time previous)
  then TimeStamp.set_Time timestamp
         (time.Time.Add (TimeStamp.Time previous) time.Minute)
  else timestamp.

(** [steps entries previous out]: the loop, started after the element
    [previous], resolves every entry of [entries] on the day [date] without
    error and appends the elements [out]. *)
Inductive steps (now sunrise sunset date : time.Time.t)
  : list TimedColorTemperature.t -> TimeStamp.t -> list TimeStamp.t -> Prop :=
| steps_done previous : steps now sunrise sunset date [] previous []
| steps_turn e entries previous timestamp timeType out :
    AsTimestamp2 now e date sunrise sunset = Returns (timestamp, timeType, None) ->
    steps now sunrise sunset date entries (stored previous timestamp) out ->
    steps now sunrise sunset date (e :: entries) previous
          (stored previous timestamp :: out).

(** Colour temperature and brightness of an entry and of an element. *)
Definition entryColors (e : TimedColorTemperature.t) : Z * Z :=
  (TimedColorTemperature.ColorTemperature e, TimedColorTemperature.Brightness e).

Definition colors (ts : TimeStamp.t) : Z * Z :=
  (TimeStamp.ColorTemperature ts, TimeStamp.Brightness ts).

(** [configuration] with the list [schedules] for its schedules. *)
Definition withSchedules (configuration : Configuration.t)
           (schedules : list LightSchedule.t) : Configuration.t :=
  {| Configuration.ConfigurationFile := Configuration.ConfigurationFile configuration;
     Configuration.Hash := Configuration.Hash configuration;
     Configuration.Version := Configuration.Version configuration;
     Configuration.Bridge := Configuration.Bridge configuration;
     Configuration.Location := Configuration.Location configuration;
     Configuration.WebInterface := Configuration.WebInterface configuration;
     Configuration.Schedules := schedules |}.

(** The schedule of a light that is in no list of associated devices: the
    end of the day and nothing else. *)
Definition unscheduled (date : time.Time.t) : Schedule.t :=
  let '(yr, mth, dy) := time.Time.Date date in
  {| Schedule.endOfDay := time.Date yr mth dy 23 59 59 59 (time.Time.Location date);
     Schedule.sunrise := TimeStamp.zero;
     Schedule.sunset := TimeStamp.zero;
     Schedule.times := [];
     Schedule.beforeSunrise := [];
     Schedule.afterSunset := [];
     Schedule.enableWhenLightsAppear := false |}.

(** What [lightScheduleForDay] computes from the schedule [lightSchedule]
    once it has selected it for the light: sunrise and sunset with the
    default colours of that schedule, then the new-style points built from
    its list [Schedule] if the list is not empty, and otherwise the
    old-style points of its lists [BeforeSunrise] and [AfterSunset] and its
    flag. *)
Definition scheduleFrom (now : time.Time.t) (configuration : Configuration.t)
           (lightSchedule : LightSchedule.t) (date : time.Time.t)
           (sunStateCalculator : SunStateCalculatorInterface)
  : outcome (Schedule.t * option error) :=
  let endOfDay := Schedule.endOfDay (unscheduled date) in
  let latitude := Latitude (Configuration.Location configuration) in
  let longitude := Longitude (Configuration.Location configuration) in
  let sunrise :=
    {| TimeStamp.Time := CalculateSunrise sunStateCalculator date latitude longitude;
       TimeStamp.ColorTemperature := LightSchedule.DefaultColorTemperature lightSchedule;
       TimeStamp.Brightness := LightSchedule.DefaultBrightness lightSchedule |} in
  let sunset :=
    {| TimeStamp.Time := CalculateSunset sunStateCalculator date latitude longitude;
       TimeStamp.ColorTemperature := LightSchedule.DefaultColorTemperature lightSchedule;
       TimeStamp.Brightness := LightSchedule.DefaultBrightness lightSchedule |} in
  match LightSchedule.Schedule lightSchedule with
  | _ :: _ =>
      '(newScheduleTimes, err) <-
        ComputeNewStyleSchedule now (LightSchedule.Schedule lightSchedule)
          (TimeStamp.Time sunrise) (TimeStamp.Time sunset) date ;;
      Returns ({| Schedule.endOfDay := endOfDay;
                  Schedule.sunrise := sunrise;
                  Schedule.sunset := sunset;
                  Schedule.times :=
                    match err with Some _ => [] | None => newScheduleTimes end;
                  Schedule.beforeSunrise := [];
                  Schedule.afterSunset := [];
                  Schedule.enableWhenLightsAppear := false |},
               err)
  | [] =>
      Returns ({| Schedule.endOfDay := endOfDay;
                  Schedule.sunrise := sunrise;
                  Schedule.sunset := sunset;
                  Schedule.times := [];
                  Schedule.beforeSunrise :=
                    rangeCandidates now (LightSchedule.BeforeSunrise lightSchedule) date [];
                  Schedule.afterSunset :=
                    rangeCandidates now (LightSchedule.AfterSunset lightSchedule) date [];
                  Schedule.enableWhenLightsAppear :=
                    LightSchedule.EnableWhenLightsAppear lightSchedule |},
               None)
  end.

(** A calculator whose answers follow the date: sunrise at 07:30 and sunset
    at 20:00 of the day it is asked for. *)
Definition dailyCalculator : SunStateCalculatorInterface :=
  {| CalculateSunrise := fun date _ _ =>
       let '(yr, mth, dy) := time.Time.Date date in
       time.Date yr mth dy 7 30 0 0 (time.Time.Location date);
     CalculateSunset := fun date _ _ =>
       let '(yr, mth, dy) := time.Time.Date date in
       time.Date yr mth dy 20 0 0 0 (time.Time.Location date) |}.

(** A new-style schedule from sunrise to sunset, for the light 1. *)
Definition sunSchedule : list TimedColorTemperature.t :=
  [ entry "sunrise" 2700 60; entry "12:00" 5000 100; entry "sunset" 2700 80 ].

Definition sunConfiguration : Configuration.t :=
  withSchedules emptyScheduleConfiguration
    [ {| LightSchedule.Name := "sun";
         LightSchedule.AssociatedDeviceIDs := [1];
         LightSchedule.EnableWhenLightsAppear := false;
         LightSchedule.DefaultColorTemperature := 2750;
         LightSchedule.DefaultBrightness := 100;
         LightSchedule.BeforeSunrise := [];
         LightSchedule.AfterSunset := [];
         LightSchedule.Schedule := sunSchedule |} ].

(** ** Time specifications relative to the sun *)

(** The strings [sunrise] and [sunset] with an optional offset, as the
    comment of [AsTimestamp2] and the specification describe them: the
    keyword, then if there is an offset a sign, a number of minutes and a
    word that starts with [m], with optional white space before the sign,
    the number and the word. *)
Inductive SunKeyword : Type := KwSunrise | KwSunset.

Definition keywordText (kw : SunKeyword) : string :=
  match kw with KwSunrise => "sunrise" | KwSunset => "sunset" end.

Record Offset : Type := {
  spaceBeforeSign : string;
  plus : bool;
  spaceBeforeNumber : string;
  number : string;
  spaceBeforeUnit : string;
  unitTail : string      (* what follows the [m] of the unit *)
}.

Definition signText (o : Offset) : string := if plus o then "+" else "-".

Definition offsetText (o : Offset) : string :=
  (spaceBeforeSign o ++ signText o ++ spaceBeforeNumber o ++ number o
   ++ spaceBeforeUnit o ++ "m" ++ unitTail o)%string.

Definition sunSpec (kw : SunKeyword) (o : option Offset) : string :=
  match o with
  | None => keywordText kw
  | Some o => (keywordText kw ++ offsetText o)%string
  end.

(** The offset is well formed: white space where white space is allowed,
    and a number of at least one digit. *)
Definition wellFormed (o : Offset) : bool :=
  regexp.every regexp.perl_s (spaceBeforeSign o)
  && regexp.every regexp.perl_s (spaceBeforeNumber o)
  && regexp.every regexp.perl_s (spaceBeforeUnit o)
  && regexp.every regexp.perl_d (number o)
  && negb (String.eqb (number o) "").

(** The signed number of minutes of an offset. *)
Definition offsetMinutes (o : option Offset) : Z :=
  match o with
  | None => 0
  | Some o =>
      if plus o then strconv.decimal 0 (number o)
      else - strconv.decimal 0 (number o)
  end.

(** The number of minutes is one whose count of nanoseconds is a
    [time.Duration]. *)
Definition fitsDuration (o : option Offset) : Prop :=
  match o with
  | None => True
  | Some o => time.Minute * strconv.decimal 0 (number o) <= strconv.maxInt
  end.

(** An offset of the test data: half an hour before. *)
Definition halfHourBeforeSunset : Offset :=
  {| spaceBeforeSign := " "; plus := false; spaceBeforeNumber := " ";
     number := "30"; spaceBeforeUnit := " "; unitTail := "inutes" |}.

(** An offset whose number is the smallest one that is no [int]: 2^63. *)
Definition smallestUnreadableOffset : Offset :=
  {| spaceBeforeSign := ""; plus := true; spaceBeforeNumber := "";
     number := "9223372036854775808"; spaceBeforeUnit := ""; unitTail := "" |}.

(** ** Keywords inside other text *)

(** Bytes that start no match of the pattern: neither a digit nor an [s]. *)
Definition startsNoMatch (c : ascii) : bool :=
  negb (regexp.perl_d c) && negb (Ascii.eqb "s" c).

(** The offset part of the pattern, its group 4. *)
Definition offsetRegexp : regexp.Regexp :=
  let d := regexp.perl_d in
  let s := regexp.perl_s in
  regexp.Capture 4
    (regexp.Concat (regexp.Star s)
    (regexp.Concat
       (regexp.Capture 5
          (regexp.Alternate (regexp.Literal "+") (regexp.Literal "-")))
    (regexp.Concat (regexp.Star s)
    (regexp.Concat (regexp.Capture 6 (regexp.Plus d))
    (regexp.Concat (regexp.Star s)
    (regexp.Concat (regexp.Literal "m")
                   (regexp.Star regexp.any_char_not_nl))))))).

(** [s] starts with an offset the pattern reads. *)
Definition startsWithOffset (s : string) : bool :=
  match regexp.run offsetRegexp s [] (fun _ _ _ => Some tt) with
  | Some _ => true
  | None => false
  end.

(** ** A check of the calendar *)

(** The day [z] days after 1 January 1970 has a month and a day of the month
    in range, and [time.Date] of its year, month and day is midnight of
    that day. *)
Definition calendarAgrees (z : Z) : bool :=
  let '(y, m, d) := time.civil z in
  (time.Time.instant (time.Date y m d 0 0 0 0 time.UTC) =? z * 86400 * 1000000000)
  && (1 <=? m) && (m <=? 12) && (1 <=? d) && (d <=? 31).

Fixpoint calendarAgreesFrom (n : nat) (z : Z) : bool :=
  match n with
  | O => true
  | S n' => calendarAgrees z && calendarAgreesFrom n' (z + 1)
  end.

(** ** The calendar, read back *)

(** The day count [time.Date] computes for a year, a month in 1..12 and a
    day of the month, from 1970-01-01. *)
Definition daysOf (year month day : Z) : Z :=
  time.daysSinceEpoch year + time.daysBefore (month - 1)
  + (if time.isLeap year && (2 <=? month - 1) then 1 else 0) + (day - 1).

(** ** Clock times *)

(** The text of a clock time: an hour of one or two characters, a colon
    and a minute of two characters. *)
Record ClockText : Type := {
  hourTens : option ascii;
  hourUnits : ascii;
  minuteTens : ascii;
  minuteUnits : ascii
}.

Definition clockString (c : ClockText) : string :=
  let tail := String (hourUnits c) (String ":" (String (minuteTens c)
                (String (minuteUnits c) ""))) in
  match hourTens c with
  | Some t => String t tail
  | None => tail
  end.

(** The numbers the characters stand for when they are digits. *)
Definition clockHour (c : ClockText) : Z :=
  match hourTens c with
  | Some t => strconv.digit_value t * 10 + strconv.digit_value (hourUnits c)
  | None => strconv.digit_value (hourUnits c)
  end.

Definition clockMinute (c : ClockText) : Z :=
  strconv.digit_value (minuteTens c) * 10 + strconv.digit_value (minuteUnits c).

(** All characters are digits; and the hour and the minute are in range. *)
Definition clockDigits (c : ClockText) : bool :=
  match hourTens c with Some t => regexp.perl_d t | None => true end
  && regexp.perl_d (hourUnits c)
  && regexp.perl_d (minuteTens c)
  && regexp.perl_d (minuteUnits c).

Definition clockValid (c : ClockText) : bool :=
  clockDigits c && (clockHour c <? 24) && (clockMinute c <? 60).

(** The instant of the clock time [c] on the [k]-th day after the day of
    [referenceTime], in the location of [referenceTime], a location of
    fixed offset. *)
Definition clockOnDay (referenceTime : time.Time.t) (k : Z) (c : ClockText) : time.Time.t :=
  {| time.Time.instant :=
       ((time.Time.abs referenceTime / 86400 + k) * 86400
        + clockHour c * 3600 + clockMinute c * 60
        - time.offset (time.Time.Location referenceTime)) * 1000000000;
     time.Time.Location := time.Time.Location referenceTime |}.

(** The clock texts 04:00, 4:00, 12:00, 20:00 and 22:00. *)
Definition fourOClock : ClockText :=
  {| hourTens := Some "0"%char; hourUnits := "4"%char;
     minuteTens := "0"%char; minuteUnits := "0"%char |}.

Definition noon : ClockText :=
  {| hourTens := Some "1"%char; hourUnits := "2"%char;
     minuteTens := "0"%char; minuteUnits := "0"%char |}.

Definition tenPM : ClockText :=
  {| hourTens := Some "2"%char; hourUnits := "2"%char;
     minuteTens := "0"%char; minuteUnits := "0"%char |}.

Definition fourAM : ClockText :=
  {| hourTens := None; hourUnits := "4"%char;
     minuteTens := "0"%char; minuteUnits := "0"%char |}.

Definition eightPM : ClockText :=
  {| hourTens := Some "2"%char; hourUnits := "0"%char;
     minuteTens := "0"%char; minuteUnits := "0"%char |}.

(** ** Old-style schedules *)

(** The old-style entries that parse, resolved on the day of [date]. *)
Definition parsedCandidates (now : time.Time.t)
           (candidates : list TimedColorTemperature.t) (date : time.Time.t)
  : list TimeStamp.t :=
  flat_map (fun candidate =>
              match AsTimestamp now candidate date with
              | (timestamp, None) => [timestamp]
              | (_, Some _) => []
              end) candidates.

(** A resolved point lies on the calendar day of [date], at a full minute,
    in the location of [date]. *)
Definition onTheDay (date : time.Time.t) (timestamp : TimeStamp.t) : Prop :=
  time.Time.Date (TimeStamp.Time timestamp) = time.Time.Date date
  /\ time.Time.Second (TimeStamp.Time timestamp) = 0
  /\ time.Time.Nanosecond (TimeStamp.Time timestamp) = 0
  /\ time.Time.Location (TimeStamp.Time timestamp) = time.Time.Location date.

(** ** The default configuration *)

Definition latestConfigurationVersion : Z := 0.

(** [initializeDefaults]: the version, the schedules and the web interface
    are set, the other fields are kept. *)
Definition initializeDefaults (configuration : Configuration.t) : Configuration.t :=
  let bedTime :=
    {| TimedColorTemperature.Time := "22:00";
       TimedColorTemperature.ColorTemperature := 2000;
       TimedColorTemperature.Brightness := 60 |} in
  let tvTime :=
    {| TimedColorTemperature.Time := "20:00";
       TimedColorTemperature.ColorTemperature := 2300;
       TimedColorTemperature.Brightness := 80 |} in
  let wakeupTime :=
    {| TimedColorTemperature.Time := "4:00";
       TimedColorTemperature.ColorTemperature := 2000;
       TimedColorTemperature.Brightness := 60 |} in
  let defaultSchedule :=
    {| LightSchedule.Name := "default";
       LightSchedule.AssociatedDeviceIDs := [];
       LightSchedule.EnableWhenLightsAppear := false;
       LightSchedule.DefaultColorTemperature := 2750;
       LightSchedule.DefaultBrightness := 100;
       LightSchedule.BeforeSunrise := [wakeupTime];
       LightSchedule.AfterSunset := [tvTime; bedTime];
       LightSchedule.Schedule := [] |} in
  let webinterface := {| Enabled := false; Port := 8080 |} in
  {| Configuration.ConfigurationFile := Configuration.ConfigurationFile configuration;
     Configuration.Hash := Configuration.Hash configuration;
     Configuration.Version := latestConfigurationVersion;
     Configuration.Bridge := Configuration.Bridge configuration;
     Configuration.Location := Configuration.Location configuration;
     Configuration.WebInterface := webinterface;
     Configuration.Schedules := [defaultSchedule] |}.

(** ** Schedules of clock times *)

(** The minute of the day of a clock time, and clock times in strictly
    ascending order. *)
Definition minuteOfDay (c : ClockText) : Z := clockHour c * 60 + clockMinute c.

Fixpoint ascendingFrom (previous : Z) (clocks : list ClockText) : bool :=
  match clocks with
  | [] => true
  | c :: clocks' => (previous <? minuteOfDay c) && ascendingFrom (minuteOfDay c) clocks'
  end.

Definition ascending (clocks : list ClockText) : bool := ascendingFrom (-1) clocks.

(** The time of the entry [e] is the valid clock time [c]. *)
Definition clockEntry (e : TimedColorTemperature.t) (c : ClockText) : Prop :=
  TimedColorTemperature.Time e = clockString c /\ clockValid c = true.

(** The entries at their clock times on the day of [date]. *)
Fixpoint dayPoints (date : time.Time.t) (entries : list TimedColorTemperature.t)
         (clocks : list ClockText) : list TimeStamp.t :=
  match entries, clocks with
  | e :: entries', c :: clocks' =>
      resolved e (clockOnDay date 0 c) :: dayPoints date entries' clocks'
  | _, _ => []
  end.

(** ** Saving the configuration *)

(** A hexadecimal digit, in lower case. *)
Definition hexDigit (n : N) : ascii :=
  match n with
  | 0 => "0" | 1 => "1" | 2 => "2" | 3 => "3" | 4 => "4" | 5 => "5" | 6 => "6"
  | 7 => "7" | 8 => "8" | 9 => "9" | 10 => "a" | 11 => "b" | 12 => "c"
  | 13 => "d" | 14 => "e" | _ => "f"
  end%N%char.

(** [fmt.Sprintf("%x", b)] for a byte array: two lower-case hexadecimal
    digits for every byte. *)
Fixpoint Sprintf_x (b : list Byte.byte) : string :=
  match b with
  | [] => ""
  | x :: b' =>
      String (hexDigit (Byte.to_N x / 16))
             (String (hexDigit (Byte.to_N x mod 16)) (Sprintf_x b'))
  end.

(** What [encoding/json] sees of a [Configuration]: the fields
    [ConfigurationFile] and [Hash] carry the tag [json:"-"]. *)
Definition exported (configuration : Configuration.t)
  : Z * Bridge * Location * WebInterface * list LightSchedule.t :=
  (Configuration.Version configuration, Configuration.Bridge configuration,
   Configuration.Location configuration, Configuration.WebInterface configuration,
   Configuration.Schedules configuration).

(** The assignment [configuration.Hash = hash]. *)
Definition set_Hash (configuration : Configuration.t) (hash : string)
  : Configuration.t :=
  {| Configuration.ConfigurationFile := Configuration.ConfigurationFile configuration;
     Configuration.Hash := hash;
     Configuration.Version := Configuration.Version configuration;
     Configuration.Bridge := Configuration.Bridge configuration;
     Configuration.Location := Configuration.Location configuration;
     Configuration.WebInterface := Configuration.WebInterface configuration;
     Configuration.Schedules := Configuration.Schedules configuration |}.

Section Persistence.

(** The libraries [Write] calls, each with the error it may return. *)
Variable LibraryError : Type.
Variable Marshal :
  Z * Bridge * Location * WebInterface * list LightSchedule.t
  -> list Byte.byte * option LibraryError.
Variable MarshalIndent :
  Z * Bridge * Location * WebInterface * list LightSchedule.t -> string -> string
  -> list Byte.byte * option LibraryError.
Variable Sum256 : list Byte.byte -> list Byte.byte.
Variable JSONToYAML : list Byte.byte -> list Byte.byte * option LibraryError.

(** The files on disk, and [ioutil.WriteFile] with the mode 0644. *)
Variable Disk : Type.
Variable WriteFile :
  Disk -> string -> list Byte.byte -> Z -> Disk * option LibraryError.

(** Modelled from the spec: a configuration is "optionally stored as YAML
    and converted"; [isYAMLFile] is the test on the file name that decides
    it. *)
Variable isYAMLFile : string -> bool.

(** The errors of [Write]: its own, made by [errors.New], and those of the
    libraries. *)
Inductive WriteError : Type :=
| NoFilename (message : string)
| Library (e : LibraryError).

(** [HashValue]: the error of [json.Marshal] is dropped. *)
Definition HashValue (configuration : Configuration.t) : string :=
  let '(json, _) := Marshal (exported configuration) in
  Sprintf_x (Sum256 json).

(** [HasChanged]: the stored hash is empty or differs. *)
Definition HasChanged (configuration : Configuration.t) : bool :=
  if String.eqb (Configuration.Hash configuration) "" then true
  else negb (String.eqb (HashValue configuration) (Configuration.Hash configuration)).

(** [Write], from the files on disk and the configuration to the files on
    disk, the configuration and the error. *)
Definition Write (disk : Disk) (configuration : Configuration.t)
  : Disk * Configuration.t * option WriteError :=
  if String.eqb (Configuration.ConfigurationFile configuration) "" then
    (disk, configuration, Some (NoFilename "No configuration filename configured"))
  else if negb (HasChanged configuration) then
    (disk, configuration, None)
  else
    match MarshalIndent (exported configuration) "" "  " with
    | (_, Some err) => (disk, configuration, Some (Library err))
    | (raw, None) =>
        (* Convert JSON to YAML if needed *)
        match (if isYAMLFile (Configuration.ConfigurationFile configuration)
               then JSONToYAML raw else (raw, None)) with
        | (_, Some err) => (disk, configuration, Some (Library err))
        | (raw, None) =>
            match WriteFile disk (Configuration.ConfigurationFile configuration)
                            raw 420 with
            | (disk, Some err) => (disk, configuration, Some (Library err))
            | (disk, None) =>
                (disk, set_Hash configuration (HashValue configuration), None)
            end
        end
    end.

End Persistence.

(** Files kept in a list, a [WriteFile] that stores and one that fails, an
    encoder with an empty output and a digest of 32 zero bytes. *)
Definition storeFile (disk : list (string * list Byte.byte)) (name : string)
           (raw : list Byte.byte) (mode : Z)
  : list (string * list Byte.byte) * option unit :=
  ((name, raw) :: disk, None).

Definition refuseFile (disk : list (string * list Byte.byte)) (name : string)
           (raw : list Byte.byte) (mode : Z)
  : list (string * list Byte.byte) * option unit :=
  (disk, Some tt).

Definition emptyDocument
           (v : Z * Bridge * Location * WebInterface * list LightSchedule.t)
  : list Byte.byte * option unit := ([], None).

Definition zeroDigest (b : list Byte.byte) : list Byte.byte := repeat Byte.x00 32.

(** A new-style schedule for the light 1 whose lights are to be enabled
    when they appear. *)
Definition appearingConfiguration : Configuration.t :=
  withSchedules emptyScheduleConfiguration
    [ {| LightSchedule.Name := "sun";
         LightSchedule.AssociatedDeviceIDs := [1];
         LightSchedule.EnableWhenLightsAppear := true;
         LightSchedule.DefaultColorTemperature := 2750;
         LightSchedule.DefaultBrightness := 100;
         LightSchedule.BeforeSunrise := [];
         LightSchedule.AfterSunset := [];
         LightSchedule.Schedule := sunSchedule |} ].

(** * Properties *)

(** Sanity of the calendar on the days of the test of the repository. *)
Example civil_2021_04_28 :
  time.Time.Date (time.Date 2021 4 28 0 0 1 0 time.UTC) = (2021, 4, 28)
  /\ time.Time.Clock (time.Date 2021 4 28 7 30 0 0 time.UTC) = (7, 30, 0)
  /\ time.AddDate (time.Date 2021 4 28 0 0 1 0 time.UTC) 0 0 (-1)
     = time.Date 2021 4 27 0 0 1 0 time.UTC
  /\ time.AddDate (time.Date 2021 2 28 10 0 0 0 time.UTC) 0 0 1
     = time.Date 2021 3 1 10 0 0 0 time.UTC
  /\ time.Time.instant (time.Date 1970 1 1 0 0 0 0 time.UTC) = 0
  /\ time.Time.instant (time.Date 2021 4 28 0 0 0 0 time.UTC) = 1619568000 * 10 ^ 9
  /\ time.Time.instant time.zero = -62135596800 * 10 ^ 9.
Proof. vm_compute. repeat split; reflexivity. Qed.

(** The two directions of the calendar agree on every day from 1 January
    2015 to the end of 2035. *)
Example calendar_2015_2035 : calendarAgreesFrom (Z.to_nat 7670) 16436 = true.
Proof. vm_compute. reflexivity. Qed.

(** ** Indexing and the order of instants *)

Lemma index_last {A : Type} (l : list A) (a : A) :
  index (l ++ [a]) (len (l ++ [a]) - 1) = Returns a.
Proof.
  unfold index, len. rewrite length_app. simpl List.length.
  replace (Z.of_nat (List.length l + 1) - 1) with (Z.of_nat (List.length l)) by lia.
  destruct (Z.ltb_spec (Z.of_nat (List.length l)) 0) as [H | _]; [ lia | ].
  rewrite Nat2Z.id, nth_error_app2, Nat.sub_diag by lia. reflexivity.
Qed.

Lemma index_Returns {A : Type} (l : list A) (i : Z) (a : A) :
  index l i = Returns a -> 0 <= i /\ nth_error l (Z.to_nat i) = Some a.
Proof.
  unfold index. destruct (Z.ltb_spec i 0) as [H | H]; [ discriminate | ].
  destruct (nth_error l (Z.to_nat i)) eqn:E; [ | discriminate ].
  intros [= ->]. auto.
Qed.

Lemma not_after (a b : time.Time.t) :
  time.Time.Before a b || time.Time.Equal a b = negb (time.Time.After a b).
Proof.
  unfold time.Time.Before, time.Time.Equal, time.Time.After.
  destruct (Z.ltb_spec (time.Time.instant a) (time.Time.instant b));
    destruct (Z.eqb_spec (time.Time.instant a) (time.Time.instant b));
    destruct (Z.ltb_spec (time.Time.instant b) (time.Time.instant a));
    simpl; try reflexivity; lia.
Qed.

(** ** Colours are copied by [AsTimestamp2] *)

Ltac destruct_matches :=
  repeat match goal with
         | |- context [match ?x with _ => _ end] => destruct x eqn:?
         | |- context [if ?b then _ else _] => destruct b eqn:?
         end.

Lemma AsTimestamp2_colors now color referenceTime sunrise sunset ts timeType err :
  AsTimestamp2 now color referenceTime sunrise sunset = Returns (ts, timeType, err) ->
  colors ts = entryColors color.
Proof.
  unfold AsTimestamp2, bind.
  destruct_matches; intros [= <- <- <-]; reflexivity.
Qed.

(** ** The loop computes [steps] *)

Lemma rangeSchedule_steps now sunrise sunset date entries :
  forall acc previous lastTimeType timeStamps timeType,
    rangeSchedule now entries sunrise sunset date (acc ++ [previous]) lastTimeType
    = Returns (timeStamps, timeType, None) ->
    exists out,
      timeStamps = (acc ++ [previous]) ++ out
      /\ steps now sunrise sunset date entries previous out.
Proof.
  induction entries as [ | e entries IH ]; intros acc previous ty0 timeStamps ty.
  - simpl. intros [= <- <-]. exists []. rewrite app_nil_r. split; constructor.
  - simpl. unfold bind at 1.
    destruct (AsTimestamp2 now e date sunrise sunset) as [ [[timestamp timeType] err] | ] eqn:E;
      [ | discriminate ].
    destruct err as [ err | ]; [ discriminate | ].
    rewrite index_last. unfold bind at 1.
    intros H.
    change (rangeSchedule now entries sunrise sunset date
              ((acc ++ [previous]) ++ [stored previous timestamp]) timeType
            = Returns (timeStamps, ty, None)) in H.
    apply IH in H. destruct H as (out & -> & Hsteps).
    exists (stored previous timestamp :: out). split.
    + rewrite <- app_assoc. reflexivity.
    + econstructor; eassumption.
Qed.

Lemma steps_length now sunrise sunset date entries previous out :
  steps now sunrise sunset date entries previous out ->
  List.length out = List.length entries.
Proof. induction 1; simpl; congruence. Qed.

Lemma steps_colors now sunrise sunset date entries previous out :
  steps now sunrise sunset date entries previous out ->
  map colors out = map entryColors entries.
Proof.
  induction 1 as [ | e entries previous timestamp timeType out E _ IH ]; simpl.
  - reflexivity.
  - f_equal; [ | exact IH ].
    apply AsTimestamp2_colors in E. rewrite <- E.
    unfold stored. destruct (_ || _); reflexivity.
Qed.

Lemma steps_nth now sunrise sunset date entries previous out :
  steps now sunrise sunset date entries previous out ->
  forall i e,
    nth_error entries i = Some e ->
    exists before timestamp timeType,
      nth_error (previous :: out) i = Some before
      /\ AsTimestamp2 now e date sunrise sunset = Returns (timestamp, timeType, None)
      /\ nth_error (previous :: out) (S i) = Some (stored before timestamp).
Proof.
  induction 1 as [ | e0 entries previous timestamp timeType out E _ IH ];
    intros i e Hi.
  - destruct i; discriminate.
  - destruct i as [ | i ].
    + injection Hi as <-. exists previous, timestamp, timeType. auto.
    + apply IH in Hi. destruct Hi as (before & t & ty & H1 & H2 & H3).
      exists before, t, ty. auto.
Qed.

(** The shape of every successful build: the seed of the previous day, the
    elements of the loop, the seed of the next day. *)
Lemma ComputeNewStyleSchedule_Returns now configSchedule sunrise sunset date timeStamps :
  ComputeNewStyleSchedule now configSchedule sunrise sunset date
  = Returns (timeStamps, None) ->
  exists lastSchedule first seed seedType out next nextType,
    nth_error configSchedule (List.length configSchedule - 1) = Some lastSchedule
    /\ nth_error configSchedule 0 = Some first
    /\ AsTimestamp2 now lastSchedule (time.AddDate date 0 0 (-1)) sunrise sunset
       = Returns (seed, seedType, None)
    /\ AsTimestamp2 now first (time.AddDate date 0 0 1) sunrise sunset
       = Returns (next, nextType, None)
    /\ steps now sunrise sunset date configSchedule seed out
    /\ timeStamps = seed :: out ++ [next].
Proof.
  unfold ComputeNewStyleSchedule.
  destruct (index configSchedule (len configSchedule - 1)) as [ lastSchedule | ] eqn:Elast;
    [ | discriminate ].
  unfold bind at 1.
  destruct (AsTimestamp2 now lastSchedule (time.AddDate date 0 0 (-1)) sunrise sunset)
    as [ [[seed seedType] err] | ] eqn:Eseed; [ | discriminate ].
  unfold bind at 1.
  destruct err; [ discriminate | ].
  destruct (rangeSchedule now configSchedule sunrise sunset date ([] ++ [seed]) seedType)
    as [ [[ts ty] err] | ] eqn:Eloop; [ | discriminate ].
  unfold bind at 1.
  destruct err; [ discriminate | ].
  destruct (index configSchedule 0) as [ first | ] eqn:Efirst; [ | discriminate ].
  unfold bind at 1.
  destruct (AsTimestamp2 now first (time.AddDate date 0 0 1) sunrise sunset)
    as [ [[next nextType] err] | ] eqn:Enext; [ | discriminate ].
  unfold bind at 1.
  destruct err; [ discriminate | ].
  intros [= <-].
  apply rangeSchedule_steps in Eloop. destruct Eloop as (out & -> & Hsteps).
  apply index_Returns in Elast. destruct Elast as [Hlen Elast].
  apply index_Returns in Efirst. destruct Efirst as [_ Efirst].
  exists lastSchedule, first, seed, seedType, out, next, nextType.
  repeat split; try assumption.
  unfold len in *.
  replace (List.length configSchedule - 1)%nat
    with (Z.to_nat (Z.of_nat (List.length configSchedule) - 1)) by lia.
  exact Elast.
Qed.

(** Conversely, the build succeeds as soon as the schedule is not empty and
    every call of [AsTimestamp2] it makes returns without error. *)
Lemma steps_rangeSchedule now sunrise sunset date entries previous out :
  steps now sunrise sunset date entries previous out ->
  forall acc lastTimeType,
  exists timeType,
    rangeSchedule now entries sunrise sunset date (acc ++ [previous]) lastTimeType
    = Returns ((acc ++ [previous]) ++ out, timeType, None).
Proof.
  induction 1 as [ | e entries previous timestamp timeType out E _ IH ];
    intros acc ty0.
  - exists ty0. simpl. rewrite app_nil_r. reflexivity.
  - destruct (IH (acc ++ [previous]) timeType) as [ty Hty].
    exists ty. simpl. rewrite E. unfold bind at 1.
    rewrite index_last. unfold bind at 1.
    change (rangeSchedule now entries sunrise sunset date
              ((acc ++ [previous]) ++ [stored previous timestamp]) timeType
            = Returns ((acc ++ [previous]) ++ stored previous timestamp :: out,
                       ty, None)).
    rewrite Hty. rewrite <- app_assoc. reflexivity.
Qed.

Lemma steps_exist now sunrise sunset date entries :
  Forall (fun e => exists timestamp timeType,
              AsTimestamp2 now e date sunrise sunset
              = Returns (timestamp, timeType, None)) entries ->
  forall previous, exists out, steps now sunrise sunset date entries previous out.
Proof.
  induction 1 as [ | e entries (timestamp & timeType & E) _ IH ]; intros previous.
  - exists []. constructor.
  - destruct (IH (stored previous timestamp)) as [out Hout].
    exists (stored previous timestamp :: out). econstructor; eassumption.
Qed.

Lemma ComputeNewStyleSchedule_succeeds now first rest sunrise sunset date
      seed seedType next nextType :
  AsTimestamp2 now (last (first :: rest) first) (time.AddDate date 0 0 (-1))
               sunrise sunset
  = Returns (seed, seedType, None) ->
  AsTimestamp2 now first (time.AddDate date 0 0 1) sunrise sunset
  = Returns (next, nextType, None) ->
  Forall (fun e => exists timestamp timeType,
              AsTimestamp2 now e date sunrise sunset
              = Returns (timestamp, timeType, None)) (first :: rest) ->
  exists out,
    ComputeNewStyleSchedule now (first :: rest) sunrise sunset date
    = Returns (seed :: out ++ [next], None).
Proof.
  intros Eseed Enext Hall.
  destruct (@steps_exist now sunrise sunset date (first :: rest) Hall seed)
    as [out Hsteps].
  destruct (@steps_rangeSchedule now sunrise sunset date (first :: rest) seed out
              Hsteps [] seedType) as [ty Hty].
  exists out. unfold ComputeNewStyleSchedule.
  assert (Hlast : index (first :: rest) (len (first :: rest) - 1)
                  = Returns (last (first :: rest) first)).
  { destruct (@exists_last _ (first :: rest)) as (l & a & Hl); [ discriminate | ].
    rewrite Hl, index_last, last_last. reflexivity. }
  rewrite Hlast. unfold bind at 1. rewrite Eseed. unfold bind at 1.
  rewrite Hty. unfold bind at 1.
  change (index (first :: rest) 0) with (Returns first). unfold bind at 1.
  rewrite Enext. reflexivity.
Qed.

(** ** The shape of the day schedule *)

(** C1.  Whenever [ComputeNewStyleSchedule] succeeds on a schedule of N
    entries, it returns exactly N+2 elements: a seed that carries the colour
    temperature and brightness of the last entry, then one element for each
    entry, in the order of the entries and with the colours of its entry,
    then a seed that carries the colours of the first entry. *)
Theorem schedule_has_two_seeds now configSchedule sunrise sunset date timeStamps :
  ComputeNewStyleSchedule now configSchedule sunrise sunset date
  = Returns (timeStamps, None) ->
  List.length timeStamps = (List.length configSchedule + 2)%nat
  /\ exists lastSchedule first seed out next,
       nth_error configSchedule (List.length configSchedule - 1) = Some lastSchedule
       /\ nth_error configSchedule 0 = Some first
       /\ timeStamps = seed :: out ++ [next]
       /\ List.length out = List.length configSchedule
       /\ colors seed = entryColors lastSchedule
       /\ map colors out = map entryColors configSchedule
       /\ colors next = entryColors first.
Proof.
  intros H. apply ComputeNewStyleSchedule_Returns in H.
  destruct H as (lastSchedule & first & seed & seedType & out & next & nextType
                 & Hlast & Hfirst & Eseed & Enext & Hsteps & ->).
  pose proof (steps_length Hsteps) as Hlen.
  split.
  - simpl. rewrite length_app. simpl. lia.
  - exists lastSchedule, first, seed, out, next.
    repeat split; try assumption.
    + eapply AsTimestamp2_colors; eassumption.
    + eapply steps_colors; eassumption.
    + eapply AsTimestamp2_colors; eassumption.
Qed.

Lemma schedule_has_two_seeds_witness :
  List.length expectedTimes = (List.length daySchedule + 2)%nat
  /\ exists lastSchedule first seed out next,
       nth_error daySchedule (List.length daySchedule - 1) = Some lastSchedule
       /\ nth_error daySchedule 0 = Some first
       /\ expectedTimes = seed :: out ++ [next]
       /\ List.length out = List.length daySchedule
       /\ colors seed = entryColors lastSchedule
       /\ map colors out = map entryColors daySchedule
       /\ colors next = entryColors first.
Proof.
  apply (@schedule_has_two_seeds time.zero daySchedule MockSunrise MockSunset testDate).
  vm_compute. reflexivity.
Defined.

(** An empty schedule is no input of the builder: it panics on it. *)
Lemma ComputeNewStyleSchedule_nil now sunrise sunset date :
  ComputeNewStyleSchedule now [] sunrise sunset date = Panics (IndexOutOfRange (-1) 0).
Proof. reflexivity. Qed.

(** ** The clamp *)

(** C3.  In a successful build, the element stored for the entry of index
    [i] follows the element of index [i] of the result (the seed of the
    previous day for the first entry, the element stored for the entry
    before it otherwise).  It is the resolution of the entry on the day
    [date], with one change: when the resolved instant is not strictly after
    the instant of that previous element, the instant stored is the previous
    instant plus one minute.  The previous element is the one stored, so a
    clamped element clamps the next entry in turn. *)
Theorem same_day_entry_clamped now configSchedule sunrise sunset date timeStamps :
  ComputeNewStyleSchedule now configSchedule sunrise sunset date
  = Returns (timeStamps, None) ->
  forall i e,
    nth_error configSchedule i = Some e ->
    exists previous timestamp timeType,
      nth_error timeStamps i = Some previous
      /\ AsTimestamp2 now e date sunrise sunset = Returns (timestamp, timeType, None)
      /\ nth_error timeStamps (S i)
         = Some (if negb (time.Time.After (TimeStamp.Time timestamp)
                                          (TimeStamp.Time previous))
                 then TimeStamp.set_Time timestamp
                        (time.Time.Add (TimeStamp.Time previous) time.Minute)
                 else timestamp).
Proof.
  intros H i e Hi. apply ComputeNewStyleSchedule_Returns in H.
  destruct H as (lastSchedule & first & seed & seedType & out & next & nextType
                 & _ & _ & _ & _ & Hsteps & ->).
  pose proof (steps_length Hsteps) as Hlen.
  assert (i < List.length configSchedule)%nat as Hlt
      by (apply nth_error_Some; congruence).
  destruct (steps_nth Hsteps _ Hi) as (previous & timestamp & timeType & H1 & H2 & H3).
  exists previous, timestamp, timeType.
  change (seed :: out ++ [next]) with ((seed :: out) ++ [next]).
  rewrite !nth_error_app1 by (simpl; lia).
  rewrite <- not_after. auto.
Qed.

Lemma same_day_entry_clamped_witness :
  exists previous timestamp timeType,
    nth_error
      [ stamp (time.Date 2021 4 28 7 30 0 0 time.UTC) 2700 60;
        stamp (time.Date 2021 4 28 7 31 0 0 time.UTC) 2700 60;
        stamp (time.Date 2021 4 28 7 30 0 0 time.UTC) 2700 60 ] 0 = Some previous
    /\ AsTimestamp2 time.zero (entry "sunrise" 2700 60) testDate MockSunrise MockSunset
       = Returns (timestamp, timeType, None)
    /\ nth_error
         [ stamp (time.Date 2021 4 28 7 30 0 0 time.UTC) 2700 60;
           stamp (time.Date 2021 4 28 7 31 0 0 time.UTC) 2700 60;
           stamp (time.Date 2021 4 28 7 30 0 0 time.UTC) 2700 60 ] 1
       = Some (if negb (time.Time.After (TimeStamp.Time timestamp)
                                        (TimeStamp.Time previous))
               then TimeStamp.set_Time timestamp
                      (time.Time.Add (TimeStamp.Time previous) time.Minute)
               else timestamp).
Proof.
  apply (@same_day_entry_clamped time.zero [entry "sunrise" 2700 60]
           MockSunrise MockSunset testDate).
  - vm_compute. reflexivity.
  - reflexivity.
Defined.

(** The elements up to the last entry of the day are strictly increasing:
    each is stored after its predecessor. *)
Lemma stored_after previous timestamp :
  time.Time.Before (TimeStamp.Time previous)
                   (TimeStamp.Time (stored previous timestamp)) = true.
Proof.
  unfold stored. rewrite not_after. unfold time.Time.After, time.Time.Before.
  destruct (Z.ltb_spec (time.Time.instant (TimeStamp.Time previous))
                       (time.Time.instant (TimeStamp.Time timestamp))); simpl.
  - apply Z.ltb_lt. assumption.
  - apply Z.ltb_lt. unfold time.Minute, time.Second, time.Nanosecond. lia.
Qed.

Lemma steps_increasing now sunrise sunset date entries previous out :
  steps now sunrise sunset date entries previous out ->
  increasing (previous :: out) = true.
Proof.
  induction 1 as [ | e entries previous timestamp timeType out E _ IH ].
  - reflexivity.
  - unfold increasing in *. simpl adjacent.
    rewrite stored_after. exact IH.
Qed.

(** X10.  In a successful build the elements up to the last entry of the
    day, that is the seed of the previous day followed by the entries of
    the day as they are stored, are strictly increasing in time. *)
Lemma same_day_elements_increasing now configSchedule sunrise sunset date timeStamps :
  ComputeNewStyleSchedule now configSchedule sunrise sunset date
  = Returns (timeStamps, None) ->
  increasing (removelast timeStamps) = true.
Proof.
  intros H. apply ComputeNewStyleSchedule_Returns in H.
  destruct H as (lastSchedule & first & seed & seedType & out & next & nextType
                 & _ & _ & _ & _ & Hsteps & ->).
  change (seed :: out ++ [next]) with ((seed :: out) ++ [next]).
  rewrite removelast_last. eapply steps_increasing; eassumption.
Qed.

(** ** The two seeds *)

(** What the builder does for its two seeds.  In a successful build the
    first element is the last entry resolved with the day before [date] as
    its reference day, and the last element is the first entry resolved with
    the day after [date] as its reference day; both are resolved with the
    same sunrise and sunset instants the builder was given, which are also
    those of the entries of the day. *)
Lemma seeds_use_given_sun_instants now configSchedule sunrise sunset date timeStamps :
  ComputeNewStyleSchedule now configSchedule sunrise sunset date
  = Returns (timeStamps, None) ->
  exists lastSchedule first seed seedType next nextType,
    nth_error configSchedule (List.length configSchedule - 1) = Some lastSchedule
    /\ nth_error configSchedule 0 = Some first
    /\ AsTimestamp2 now lastSchedule (time.AddDate date 0 0 (-1)) sunrise sunset
       = Returns (seed, seedType, None)
    /\ AsTimestamp2 now first (time.AddDate date 0 0 1) sunrise sunset
       = Returns (next, nextType, None)
    /\ nth_error timeStamps 0 = Some seed
    /\ nth_error timeStamps (List.length timeStamps - 1) = Some next.
Proof.
  intros H. apply ComputeNewStyleSchedule_Returns in H.
  destruct H as (lastSchedule & first & seed & seedType & out & next & nextType
                 & Hlast & Hfirst & Eseed & Enext & Hsteps & ->).
  exists lastSchedule, first, seed, seedType, next, nextType.
  repeat split; try assumption.
  change (seed :: out ++ [next]) with ((seed :: out) ++ [next]).
  rewrite length_app.
  replace (List.length (seed :: out) + List.length [next] - 1)%nat
    with (List.length (seed :: out)) by (simpl; lia).
  rewrite nth_error_app2, Nat.sub_diag by lia.
  reflexivity.
Qed.

(** C4, at a schedule from sunrise to sunset and a calculator that follows
    the date.  The specification resolves the seed of the previous day with
    the sunset of 27 April and the seed of the next day with the sunrise of
    29 April.  [lightScheduleForDay] asks the calculator for the day itself
    only, and the builder resolves both seeds with these instants: the
    first element is the sunset of 28 April and the last one its sunrise. *)
Theorem seeds_resolved_with_sun_of_the_day (now : time.Time.t) :
  let previousDay := time.AddDate testDate 0 0 (-1) in
  let nextDay := time.AddDate testDate 0 0 1 in
  (exists schedule,
     lightScheduleForDay now sunConfiguration 1 testDate dailyCalculator
     = Returns (schedule, None)
     /\ Schedule.times schedule
        = [ stamp (time.Date 2021 4 28 20 0 0 0 time.UTC) 2700 80;
            stamp (time.Date 2021 4 28 20 1 0 0 time.UTC) 2700 60;
            stamp (time.Date 2021 4 28 20 2 0 0 time.UTC) 5000 100;
            stamp (time.Date 2021 4 28 20 3 0 0 time.UTC) 2700 80;
            stamp (time.Date 2021 4 28 7 30 0 0 time.UTC) 2700 60 ])
  /\ AsTimestamp2 now (entry "sunset" 2700 80) previousDay
       (CalculateSunrise dailyCalculator previousDay 0%float 0%float)
       (CalculateSunset dailyCalculator previousDay 0%float 0%float)
     = Returns (stamp (time.Date 2021 4 27 20 0 0 0 time.UTC) 2700 80, Sunset, None)
  /\ AsTimestamp2 now (entry "sunrise" 2700 60) nextDay
       (CalculateSunrise dailyCalculator nextDay 0%float 0%float)
       (CalculateSunset dailyCalculator nextDay 0%float 0%float)
     = Returns (stamp (time.Date 2021 4 29 7 30 0 0 time.UTC) 2700 60, Sunrise, None).
Proof.
  cbv zeta. split; [ eexists; split; vm_compute; reflexivity | ].
  split; vm_compute; reflexivity.
Qed.

(** ** The schedule of a light *)

Lemma find_first_match {A : Type} (f : A -> bool) (before : list A) (a : A)
      (after : list A) :
  Forall (fun x => f x = false) before ->
  f a = true ->
  find f (before ++ a :: after) = Some a.
Proof.
  induction 1 as [ | x before Hx _ IH ]; intros Ha; simpl.
  - rewrite Ha. reflexivity.
  - rewrite Hx. auto.
Qed.

Lemma find_no_match {A : Type} (f : A -> bool) (l : list A) :
  Forall (fun x => f x = false) l -> find f l = None.
Proof.
  induction 1 as [ | x l Hx _ IH ]; simpl; [ | rewrite Hx ]; auto.
Qed.

(** C9.  [lightScheduleForDay] selects the first schedule, in the order of
    the configuration, whose [AssociatedDeviceIDs] contains the light: what
    it returns is computed from that schedule, from its default colours and
    from its lists of entries, whatever schedules come after it.  When no
    schedule contains the light, it returns the error that the light is not
    associated with any schedule, with a schedule that holds the end of the
    day and no resolved point. *)
Theorem first_matching_schedule_is_selected now configuration light date calculator :
  (forall before candidate after,
      Configuration.Schedules configuration = before ++ candidate :: after ->
      Forall (fun c => containsInt (LightSchedule.AssociatedDeviceIDs c) light = false)
             before ->
      containsInt (LightSchedule.AssociatedDeviceIDs candidate) light = true ->
      lightScheduleForDay now configuration light date calculator
      = scheduleFrom now configuration candidate date calculator)
  /\ (Forall (fun c => containsInt (LightSchedule.AssociatedDeviceIDs c) light = false)
             (Configuration.Schedules configuration) ->
      lightScheduleForDay now configuration light date calculator
      = Returns (unscheduled date, Some (LightNotAssociated light))
      /\ Schedule.times (unscheduled date) = []
      /\ Schedule.beforeSunrise (unscheduled date) = []
      /\ Schedule.afterSunset (unscheduled date) = []).
Proof.
  split.
  - intros before candidate after Hcfg Hbefore Hcandidate.
    unfold lightScheduleForDay, scheduleFrom, unscheduled. rewrite Hcfg.
    pose proof (@find_first_match _
                  (fun c => containsInt (LightSchedule.AssociatedDeviceIDs c) light)
                  before candidate after Hbefore Hcandidate) as Hfind.
    rewrite Hfind.
    destruct (time.Time.Date date) as [[yr mth] dy].
    cbn [Schedule.endOfDay].
    destruct (LightSchedule.Schedule candidate) as [ | first rest ]; [ reflexivity | ].
    change (0 <? len (first :: rest)) with true. cbv iota.
    destruct (ComputeNewStyleSchedule _ _ _ _ _) as [ [ts [ e | ]] | ]; reflexivity.
  - intros Hnone. unfold lightScheduleForDay, unscheduled.
    pose proof (@find_no_match _
                  (fun c => containsInt (LightSchedule.AssociatedDeviceIDs c) light)
                  _ Hnone) as Hfind.
    rewrite Hfind.
    destruct (time.Time.Date date) as [[yr mth] dy]. auto.
Qed.

Lemma first_matching_schedule_is_selected_witness :
  lightScheduleForDay time.zero
    (withSchedules sunConfiguration
       (Configuration.Schedules emptyScheduleConfiguration
        ++ Configuration.Schedules sunConfiguration))
    1 testDate MockSunStateCalculator
  = scheduleFrom time.zero
      (withSchedules sunConfiguration
         (Configuration.Schedules emptyScheduleConfiguration
          ++ Configuration.Schedules sunConfiguration))
      {| LightSchedule.Name := "default";
         LightSchedule.AssociatedDeviceIDs := [1];
         LightSchedule.EnableWhenLightsAppear := false;
         LightSchedule.DefaultColorTemperature := 2750;
         LightSchedule.DefaultBrightness := 100;
         LightSchedule.BeforeSunrise := [entry "4:00" 2000 60];
         LightSchedule.AfterSunset := [entry "20:00" 2300 80; entry "22:00" 2000 60];
         LightSchedule.Schedule := [] |}
      testDate MockSunStateCalculator
  /\ lightScheduleForDay time.zero sunConfiguration 2 testDate MockSunStateCalculator
     = Returns (unscheduled testDate, Some (LightNotAssociated 2)).
Proof.
  split.
  - apply (proj1 (first_matching_schedule_is_selected time.zero
                    (withSchedules sunConfiguration
                       (Configuration.Schedules emptyScheduleConfiguration
                        ++ Configuration.Schedules sunConfiguration))
                    1 testDate MockSunStateCalculator)
                 [] _ (Configuration.Schedules sunConfiguration)).
    + reflexivity.
    + constructor.
    + reflexivity.
  - apply (proj2 (first_matching_schedule_is_selected time.zero sunConfiguration
                    2 testDate MockSunStateCalculator)).
    repeat constructor.
Defined.

(** C8, as the code has it.  When the schedule selected for the light has an
    empty list of new-style entries, [lightScheduleForDay] does not fail: it
    takes the old-style path and returns, with no error, a schedule without
    new-style points whose before-sunrise and after-sunset points are the
    old-style entries that parse. *)
Theorem empty_schedule_takes_old_style now configuration light date calculator
        lightSchedule :
  find (fun candidate =>
          containsInt (LightSchedule.AssociatedDeviceIDs candidate) light)
       (Configuration.Schedules configuration) = Some lightSchedule ->
  LightSchedule.Schedule lightSchedule = [] ->
  exists schedule,
    lightScheduleForDay now configuration light date calculator
    = Returns (schedule, None)
    /\ Schedule.times schedule = []
    /\ Schedule.beforeSunrise schedule
       = rangeCandidates now (LightSchedule.BeforeSunrise lightSchedule) date []
    /\ Schedule.afterSunset schedule
       = rangeCandidates now (LightSchedule.AfterSunset lightSchedule) date []
    /\ Schedule.enableWhenLightsAppear schedule
       = LightSchedule.EnableWhenLightsAppear lightSchedule.
Proof.
  intros Hfind Hempty. unfold lightScheduleForDay.
  rewrite Hfind, Hempty. simpl.
  destruct (time.Time.Date date) as [[yr mth] dy].
  eexists. split; [ reflexivity | ]. simpl. auto.
Qed.

Lemma empty_schedule_takes_old_style_witness :
  exists schedule,
    lightScheduleForDay time.zero emptyScheduleConfiguration 1 testDate
                        MockSunStateCalculator
    = Returns (schedule, None)
    /\ Schedule.times schedule = []
    /\ Schedule.beforeSunrise schedule
       = rangeCandidates time.zero [entry "4:00" 2000 60] testDate []
    /\ Schedule.afterSunset schedule
       = rangeCandidates time.zero [entry "20:00" 2300 80; entry "22:00" 2000 60]
                         testDate []
    /\ Schedule.enableWhenLightsAppear schedule = false.
Proof.
  apply (@empty_schedule_takes_old_style time.zero emptyScheduleConfiguration 1
           testDate MockSunStateCalculator
           {| LightSchedule.Name := "default";
              LightSchedule.AssociatedDeviceIDs := [1];
              LightSchedule.EnableWhenLightsAppear := false;
              LightSchedule.DefaultColorTemperature := 2750;
              LightSchedule.DefaultBrightness := 100;
              LightSchedule.BeforeSunrise := [entry "4:00" 2000 60];
              LightSchedule.AfterSunset :=
                [entry "20:00" 2300 80; entry "22:00" 2000 60];
              LightSchedule.Schedule := [] |}).
  - reflexivity.
  - reflexivity.
Defined.

(** ** Successful runs of the matcher *)

(** A greedy repetition succeeds with its longest run when what follows
    succeeds after it. *)
Lemma star_longest (R : Type) (p : ascii -> bool) (s : string) :
  forall (k : string -> string -> option R) (x : R),
    k (regexp.take_while p s) (regexp.drop_while p s) = Some x ->
    regexp.star p s k = Some x.
Proof.
  induction s as [ | c s IH ]; intros k x H; simpl in *.
  - exact H.
  - destruct (p c).
    + rewrite (IH (fun t rest => k (String c t) rest) x H). reflexivity.
    + exact H.
Qed.

Lemma take_drop_app (p : ascii -> bool) (a b : string) :
  regexp.every p a = true ->
  regexp.stops p b = true ->
  regexp.take_while p (a ++ b) = a /\ regexp.drop_while p (a ++ b) = b.
Proof.
  induction a as [ | c a IH ]; simpl; intros Ha Hb.
  - destruct b as [ | c b ]; simpl in *; [ auto | ].
    destruct (p c); [ discriminate | auto ].
  - apply andb_true_iff in Ha. destruct Ha as [Hc Ha].
    rewrite Hc. destruct (IH Ha Hb) as [-> ->]. auto.
Qed.

Section RunSuccess.
Variable R : Type.
Implicit Types (k : string -> string -> list string -> option R) (x : R).

Lemma run_Star_Some p a b caps k x :
  regexp.every p a = true ->
  regexp.stops p b = true ->
  k a b caps = Some x ->
  regexp.run (regexp.Star p) (a ++ b) caps k = Some x.
Proof.
  intros Ha Hb Hk. cbn [regexp.run]. apply star_longest.
  destruct (take_drop_app p a b Ha Hb) as [-> ->]. exact Hk.
Qed.

Lemma run_Star_rest p s caps k x :
  k (regexp.take_while p s) (regexp.drop_while p s) caps = Some x ->
  regexp.run (regexp.Star p) s caps k = Some x.
Proof. intros Hk. cbn [regexp.run]. apply star_longest. exact Hk. Qed.

Lemma run_Literal_Some l s s' caps k x :
  regexp.strip_prefix l s = Some s' ->
  k l s' caps = Some x ->
  regexp.run (regexp.Literal l) s caps k = Some x.
Proof. intros Hl Hk. cbn [regexp.run]. rewrite Hl. exact Hk. Qed.

Lemma run_CharClass_Some p c s caps k x :
  p c = true ->
  k (String c "") s caps = Some x ->
  regexp.run (regexp.CharClass p) (String c s) caps k = Some x.
Proof. intros Hc Hk. cbn [regexp.run]. rewrite Hc. exact Hk. Qed.

Lemma run_Alternate_left r1 r2 s caps k x :
  regexp.run r1 s caps k = Some x ->
  regexp.run (regexp.Alternate r1 r2) s caps k = Some x.
Proof. intros H. cbn [regexp.run]. rewrite H. reflexivity. Qed.

Lemma run_Alternate_right r1 r2 s caps k x :
  regexp.run r1 s caps k = None ->
  regexp.run r2 s caps k = Some x ->
  regexp.run (regexp.Alternate r1 r2) s caps k = Some x.
Proof. intros H1 H2. cbn [regexp.run]. rewrite H1. exact H2. Qed.

Lemma run_Concat_eq r1 r2 s caps k :
  regexp.run (regexp.Concat r1 r2) s caps k
  = regexp.run r1 s caps (fun t1 s1 caps1 =>
    regexp.run r2 s1 caps1 (fun t2 s2 caps2 => k (t1 ++ t2)%string s2 caps2)).
Proof. reflexivity. Qed.

Lemma run_Capture_eq n r s caps k :
  regexp.run (regexp.Capture n r) s caps k
  = regexp.run r s caps (fun t rest caps1 => k t rest (regexp.set_nth n t caps1)).
Proof. reflexivity. Qed.

Lemma run_CharClass_None p c s caps k :
  p c = false -> regexp.run (regexp.CharClass p) (String c s) caps k = None.
Proof. intros Hc. cbn [regexp.run]. rewrite Hc. reflexivity. Qed.
End RunSuccess.

Lemma space_not_digit c : regexp.perl_s c = true -> regexp.perl_d c = false.
Proof.
  destruct c as [[] [] [] [] [] [] [] []]; vm_compute; congruence.
Qed.

Lemma digit_not_space c : regexp.perl_d c = true -> regexp.perl_s c = false.
Proof.
  destruct c as [[] [] [] [] [] [] [] []]; vm_compute; congruence.
Qed.

Lemma stops_digits_before_unit ws rest :
  regexp.every regexp.perl_s ws = true ->
  regexp.stops regexp.perl_d (ws ++ String "m" rest) = true.
Proof.
  intros Hws. destruct ws as [ | a ws ]; cbn [String.append regexp.stops regexp.every] in *.
  - reflexivity.
  - apply andb_true_iff in Hws. destruct Hws as [Ha _].
    rewrite (@space_not_digit _ Ha). reflexivity.
Qed.

Lemma strlen_app_cons a c b : (0 <? strlen (a ++ String c b)) = true.
Proof.
  apply Z.ltb_lt. unfold strlen.
  induction a as [ | x a IH ]; cbn [String.append String.length]; lia.
Qed.

(** The first alternative of the pattern needs a digit. *)
Lemma time_alternative_None (R : Type) c s caps (k : string -> string -> list string -> option R) r :
  regexp.perl_d c = false ->
  regexp.run (regexp.Capture 1 (regexp.Concat (regexp.Repeat12 regexp.perl_d) r))
             (String c s) caps k = None.
Proof.
  intros Hc. cbn [regexp.run regexp.Repeat12]. rewrite Hc. reflexivity.
Qed.

Ltac run_unfold :=
  cbv beta; repeat first [ rewrite run_Concat_eq | rewrite run_Capture_eq ]; cbv beta.

(** What the pattern captures in a keyword with a well-formed offset. *)
Lemma match_here_offset kw o :
  wellFormed o = true ->
  exists m0 m4,
    regexp.match_here timeRegexp (sunSpec kw (Some o))
    = Some [m0; ""; m0; keywordText kw; m4; signText o; number o]
    /\ (0 <? strlen m0) = true /\ (0 <? strlen m4) = true.
Proof.
  destruct o as [ws1 pl ws2 ds ws3 rest]. unfold wellFormed, sunSpec, offsetText, signText. cbn [spaceBeforeSign plus spaceBeforeNumber number spaceBeforeUnit unitTail].
  intros H. apply andb_true_iff in H. destruct H as [H Hne].
  apply andb_true_iff in H. destruct H as [H Hds].
  apply andb_true_iff in H. destruct H as [H Hws3].
  apply andb_true_iff in H. destruct H as [Hws1 Hws2].
  destruct ds as [ | d0 ds ]; [ discriminate | ]. clear Hne.
  cbn [regexp.every] in Hds. apply andb_true_iff in Hds. destruct Hds as [Hd0 Hds].
  eexists. eexists. split.
  - unfold regexp.match_here.
    change (regexp.NumSubexp timeRegexp) with 6%nat. cbn [repeat].
    unfold timeRegexp.
    apply run_Alternate_right.
    { destruct kw; apply time_alternative_None; reflexivity. }
    run_unfold.
    assert (Hkw : forall s (caps : list string) k (x : list string),
               k (keywordText kw) s caps = Some x ->
               regexp.run (regexp.Alternate (regexp.Literal "sunrise")
                                            (regexp.Literal "sunset"))
                          (keywordText kw ++ s) caps k = Some x).
    { intros s caps k x Hk. destruct kw.
      - apply run_Alternate_left. eapply run_Literal_Some; [ reflexivity | exact Hk ].
      - apply run_Alternate_right; [ reflexivity | ].
        eapply run_Literal_Some; [ reflexivity | exact Hk ]. }
    apply Hkw. clear Hkw.
    unfold regexp.Quest. apply run_Alternate_left.
    run_unfold.
    apply run_Star_Some; [ exact Hws1 | destruct pl; reflexivity | ].
    run_unfold.
    assert (Hsign : forall s (caps : list string) k (x : list string),
               k (if pl then "+" else "-") s caps = Some x ->
               regexp.run (regexp.Alternate (regexp.Literal "+") (regexp.Literal "-"))
                          ((if pl then "+" else "-") ++ s) caps k = Some x).
    { intros s caps k x Hk. destruct pl.
      - apply run_Alternate_left. eapply run_Literal_Some; [ reflexivity | exact Hk ].
      - apply run_Alternate_right; [ reflexivity | ].
        eapply run_Literal_Some; [ reflexivity | exact Hk ]. }
    apply Hsign. clear Hsign.
    run_unfold.
    apply run_Star_Some;
      [ exact Hws2
      | cbn [regexp.stops String.append]; rewrite (@digit_not_space _ Hd0); reflexivity | ].
    unfold regexp.Plus. run_unfold.
    cbn [String.append].
    apply run_CharClass_Some; [ exact Hd0 | ].
    run_unfold.
    apply run_Star_Some; [ exact Hds | apply stops_digits_before_unit; exact Hws3 | ].
    run_unfold.
    apply run_Star_Some; [ exact Hws3 | reflexivity | ].
    run_unfold.
    eapply run_Literal_Some; [ reflexivity | ].
    run_unfold.
    apply run_Star_rest.
    cbn [regexp.set_nth]. reflexivity.
  - split.
    + destruct kw; reflexivity.
    + destruct pl; cbn [String.append]; apply strlen_app_cons.
Qed.

Lemma FindStringSubmatch_here re s m :
  regexp.match_here re s = Some m -> regexp.FindStringSubmatch re s = m.
Proof. intros H. destruct s; cbn [regexp.FindStringSubmatch]; rewrite H; reflexivity. Qed.

Lemma strlen_pos_nonzero s : (0 <? strlen s) = true -> (strlen s =? 0) = false.
Proof. intros H. apply Z.ltb_lt in H. apply Z.eqb_neq. lia. Qed.

Lemma decimal_bounds s : forall acc,
  regexp.every regexp.perl_d s = true -> 0 <= acc -> acc <= strconv.decimal acc s.
Proof.
  induction s as [ | c s IH ]; intros acc Hs Hacc; cbn [strconv.decimal regexp.every] in *.
  - lia.
  - apply andb_true_iff in Hs. destruct Hs as [Hc Hs].
    assert (0 <= strconv.digit_value c).
    { unfold regexp.perl_d in Hc. unfold strconv.digit_value.
      apply andb_true_iff in Hc. destruct Hc as [Hc _].
      apply Nat.leb_le in Hc. lia. }
    specialize (IH (10 * acc + strconv.digit_value c) Hs). lia.
Qed.

Lemma Atoi_digits c s :
  regexp.every regexp.perl_d (String c s) = true ->
  strconv.decimal 0 (String c s) <= strconv.maxInt ->
  strconv.Atoi (String c s) = inl (strconv.decimal 0 (String c s)).
Proof.
  intros Hd Hmax.
  pose proof (@decimal_bounds _ 0 Hd (Z.le_refl 0)) as Hpos.
  assert (Hsign : c <> "-"%char /\ c <> "+"%char).
  { cbn [regexp.every] in Hd. apply andb_true_iff in Hd. destruct Hd as [Hc _].
    split; intros ->; discriminate Hc. }
  unfold strconv.Atoi.
  assert (Hbody : (match String c s with
     | String "-"%char s' => (true, s')
     | String "+"%char s' => (false, s')
     | _ => (false, String c s)
     end) = (false, String c s)).
  { destruct Hsign as [Hm Hp].
    destruct c as [[] [] [] [] [] [] [] []]; try reflexivity; congruence. }
  rewrite Hbody. unfold strconv.all_digits. rewrite Hd.
  assert (Hrange : (strconv.minInt <=? strconv.decimal 0 (String c s))
                   && (strconv.decimal 0 (String c s) <=? strconv.maxInt) = true).
  { apply andb_true_iff. split; apply Z.leb_le; [ | exact Hmax ].
    unfold strconv.minInt. lia. }
  rewrite Hrange. reflexivity.
Qed.

Lemma int64_small z : - 2 ^ 63 <= z < 2 ^ 63 -> time.int64 z = z.
Proof.
  intros H. unfold time.int64. rewrite Z.mod_small by lia. lia.
Qed.

(** What [AsTimestamp2] does with a well-formed offset: the number goes to
    [strconv.Atoi]; its error is returned, and its result, multiplied by
    [time.Minute] or by [-time.Minute], is added to the instant. *)
Lemma sun_spec_offset now color referenceTime sunrise sunset kw o :
  TimedColorTemperature.Time color = sunSpec kw (Some o) ->
  wellFormed o = true ->
  AsTimestamp2 now color referenceTime sunrise sunset
  = match strconv.Atoi (number o) with
    | inr e =>
        Returns (failed now color, FixedTimePoint,
                 Some (NumError "Atoi" (number o) e))
    | inl minutes =>
        Returns
          (resolved color
             (time.Time.Add
                (match kw with KwSunrise => sunrise | KwSunset => sunset end)
                (if plus o then time.mul time.Minute minutes
                 else time.mul (time.neg time.Minute) minutes)),
           match kw with KwSunrise => Sunrise | KwSunset => Sunset end,
           None)
    end.
Proof.
  intros Hspec Hwf. unfold AsTimestamp2. rewrite Hspec.
  destruct (@match_here_offset kw o Hwf) as (m0 & m4 & Hm & Hm0 & Hm4).
  rewrite (@FindStringSubmatch_here _ _ _ Hm).
  repeat match goal with
         | |- context [index ?l ?i] =>
             let r := eval cbv [index nth_error Z.ltb Z.compare Z.to_nat
                                Pos.to_nat Pos.iter_op Init.Nat.add] in (index l i) in
             change (index l i) with r
         end.
  cbn [bind].
  rewrite (@strlen_pos_nonzero _ Hm0), Hm0, Hm4.
  change (0 <? strlen "") with false. cbv iota.
  assert (Hkw : (if (keywordText kw =? "sunrise")%string
                 then (sunrise, Sunrise) else (sunset, Sunset))
                = (match kw with KwSunrise => sunrise | KwSunset => sunset end,
                   match kw with KwSunrise => Sunrise | KwSunset => Sunset end))
    by (destruct kw; reflexivity).
  rewrite Hkw. clear Hkw.
  destruct (strconv.Atoi (number o)) as [ minutes | e ]; [ | reflexivity ].
  unfold signText. destruct (plus o); reflexivity.
Qed.

(** C6, as the code has it.  For every string made of [sunrise] or [sunset]
    and, optionally, a well-formed offset of a sign, a number of minutes and
    a word that starts with [m]: where the number is one whose count of
    nanoseconds is a [time.Duration] (at most 153722867 minutes),
    [AsTimestamp2] returns without error the sunrise, respectively sunset,
    instant it was given plus the signed number of minutes, with the colour
    temperature and the brightness of the entry; and where the number is
    one that [strconv.Atoi] cannot read as an [int], [AsTimestamp2] returns
    the error of [strconv.Atoi]. *)
Theorem sun_spec_resolution now color referenceTime sunrise sunset kw o :
  TimedColorTemperature.Time color = sunSpec kw o ->
  match o with Some o => wellFormed o = true | None => True end ->
  (fitsDuration o ->
   AsTimestamp2 now color referenceTime sunrise sunset
   = Returns
       ({| TimeStamp.Time :=
             time.Time.Add (match kw with KwSunrise => sunrise | KwSunset => sunset end)
                           (time.Minute * offsetMinutes o);
           TimeStamp.ColorTemperature := TimedColorTemperature.ColorTemperature color;
           TimeStamp.Brightness := TimedColorTemperature.Brightness color |},
        match kw with KwSunrise => Sunrise | KwSunset => Sunset end,
        None))
  /\ (forall offset e,
         o = Some offset ->
         strconv.Atoi (number offset) = inr e ->
         AsTimestamp2 now color referenceTime sunrise sunset
         = Returns (failed now color, FixedTimePoint,
                    Some (NumError "Atoi" (number offset) e))).
Proof.
  intros Hspec Hwf. split.
  - intros Hfit. destruct o as [ o | ].
    + rewrite (@sun_spec_offset now color referenceTime sunrise sunset kw o Hspec Hwf).
      unfold wellFormed in Hwf.
      repeat (apply andb_true_iff in Hwf; destruct Hwf as [Hwf ?]).
      destruct o as [ws1 pl ws2 ds ws3 rest].
      cbn [spaceBeforeSign plus spaceBeforeNumber number spaceBeforeUnit unitTail
           fitsDuration offsetMinutes signText] in *.
      destruct ds as [ | d0 ds ]; [ discriminate | ].
      assert (Hnat : 0 <= strconv.decimal 0 (String d0 ds))
        by (apply (@decimal_bounds (String d0 ds) 0); [ assumption | lia ]).
      rewrite Atoi_digits;
        [ | assumption | unfold time.Minute, time.Second, time.Nanosecond in Hfit; lia ].
      unfold time.mul, time.neg, resolved.
      change (time.int64 (- time.Minute)) with (- time.Minute).
      unfold strconv.maxInt in Hfit.
      rewrite !int64_small
        by (unfold time.Minute, time.Second, time.Nanosecond in *; lia).
      destruct pl; cbv iota beta.
      * reflexivity.
      * replace (- time.Minute * strconv.decimal 0 (String d0 ds))
          with (time.Minute * - strconv.decimal 0 (String d0 ds)) by ring.
        reflexivity.
    + unfold AsTimestamp2. rewrite Hspec.
      cbn [sunSpec offsetMinutes].
      replace (time.Minute * 0) with 0 by ring.
      assert (Hadd : forall a, time.Time.Add a 0 = a).
      { intros [i l]. unfold time.Time.Add. cbn [time.Time.instant time.Time.Location].
        rewrite Z.add_0_r. reflexivity. }
      rewrite Hadd.
      destruct kw; cbn [keywordText].
      * change (regexp.FindStringSubmatch timeRegexp "sunrise")
          with ["sunrise"; ""; "sunrise"; "sunrise"; ""; ""; ""].
        reflexivity.
      * change (regexp.FindStringSubmatch timeRegexp "sunset")
          with ["sunset"; ""; "sunset"; "sunset"; ""; ""; ""].
        reflexivity.
  - intros offset e -> He.
    rewrite (@sun_spec_offset now color referenceTime sunrise sunset kw offset Hspec Hwf).
    rewrite He. reflexivity.
Qed.

Lemma sun_spec_resolution_witness :
  AsTimestamp2 time.zero (entry "sunset - 30 minutes" 5000 100) testDate
               MockSunrise MockSunset
  = Returns
      ({| TimeStamp.Time :=
            time.Time.Add MockSunset
              (time.Minute * offsetMinutes (Some halfHourBeforeSunset));
          TimeStamp.ColorTemperature := 5000;
          TimeStamp.Brightness := 100 |},
       Sunset, None)
  /\ AsTimestamp2 time.zero (entry "sunrise+9223372036854775808m" 2700 60) testDate
                  MockSunrise MockSunset
     = Returns (failed time.zero (entry "sunrise+9223372036854775808m" 2700 60),
                FixedTimePoint,
                Some (NumError "Atoi" "9223372036854775808" strconv.ErrRange)).
Proof.
  split.
  - apply (proj1 (@sun_spec_resolution time.zero (entry "sunset - 30 minutes" 5000 100)
                    testDate MockSunrise MockSunset KwSunset
                    (Some halfHourBeforeSunset) eq_refl eq_refl)).
    vm_compute. discriminate.
  - apply (proj2 (@sun_spec_resolution time.zero
                    (entry "sunrise+9223372036854775808m" 2700 60)
                    testDate MockSunrise MockSunset KwSunrise
                    (Some smallestUnreadableOffset) eq_refl eq_refl)
                 smallestUnreadableOffset strconv.ErrRange eq_refl).
    vm_compute. reflexivity.
Defined.

(** C6, as the specification states it, fails on an offset whose number is
    not an [int]: [strconv.Atoi] reports a range error and [AsTimestamp2]
    returns it. *)
Lemma huge_offset_is_an_error :
  sunSpec KwSunrise
    (Some {| spaceBeforeSign := " "; plus := true; spaceBeforeNumber := " ";
             number := "99999999999999999999"; spaceBeforeUnit := "";
             unitTail := "" |})
  = "sunrise + 99999999999999999999m"
  /\ AsTimestamp2 time.zero (entry "sunrise + 99999999999999999999m" 2700 60)
                  testDate MockSunrise MockSunset
     = Returns (failed time.zero (entry "sunrise + 99999999999999999999m" 2700 60),
                FixedTimePoint,
                Some (NumError "Atoi" "99999999999999999999" strconv.ErrRange)).
Proof.
  split; vm_compute; reflexivity.
Qed.

(** The bound of [fitsDuration] is the largest: one minute more and the
    count of nanoseconds wraps around to a negative [time.Duration]. *)
Lemma offset_wraps_around (now : time.Time.t) :
  AsTimestamp2 now (entry "sunrise + 153722868m" 2700 60) testDate
               MockSunrise MockSunset
  = Returns (stamp (time.Time.Add MockSunrise
                      (time.Minute * 153722868 - 2 ^ 64)) 2700 60,
             Sunrise, None).
Proof.
  vm_compute. reflexivity.
Qed.

(** ** Failing runs of the matcher *)

Section Failure.
Variables R1 R2 : Type.

Lemma star_None p s :
  forall (k1 : string -> string -> option R1) (k2 : string -> string -> option R2),
    (forall t rest, k1 t rest = None -> k2 t rest = None) ->
    regexp.star p s k1 = None -> regexp.star p s k2 = None.
Proof.
  induction s as [ | c s IH ]; intros k1 k2 Hk; cbn [regexp.star].
  - apply Hk.
  - destruct (p c); [ | apply Hk ].
    destruct (regexp.star p s (fun t rest => k1 (String c t) rest)) eqn:E1;
      [ discriminate | ].
    intros H1.
    rewrite (IH (fun t rest => k1 (String c t) rest)
                (fun t rest => k2 (String c t) rest)
                (fun t rest => Hk (String c t) rest) E1).
    apply Hk. exact H1.
Qed.

(** Whether a run fails depends neither on the groups captured so far nor
    on more of the continuation than on where it fails. *)
Lemma run_None r :
  forall s caps1 caps2
         (k1 : string -> string -> list string -> option R1)
         (k2 : string -> string -> list string -> option R2),
    (forall t rest c1 c2, k1 t rest c1 = None -> k2 t rest c2 = None) ->
    regexp.run r s caps1 k1 = None -> regexp.run r s caps2 k2 = None.
Proof.
  induction r as [ | p | l | r1 IH1 r2 IH2 | r1 IH1 r2 IH2 | p | n r IH ];
    intros s caps1 caps2 k1 k2 Hk; cbn [regexp.run].
  - apply Hk.
  - destruct s as [ | c s ]; [ reflexivity | ].
    destruct (p c); [ apply Hk | reflexivity ].
  - destruct (regexp.strip_prefix l s); [ apply Hk | reflexivity ].
  - apply IH1. intros t1 s1 c1 c2. apply IH2. intros t2 s2 c1' c2'. apply Hk.
  - destruct (regexp.run r1 s caps1 k1) eqn:E1; [ discriminate | ].
    intros E2. rewrite (IH1 _ _ caps2 _ _ Hk E1). exact (IH2 _ _ caps2 _ _ Hk E2).
  - apply star_None. intros t rest. apply Hk.
  - apply IH. intros t rest c1 c2. apply Hk.
Qed.
End Failure.

Lemma strip_prefix_head a l c s :
  Ascii.eqb a c = false -> regexp.strip_prefix (String a l) (String c s) = None.
Proof. intros H. cbn [regexp.strip_prefix]. rewrite H. reflexivity. Qed.

Lemma match_here_None c s :
  startsNoMatch c = true -> regexp.match_here timeRegexp (String c s) = None.
Proof.
  unfold startsNoMatch. intros H. apply andb_true_iff in H. destruct H as [Hd Hs].
  apply negb_true_iff in Hd. apply negb_true_iff in Hs.
  unfold regexp.match_here, timeRegexp.
  cbn [regexp.run regexp.Repeat12]. rewrite Hd.
  rewrite !strip_prefix_head by exact Hs. reflexivity.
Qed.

Lemma FindStringSubmatch_skip pre s :
  regexp.every startsNoMatch pre = true ->
  regexp.FindStringSubmatch timeRegexp (pre ++ s)
  = regexp.FindStringSubmatch timeRegexp s.
Proof.
  induction pre as [ | c pre IH ]; cbn [regexp.every String.append]; intros H.
  - reflexivity.
  - apply andb_true_iff in H. destruct H as [Hc Hpre].
    cbn [regexp.FindStringSubmatch]. rewrite match_here_None by exact Hc. auto.
Qed.

Lemma match_here_keyword kw post :
  startsWithOffset post = false ->
  regexp.match_here timeRegexp (keywordText kw ++ post)
  = Some [keywordText kw; ""; keywordText kw; keywordText kw; ""; ""; ""].
Proof.
  intros Hpost.
  unfold regexp.match_here.
  change (regexp.NumSubexp timeRegexp) with 6%nat. cbn [repeat].
  unfold timeRegexp.
  apply run_Alternate_right.
  { destruct kw; apply time_alternative_None; reflexivity. }
  run_unfold.
  assert (Hkw : forall s (caps : list string) k (x : list string),
             k (keywordText kw) s caps = Some x ->
             regexp.run (regexp.Alternate (regexp.Literal "sunrise")
                                          (regexp.Literal "sunset"))
                        (keywordText kw ++ s) caps k = Some x).
  { intros s caps k x Hk. destruct kw.
    - apply run_Alternate_left. eapply run_Literal_Some; [ reflexivity | exact Hk ].
    - apply run_Alternate_right; [ reflexivity | ].
      eapply run_Literal_Some; [ reflexivity | exact Hk ]. }
  apply Hkw. clear Hkw.
  unfold regexp.Quest. apply run_Alternate_right.
  - apply (@run_None _ _ offsetRegexp post [] _ (fun _ _ _ => Some tt)).
    + discriminate.
    + unfold startsWithOffset in Hpost.
      destruct (regexp.run offsetRegexp post [] (fun _ _ _ => Some tt));
        [ discriminate | reflexivity ].
  - cbn [regexp.run regexp.set_nth String.append].
    destruct kw; reflexivity.
Qed.

(** ** The concrete scenario *)

(** C7, as the code has it.  For the schedule [04:00 @2000K/60%, sunrise+0m
    @2700K/60%, sunrise+30m @5000K/100%, sunset-30m @5000K/100%, sunset+0m
    @2700K/80%, 22:00 @2000K/70%] with sunrise 07:30 and sunset 20:00 on
    2021-04-28, [ComputeNewStyleSchedule] returns exactly 22:00 of the
    previous day, then 04:00, 07:30, 08:00, 19:30, 20:00 and 22:00 of the
    day, then 04:00 of the next day, each with the colour temperature and
    brightness declared for it; every step is strictly increasing and no
    entry is clamped: each same-day element is the resolution of its entry
    unchanged. *)
Theorem scenario_day_schedule (now : time.Time.t) :
  ComputeNewStyleSchedule now daySchedule MockSunrise MockSunset testDate
  = Returns (expectedTimes, None)
  /\ increasing expectedTimes = true
  /\ Forall2
       (fun e ts =>
          exists timeType,
            AsTimestamp2 now e testDate MockSunrise MockSunset
            = Returns (ts, timeType, None))
       daySchedule (firstn 6 (skipn 1 expectedTimes)).
Proof.
  split; [ vm_compute; reflexivity | ].
  split; [ vm_compute; reflexivity | ].
  simpl firstn.
  repeat (constructor; [ eexists; vm_compute; reflexivity | ]).
  constructor.
Qed.

(** C7, as the specification lists the schedule: with all eight entries of
    that list as input, the builder returns ten elements, seeded by 04:00 of
    the previous day and by 22:00 of the next, and every same-day entry
    after the first is clamped to one minute after its predecessor. *)
Lemma scenario_as_listed_is_clamped :
  ComputeNewStyleSchedule time.zero scenarioSchedule MockSunrise MockSunset testDate
  = Returns
      ([ stamp (time.Date 2021 4 27 4 0 0 0 time.UTC) 2000 60;
         stamp (time.Date 2021 4 28 22 0 0 0 time.UTC) 2000 70;
         stamp (time.Date 2021 4 28 22 1 0 0 time.UTC) 2000 60;
         stamp (time.Date 2021 4 28 22 2 0 0 time.UTC) 2700 60;
         stamp (time.Date 2021 4 28 22 3 0 0 time.UTC) 5000 100;
         stamp (time.Date 2021 4 28 22 4 0 0 time.UTC) 5000 100;
         stamp (time.Date 2021 4 28 22 5 0 0 time.UTC) 2700 80;
         stamp (time.Date 2021 4 28 22 6 0 0 time.UTC) 2000 70;
         stamp (time.Date 2021 4 28 22 7 0 0 time.UTC) 2000 60;
         stamp (time.Date 2021 4 29 22 0 0 0 time.UTC) 2000 70 ], None)
  /\ ComputeNewStyleSchedule time.zero scenarioSchedule MockSunrise MockSunset testDate
     <> Returns (expectedTimes, None).
Proof.
  split; [ vm_compute; reflexivity | ].
  vm_compute. intros H. discriminate H.
Qed.

(** ** The seed of the next day is not clamped *)

(** C2, at two schedules.  With the single entry [sunrise], the entry of the
    day is clamped to one minute after the seed of the previous day, and the
    seed of the next day, which is the same sunrise instant, is appended as
    it is, one minute before its predecessor.  With fixed times only, the
    clamp can carry the entries of the day past midnight, here to 00:01 of
    the next day, and the seed of the next day, 00:00, is appended as it is:
    the last step of the sequence goes back in time. *)
Theorem next_day_seed_before_predecessor (now : time.Time.t) :
  ComputeNewStyleSchedule now [entry "sunrise" 2700 60] MockSunrise MockSunset testDate
  = Returns
      ([ stamp (time.Date 2021 4 28 7 30 0 0 time.UTC) 2700 60;
         stamp (time.Date 2021 4 28 7 31 0 0 time.UTC) 2700 60;
         stamp (time.Date 2021 4 28 7 30 0 0 time.UTC) 2700 60 ], None)
  /\ nondecreasing
       [ stamp (time.Date 2021 4 28 7 30 0 0 time.UTC) 2700 60;
         stamp (time.Date 2021 4 28 7 31 0 0 time.UTC) 2700 60;
         stamp (time.Date 2021 4 28 7 30 0 0 time.UTC) 2700 60 ] = false
  /\ ComputeNewStyleSchedule now
       [ entry "00:00" 2000 10; entry "23:59" 2000 20;
         entry "23:59" 2000 30; entry "23:59" 2000 40 ]
       MockSunrise MockSunset testDate
     = Returns
         ([ stamp (time.Date 2021 4 27 23 59 0 0 time.UTC) 2000 40;
            stamp (time.Date 2021 4 28 0 0 0 0 time.UTC) 2000 10;
            stamp (time.Date 2021 4 28 23 59 0 0 time.UTC) 2000 20;
            stamp (time.Date 2021 4 29 0 0 0 0 time.UTC) 2000 30;
            stamp (time.Date 2021 4 29 0 1 0 0 time.UTC) 2000 40;
            stamp (time.Date 2021 4 29 0 0 0 0 time.UTC) 2000 10 ], None)
  /\ nondecreasing
       [ stamp (time.Date 2021 4 27 23 59 0 0 time.UTC) 2000 40;
         stamp (time.Date 2021 4 28 0 0 0 0 time.UTC) 2000 10;
         stamp (time.Date 2021 4 28 23 59 0 0 time.UTC) 2000 20;
         stamp (time.Date 2021 4 29 0 0 0 0 time.UTC) 2000 30;
         stamp (time.Date 2021 4 29 0 1 0 0 time.UTC) 2000 40;
         stamp (time.Date 2021 4 29 0 0 0 0 time.UTC) 2000 10 ] = false.
Proof.
  repeat split; vm_compute; reflexivity.
Qed.

(** ** Strings the pattern does not match *)

(** Where the pattern matches nowhere, [AsTimestamp2] panics. *)
Lemma no_match_panics now color referenceTime sunrise sunset :
  regexp.FindStringSubmatch timeRegexp (TimedColorTemperature.Time color) = [] ->
  AsTimestamp2 now color referenceTime sunrise sunset = Panics (IndexOutOfRange 0 0).
Proof. intros H. unfold AsTimestamp2. rewrite H. reflexivity. Qed.

(** C5, at [moonrise]: the pattern matches nowhere in it,
    [FindStringSubmatch] returns nil, and the test [len(matches[0]) == 0]
    that was to report the invalid timestamp indexes the nil slice: the call
    panics, and so does the build of a schedule that holds the entry.  At
    [25:99] the pattern matches, [time.Parse] refuses the hour, and the
    build returns that error. *)
Theorem moonrise_panics (now referenceTime sunrise sunset date : time.Time.t)
        (colorTemperature brightness : Z) :
  regexp.FindStringSubmatch timeRegexp "moonrise" = []
  /\ AsTimestamp2 now (entry "moonrise" colorTemperature brightness)
                  referenceTime sunrise sunset
     = Panics (IndexOutOfRange 0 0)
  /\ ComputeNewStyleSchedule now
       [entry "04:00" 2000 60; entry "moonrise" colorTemperature brightness]
       sunrise sunset date
     = Panics (IndexOutOfRange 0 0)
  /\ (exists e,
        AsTimestamp2 now (entry "25:99" colorTemperature brightness)
                     referenceTime sunrise sunset
        = Returns (failed now (entry "25:99" colorTemperature brightness),
                   FixedTimePoint, Some (TimeParseError e))
        /\ time.Message e = time.OutOfRange "hour"
        /\ ComputeNewStyleSchedule now
             [entry "04:00" 2000 60; entry "25:99" colorTemperature brightness]
             sunrise sunset date
           = Returns ([], Some (TimeParseError e))).
Proof.
  split; [ vm_compute; reflexivity | ].
  split; [ vm_compute; reflexivity | ].
  split; [ vm_compute; reflexivity | ].
  eexists. split; [ vm_compute; reflexivity | ].
  split; vm_compute; reflexivity.
Qed.

(** ** Strings outside the grammar that are accepted *)

(** C10, as the code has it.  There are strings outside the documented
    grammar that [AsTimestamp2] accepts: [sunset + 45], which has no unit
    of minutes, and [xsunsetxx] are no sentences of the grammar, and every
    string that holds [sunrise] or [sunset] after bytes that start no match
    (no digit and no [s]), and before text that the pattern does not read
    as an offset, resolves without error to the sunrise, respectively
    sunset, instant it was given, unchanged: the pattern is searched
    anywhere in the string and its offset part is optional, so the text
    around the keyword is ignored. *)
Theorem keyword_anywhere_is_accepted (now referenceTime sunrise sunset : time.Time.t) :
  SpecGrammar.accepts "sunset + 45" = false
  /\ SpecGrammar.accepts "xsunsetxx" = false
  /\ forall color pre kw post,
       TimedColorTemperature.Time color = (pre ++ keywordText kw ++ post)%string ->
       regexp.every startsNoMatch pre = true ->
       startsWithOffset post = false ->
       AsTimestamp2 now color referenceTime sunrise sunset
       = Returns (resolved color
                    (match kw with KwSunrise => sunrise | KwSunset => sunset end),
                  match kw with KwSunrise => Sunrise | KwSunset => Sunset end,
                  None).
Proof.
  split; [ vm_compute; reflexivity | ].
  split; [ vm_compute; reflexivity | ].
  intros color pre kw post Hspec Hpre Hpost. unfold AsTimestamp2. rewrite Hspec.
  rewrite FindStringSubmatch_skip by exact Hpre.
  rewrite (@FindStringSubmatch_here _ _ _ (@match_here_keyword kw post Hpost)).
  destruct kw; reflexivity.
Qed.

Lemma keyword_anywhere_is_accepted_witness :
  AsTimestamp2 time.zero (entry "sunset + 45" 2700 80) testDate MockSunrise MockSunset
  = Returns (stamp MockSunset 2700 80, Sunset, None)
  /\ AsTimestamp2 time.zero (entry "xsunsetxx" 2700 80) testDate MockSunrise MockSunset
     = Returns (stamp MockSunset 2700 80, Sunset, None)
  /\ AsTimestamp2 time.zero (entry "at sunrise, maybe" 2700 60) testDate
                  MockSunrise MockSunset
     = Returns (stamp MockSunrise 2700 60, Sunrise, None).
Proof.
  split; [ | split ].
  - apply (proj2 (proj2 (keyword_anywhere_is_accepted time.zero testDate
                           MockSunrise MockSunset))
                 (entry "sunset + 45" 2700 80) "" KwSunset " + 45");
      reflexivity.
  - apply (proj2 (proj2 (keyword_anywhere_is_accepted time.zero testDate
                           MockSunrise MockSunset))
                 (entry "xsunsetxx" 2700 80) "x" KwSunset "xx");
      reflexivity.
  - apply (proj2 (proj2 (keyword_anywhere_is_accepted time.zero testDate
                           MockSunrise MockSunset))
                 (entry "at sunrise, maybe" 2700 60) "at " KwSunrise ", maybe");
      reflexivity.
Defined.

(** C10, as the specification states it, fails: not every string that
    holds [sunset] resolves to the sunset instant.  In [12:00 sunset] the
    pattern matches the clock time first and [time.Parse] refuses the
    string; in [sunset + 45 maybe later] the word [maybe] is read as the
    unit of minutes and the result is the sunset plus 45 minutes. *)
Lemma keyword_in_text_is_not_always_plain :
  (exists e,
      AsTimestamp2 time.zero (entry "12:00 sunset" 2700 80) testDate
                   MockSunrise MockSunset
      = Returns (failed time.zero (entry "12:00 sunset" 2700 80), FixedTimePoint,
                 Some (TimeParseError e))
      /\ time.Message e = time.ExtraText " sunset")
  /\ AsTimestamp2 time.zero (entry "sunset + 45 maybe later" 2700 80) testDate
                  MockSunrise MockSunset
     = Returns (stamp (time.Date 2021 4 28 20 45 0 0 time.UTC) 2700 80, Sunset, None)
  /\ time.Date 2021 4 28 20 45 0 0 time.UTC <> MockSunset.
Proof.
  split; [ eexists; split; vm_compute; reflexivity | ].
  split; [ vm_compute; reflexivity | ].
  vm_compute. discriminate.
Qed.

(** ** An empty new-style schedule *)

(** C8, as the specification states it, fails on the configuration
    [emptyScheduleConfiguration]: its schedule list is empty, and the call
    returns a schedule and no error. *)
Lemma empty_schedule_is_not_an_error :
  exists schedule,
    lightScheduleForDay time.zero emptyScheduleConfiguration 1 testDate
                        MockSunStateCalculator
    = Returns (schedule, None)
    /\ Schedule.times schedule = []
    /\ Schedule.beforeSunrise schedule
       = [stamp (time.Date 2021 4 28 4 0 0 0 time.UTC) 2000 60]
    /\ Schedule.afterSunset schedule
       = [stamp (time.Date 2021 4 28 20 0 0 0 time.UTC) 2300 80;
          stamp (time.Date 2021 4 28 22 0 0 0 time.UTC) 2000 60].
Proof.
  eexists. split; [ vm_compute; reflexivity | ].
  repeat split.
Qed.

(** * Further properties of the code *)

(** ** The calendar, read back *)

(** The date [time.civil] returns for a day is a month from 1 to 12 and a
    day from 1 to 31 whose day count is that day; with it, the date and
    the clock of an instant built by [time.Date] are read back. *)
Lemma isLeap_spec year :
  time.isLeap year = true
  <-> year mod 4 = 0 /\ (year mod 100 <> 0 \/ year mod 400 = 0).
Proof.
  unfold time.isLeap.
  rewrite andb_true_iff, orb_true_iff, negb_true_iff, !Z.eqb_eq, Z.eqb_neq.
  reflexivity.
Qed.

(** The arithmetic of [time.civil], on the day [doe] of an era. *)
Lemma era_arithmetic era doe yoe doy mp dd m y :
  0 <= doe < 146097 ->
  yoe = (doe - doe / 1460 + doe / 36524 - doe / 146096) / 365 ->
  doy = doe - (365 * yoe + yoe / 4 - yoe / 100) ->
  mp = (5 * doy + 2) / 153 ->
  dd = doy - (153 * mp + 2) / 5 + 1 ->
  m = (if mp <? 10 then mp + 3 else mp - 9) ->
  y = (if m <=? 2 then yoe + era * 400 + 1 else yoe + era * 400) ->
  daysOf y m dd = doe + era * 146097 - 719468 /\ 1 <= m <= 12 /\ 1 <= dd <= 31.
Proof.
  intros Hdoe Hyoe Hdoy Hmp Hdd Hm Hy.
  assert (Hb : 0 <= yoe <= 399 /\ 0 <= doy <= 365)
    by (subst yoe doy; Z.div_mod_to_equations; lia).
  assert (Hmpb : 0 <= mp <= 11) by (subst mp; Z.div_mod_to_equations; lia).
  unfold daysOf, time.daysSinceEpoch. cbv zeta.
  destruct (time.isLeap y) eqn:Hleap;
    [ apply isLeap_spec in Hleap
    | assert (Hnl : ~ (y mod 4 = 0 /\ (y mod 100 <> 0 \/ y mod 400 = 0)))
        by (rewrite <- isLeap_spec, Hleap; discriminate); clear Hleap ].
  all: assert (Hcase : mp = 0 \/ mp = 1 \/ mp = 2 \/ mp = 3 \/ mp = 4 \/ mp = 5 \/ mp = 6
                  \/ mp = 7 \/ mp = 8 \/ mp = 9 \/ mp = 10 \/ mp = 11) by lia.
  all: repeat (destruct Hcase as [ Hcase | Hcase ]).
  all: rewrite Hcase in Hm; vm_compute in Hm; subst m.
  all: match type of Hy with
       | context [?a <=? ?b] =>
           let v := eval vm_compute in (a <=? b) in
           change (a <=? b) with v in Hy
       end; cbv iota in Hy.
  all: match goal with
       | |- context [time.daysBefore ?a] =>
           let v := eval vm_compute in (time.daysBefore a) in
           change (time.daysBefore a) with v
       end.
  all: match goal with
       | |- context [2 <=? ?a] =>
           let v := eval vm_compute in (2 <=? a) in
           change (2 <=? a) with v
       end; cbv [andb]; cbv iota.
  all: subst y yoe; rewrite Hcase in Hdd.
  all: Z.div_mod_to_equations; lia.
Qed.

Lemma civil_daysOf z y m d :
  time.civil z = (y, m, d) ->
  daysOf y m d = z /\ 1 <= m <= 12 /\ 1 <= d <= 31.
Proof.
  unfold time.civil. cbv zeta.
  set (era := (z + 719468) / 146097).
  set (doe := z + 719468 - era * 146097).
  set (yoe := (doe - doe / 1460 + doe / 36524 - doe / 146096) / 365).
  set (doy := doe - (365 * yoe + yoe / 4 - yoe / 100)).
  set (mp := (5 * doy + 2) / 153).
  set (m0 := if mp <? 10 then mp + 3 else mp - 9).
  intros H.
  assert (Hy : y = (if m0 <=? 2 then yoe + era * 400 + 1 else yoe + era * 400))
    by congruence.
  assert (Hm : m = m0) by congruence.
  assert (Hd : d = doy - (153 * mp + 2) / 5 + 1) by congruence.
  assert (Hdoe : 0 <= doe < 146097)
    by (subst doe era; Z.div_mod_to_equations; lia).
  rewrite Hm.
  destruct (@era_arithmetic era doe yoe doy mp d m0 y Hdoe eq_refl eq_refl eq_refl
              Hd eq_refl Hy) as (H1 & H2 & H3).
  rewrite H1. split; [ subst doe; lia | auto ].
Qed.

(** [time.Date] on a month in range and a time of day in range. *)
Lemma Date_instant year month day hour min sec nsec loc :
  1 <= month <= 12 -> 0 <= hour < 24 -> 0 <= min < 60 -> 0 <= sec < 60 ->
  0 <= nsec < 1000000000 ->
  time.Date year month day hour min sec nsec loc
  = {| time.Time.instant :=
         (daysOf year month day * 86400 + hour * 3600 + min * 60 + sec
          - time.offset loc) * 1000000000 + nsec;
       time.Time.Location := loc |}.
Proof.
  intros Hmonth Hhour Hmin Hsec Hnsec.
  unfold time.Date, time.norm, daysOf.
  rewrite (Z.div_small (month - 1) 12), (Z.mod_small (month - 1) 12) by lia.
  rewrite (Z.div_small nsec), (Z.mod_small nsec) by lia.
  rewrite !Z.add_0_r.
  rewrite (Z.div_small sec), (Z.mod_small sec) by lia.
  rewrite !Z.add_0_r.
  rewrite (Z.div_small min), (Z.mod_small min) by lia.
  rewrite !Z.add_0_r.
  rewrite (Z.div_small hour), (Z.mod_small hour) by lia.
  rewrite !Z.add_0_r.
  reflexivity.
Qed.

Lemma daysOf_day year month day k :
  daysOf year month (day + k) = daysOf year month day + k.
Proof. unfold daysOf. ring. Qed.

(** The wall clock of an instant built from a day and a time of day. *)
Lemma abs_of_day z secs nsec loc :
  0 <= nsec < 1000000000 ->
  time.Time.abs {| time.Time.instant := (z * 86400 + secs - time.offset loc) * 1000000000 + nsec;
                   time.Time.Location := loc |}
  = z * 86400 + secs.
Proof.
  intros Hnsec. unfold time.Time.abs, time.Second, time.Nanosecond.
  cbn [time.Time.instant time.Time.Location].
  rewrite Z.mul_1_r.
  rewrite Z.div_add_l by lia. rewrite (Z.div_small nsec) by lia. lia.
Qed.

Lemma Clock_range t :
  let '(h, mi, s) := time.Time.Clock t in
  0 <= h < 24 /\ 0 <= mi < 60 /\ 0 <= s < 60
  /\ time.Time.abs t = time.Time.abs t / 86400 * 86400 + h * 3600 + mi * 60 + s.
Proof.
  unfold time.Time.Clock. cbv zeta.
  generalize (time.Time.abs t). intros a.
  Z.div_mod_to_equations. lia.
Qed.

(** A day and a time of day in range, read back. *)
Lemma Date_read_back z y m d k hour min sec nsec loc :
  time.civil z = (y, m, d) ->
  0 <= hour < 24 -> 0 <= min < 60 -> 0 <= sec < 60 -> 0 <= nsec < 1000000000 ->
  let t := time.Date y m (d + k) hour min sec nsec loc in
  time.Time.Date t = time.civil (z + k)
  /\ time.Time.Clock t = (hour, min, sec)
  /\ time.Time.Nanosecond t = nsec
  /\ time.Time.Location t = loc
  /\ time.Time.instant t
     = ((z + k) * 86400 + hour * 3600 + min * 60 + sec - time.offset loc)
       * 1000000000 + nsec.
Proof.
  intros Hz Hhour Hmin Hsec Hnsec. cbv zeta.
  destruct (@civil_daysOf _ _ _ _ Hz) as (Hdays & Hm & _).
  rewrite Date_instant by assumption.
  rewrite daysOf_day, Hdays.
  unfold time.Time.Date, time.Time.Clock, time.Time.Nanosecond.
  replace ((z + k) * 86400 + hour * 3600 + min * 60 + sec - time.offset loc)
    with ((z + k) * 86400 + (hour * 3600 + min * 60 + sec) - time.offset loc) by ring.
  rewrite abs_of_day by assumption.
  cbn [time.Time.instant time.Time.Location].
  assert (Hq : ((z + k) * 86400 + (hour * 3600 + min * 60 + sec)) / 86400 = z + k)
    by (Z.div_mod_to_equations; lia).
  assert (Hr : ((z + k) * 86400 + (hour * 3600 + min * 60 + sec)) mod 86400
               = hour * 3600 + min * 60 + sec)
    by (Z.div_mod_to_equations; lia).
  rewrite Hq, Hr.
  repeat split.
  - f_equal; [ f_equal | ]; Z.div_mod_to_equations; lia.
  - unfold time.Second, time.Nanosecond. rewrite Z.mul_1_r.
    Z.div_mod_to_equations. lia.
Qed.

Lemma AddDate_days t k :
  time.AddDate t 0 0 k = time.Time.Add t (k * (24 * 60 * time.Minute)).
Proof.
  unfold time.AddDate.
  destruct (time.Time.Date t) as [[y m] d] eqn:Hdate.
  pose proof (Clock_range t) as Hclock.
  destruct (time.Time.Clock t) as [[h mi] s].
  destruct Hclock as (Hh & Hmi & Hs & Habs).
  assert (Hns : 0 <= time.Time.Nanosecond t < 1000000000).
  { unfold time.Time.Nanosecond, time.Second, time.Nanosecond.
    apply Z.mod_pos_bound. lia. }
  rewrite !Z.add_0_r.
  unfold time.Time.Date in Hdate.
  destruct (@Date_read_back _ y m d k h mi s (time.Time.Nanosecond t)
              (time.Time.Location t) Hdate Hh Hmi Hs Hns)
    as (_ & _ & _ & Hloc & Hinst).
  cbv zeta in Hloc, Hinst.
  destruct (time.Date y m (d + k) h mi s (time.Time.Nanosecond t) (time.Time.Location t))
    as [i l].
  cbn [time.Time.instant time.Time.Location] in Hloc, Hinst.
  unfold time.Time.Add. f_equal; [ | exact Hloc ].
  rewrite Hinst.
  unfold time.Time.abs, time.Time.Nanosecond, time.Minute, time.Second, time.Nanosecond in *.
  rewrite Z.mul_1_r in *.
  pose proof (Z.div_mod (time.Time.instant t) 1000000000).
  lia.
Qed.

(** ** Clock times *)

Lemma digit_value_range c :
  regexp.perl_d c = true -> 0 <= strconv.digit_value c <= 9.
Proof.
  unfold regexp.perl_d, strconv.digit_value. intros H.
  apply andb_true_iff in H. destruct H as [H1 H2].
  apply Nat.leb_le in H1. apply Nat.leb_le in H2. lia.
Qed.

Lemma clockDigits_inv c :
  clockDigits c = true ->
  match hourTens c with Some t => regexp.perl_d t = true | None => True end
  /\ regexp.perl_d (hourUnits c) = true
  /\ regexp.perl_d (minuteTens c) = true
  /\ regexp.perl_d (minuteUnits c) = true.
Proof.
  unfold clockDigits. intros H.
  repeat (apply andb_true_iff in H; destruct H as [H ?]).
  repeat split; try assumption. destruct (hourTens c); auto.
Qed.

Lemma getnum_two c0 c1 s fixed :
  regexp.perl_d c0 = true -> regexp.perl_d c1 = true ->
  time.getnum (String c0 (String c1 s)) fixed
  = Some (strconv.digit_value c0 * 10 + strconv.digit_value c1, s).
Proof. intros H0 H1. cbn [time.getnum]. rewrite H0, H1. reflexivity. Qed.

Lemma getnum_one c0 c1 s :
  regexp.perl_d c0 = true -> regexp.perl_d c1 = false ->
  time.getnum (String c0 (String c1 s)) false
  = Some (strconv.digit_value c0, String c1 s).
Proof. intros H0 H1. cbn [time.getnum]. rewrite H0, H1. reflexivity. Qed.

(** [time.Parse] on a clock time followed by any text. *)
Lemma Parse_clock c post :
  clockDigits c = true ->
  exists e,
    time.Parse_15_04 (clockString c ++ post)
    = if 24 <=? clockHour c then inr e
      else if 60 <=? clockMinute c then inr e
      else match post with
           | EmptyString => inl (time.Date 0 1 1 (clockHour c) (clockMinute c) 0 0 time.UTC)
           | _ => inr e
           end.
Proof.
  intros H. apply clockDigits_inv in H. destruct H as (Ht & Hu & Hmt & Hmu).
  destruct c as [tens u mt mu]. unfold clockString, clockHour, clockMinute.
  cbn [hourTens hourUnits minuteTens minuteUnits] in *.
  unfold time.Parse_15_04.
  destruct tens as [ t | ]; cbn [String.append].
  - rewrite !getnum_two by assumption.
    destruct (24 <=? _); [ eexists; reflexivity | ].
    destruct (60 <=? _); [ eexists; reflexivity | ].
    destruct post;
      [ exists {| time.Layout := ""; time.Value := ""; time.LayoutElem := "";
                  time.ValueElem := ""; time.Message := time.NoMessage |}
      | eexists ]; reflexivity.
  - rewrite getnum_one by (assumption || reflexivity).
    rewrite getnum_two by assumption.
    destruct (24 <=? _); [ eexists; reflexivity | ].
    destruct (60 <=? _); [ eexists; reflexivity | ].
    destruct post;
      [ exists {| time.Layout := ""; time.Value := ""; time.LayoutElem := "";
                  time.ValueElem := ""; time.Message := time.NoMessage |}
      | eexists ]; reflexivity.
Qed.

Lemma run_EmptyMatch_eq (R : Type) s caps
      (k : string -> string -> list string -> option R) :
  regexp.run regexp.EmptyMatch s caps k = k EmptyString s caps.
Proof. reflexivity. Qed.

Lemma match_here_clock c post :
  clockDigits c = true ->
  regexp.match_here timeRegexp (clockString c ++ post)
  = Some [clockString c; clockString c; ""; ""; ""; ""; ""].
Proof.
  intros H. apply clockDigits_inv in H. destruct H as (Ht & Hu & Hmt & Hmu).
  destruct c as [tens u mt mu]. unfold clockString.
  cbn [hourTens hourUnits minuteTens minuteUnits] in *.
  unfold regexp.match_here.
  change (regexp.NumSubexp timeRegexp) with 6%nat. cbn [repeat].
  unfold timeRegexp.
  apply run_Alternate_left. unfold regexp.Repeat12, regexp.Quest. run_unfold.
  destruct tens as [ t | ]; cbn [String.append].
  - apply run_CharClass_Some; [ exact Ht | ]. run_unfold.
    apply run_Alternate_left.
    apply run_CharClass_Some; [ exact Hu | ]. run_unfold.
    eapply run_Literal_Some; [ reflexivity | ]. run_unfold.
    apply run_CharClass_Some; [ exact Hmt | ]. run_unfold.
    apply run_CharClass_Some; [ exact Hmu | ].
    reflexivity.
  - apply run_CharClass_Some; [ exact Hu | ]. run_unfold.
    apply run_Alternate_right; [ apply run_CharClass_None; reflexivity | ].
    rewrite run_EmptyMatch_eq. run_unfold.
    eapply run_Literal_Some; [ reflexivity | ]. run_unfold.
    apply run_CharClass_Some; [ exact Hmt | ]. run_unfold.
    apply run_CharClass_Some; [ exact Hmu | ].
    reflexivity.
Qed.

Lemma strlen_clock c : (0 <? strlen (clockString c)) = true.
Proof. destruct c as [[t | ] u mt mu]; reflexivity. Qed.

(** The clock of the instant [time.Parse] returns. *)
Lemma Parse_result_clock hour min :
  0 <= hour < 24 -> 0 <= min < 60 ->
  let t := time.Date 0 1 1 hour min 0 0 time.UTC in
  time.Time.Hour t = hour /\ time.Time.Minute t = min /\ time.Time.Second t = 0.
Proof.
  intros Hh Hm. cbv zeta.
  assert (Hz : time.civil (-719528) = (0, 1, 1)) by reflexivity.
  destruct (@Date_read_back _ _ _ _ 0 hour min 0 0 time.UTC Hz Hh Hm) as (_ & Hc & _);
    try lia.
  cbv zeta in Hc. rewrite Z.add_0_r in Hc.
  unfold time.Time.Hour, time.Time.Minute, time.Time.Second. rewrite Hc. auto.
Qed.

(** What [AsTimestamp2] does once the pattern has matched a clock time: it
    is [AsTimestamp], with the type of a fixed time point. *)
Lemma AsTimestamp2_clock_match now color referenceTime sunrise sunset pre c post :
  TimedColorTemperature.Time color = (pre ++ clockString c ++ post)%string ->
  regexp.every startsNoMatch pre = true ->
  clockDigits c = true ->
  AsTimestamp2 now color referenceTime sunrise sunset
  = let '(timestamp, err) := AsTimestamp now color referenceTime in
    Returns (timestamp, FixedTimePoint, err).
Proof.
  intros Hspec Hpre Hc.
  assert (Hm : regexp.FindStringSubmatch timeRegexp (TimedColorTemperature.Time color)
               = [clockString c; clockString c; ""; ""; ""; ""; ""]).
  { rewrite Hspec, FindStringSubmatch_skip by exact Hpre.
    apply FindStringSubmatch_here, match_here_clock. exact Hc. }
  unfold AsTimestamp2, AsTimestamp. rewrite Hm.
  repeat match goal with
         | |- context [index ?l ?i] =>
             let r := eval cbv [index nth_error Z.ltb Z.compare Z.to_nat
                                Pos.to_nat Pos.iter_op Init.Nat.add] in (index l i) in
             change (index l i) with r
         end.
  cbn [bind].
  rewrite (@strlen_pos_nonzero _ (strlen_clock c)), (strlen_clock c).
  destruct (time.Parse_15_04 (TimedColorTemperature.Time color)); [ | reflexivity ].
  destruct (time.Time.Date referenceTime) as [[yr mth] day]. reflexivity.
Qed.

Lemma clockValid_inv c :
  clockValid c = true ->
  clockDigits c = true /\ 0 <= clockHour c < 24 /\ 0 <= clockMinute c < 60.
Proof.
  unfold clockValid. intros H.
  apply andb_true_iff in H. destruct H as [H Hmin].
  apply andb_true_iff in H. destruct H as [Hd Hhour].
  apply Z.ltb_lt in Hmin. apply Z.ltb_lt in Hhour.
  split; [ exact Hd | ].
  apply clockDigits_inv in Hd. destruct Hd as (Ht & Hu & Hmt & Hmu).
  pose proof (digit_value_range _ Hu). pose proof (digit_value_range _ Hmt).
  pose proof (digit_value_range _ Hmu).
  unfold clockHour, clockMinute in *.
  destruct (hourTens c) as [ t | ]; [ pose proof (digit_value_range _ Ht) | ]; lia.
Qed.

Lemma append_empty s : (s ++ "")%string = s.
Proof. induction s as [ | a s IH ]; cbn [String.append]; congruence. Qed.

Lemma clockOnDay_read_back referenceTime k c :
  0 <= clockHour c < 24 -> 0 <= clockMinute c < 60 ->
  time.Time.Date (clockOnDay referenceTime k c)
  = time.civil (time.Time.abs referenceTime / 86400 + k)
  /\ time.Time.Clock (clockOnDay referenceTime k c) = (clockHour c, clockMinute c, 0)
  /\ time.Time.Nanosecond (clockOnDay referenceTime k c) = 0.
Proof.
  intros Hh Hm. unfold clockOnDay, time.Time.Date, time.Time.Clock, time.Time.Nanosecond.
  replace (((time.Time.abs referenceTime / 86400 + k) * 86400 + clockHour c * 3600
            + clockMinute c * 60 - time.offset (time.Time.Location referenceTime))
           * 1000000000)
    with (((time.Time.abs referenceTime / 86400 + k) * 86400
           + (clockHour c * 3600 + clockMinute c * 60)
           - time.offset (time.Time.Location referenceTime)) * 1000000000 + 0) by ring.
  rewrite abs_of_day by lia.
  cbn [time.Time.instant].
  generalize (time.Time.abs referenceTime / 86400 + k). intros z.
  assert (Hq : (z * 86400 + (clockHour c * 3600 + clockMinute c * 60)) / 86400 = z)
    by (Z.div_mod_to_equations; lia).
  assert (Hr : (z * 86400 + (clockHour c * 3600 + clockMinute c * 60)) mod 86400
               = clockHour c * 3600 + clockMinute c * 60)
    by (Z.div_mod_to_equations; lia).
  rewrite Hq, Hr. repeat split.
  - f_equal; [ f_equal | ]; Z.div_mod_to_equations; lia.
  - unfold time.Second, time.Nanosecond. Z.div_mod_to_equations. lia.
Qed.

(** The day of [referenceTime] with a clock time in range is [clockOnDay]. *)
Lemma Date_clockOnDay referenceTime c :
  0 <= clockHour c < 24 -> 0 <= clockMinute c < 60 ->
  (let '(yr, mth, day) := time.Time.Date referenceTime in
   time.Date yr mth day (clockHour c) (clockMinute c) 0 0
             (time.Time.Location referenceTime))
  = clockOnDay referenceTime 0 c.
Proof.
  intros Hh Hm. unfold time.Time.Date.
  destruct (time.civil (time.Time.abs referenceTime / 86400)) as [[yr mth] day] eqn:Hz.
  destruct (@civil_daysOf _ _ _ _ Hz) as (Hdays & Hmth & _).
  rewrite Date_instant by lia.
  unfold clockOnDay. rewrite Hdays. f_equal. ring.
Qed.

Lemma AsTimestamp_clock now color referenceTime c :
  TimedColorTemperature.Time color = clockString c ->
  clockValid c = true ->
  AsTimestamp now color referenceTime
  = (resolved color (clockOnDay referenceTime 0 c), None).
Proof.
  intros Hspec Hc. apply clockValid_inv in Hc. destruct Hc as (Hd & Hh & Hm).
  unfold AsTimestamp. rewrite Hspec.
  destruct (@Parse_clock c "" Hd) as [e He].
  rewrite append_empty in He. rewrite He.
  destruct (Z.leb_spec 24 (clockHour c)); [ lia | ].
  destruct (Z.leb_spec 60 (clockMinute c)); [ lia | ].
  destruct (@Parse_result_clock _ _ Hh Hm) as (-> & -> & ->).
  pose proof (@Date_clockOnDay referenceTime c Hh Hm) as Hday.
  destruct (time.Time.Date referenceTime) as [[yr mth] day].
  rewrite Hday. reflexivity.
Qed.

Lemma getnum_inv s fixed n rest :
  time.getnum s fixed = Some (n, rest) ->
  (exists c0 c1, s = String c0 (String c1 rest)
                 /\ regexp.perl_d c0 = true /\ regexp.perl_d c1 = true
                 /\ n = strconv.digit_value c0 * 10 + strconv.digit_value c1)
  \/ (fixed = false
      /\ exists c0, s = String c0 rest /\ regexp.perl_d c0 = true
                    /\ n = strconv.digit_value c0).
Proof.
  unfold time.getnum.
  destruct s as [ | c0 s1 ]; [ discriminate | ].
  destruct (regexp.perl_d c0) eqn:H0; [ | discriminate ].
  destruct s1 as [ | c1 s2 ].
  - destruct fixed; [ discriminate | ]. intros [= <- <-].
    right. split; [ reflexivity | ]. exists c0. auto.
  - destruct (regexp.perl_d c1) eqn:H1.
    + intros [= <- <-]. left. exists c0, c1. auto.
    + destruct fixed; [ discriminate | ]. intros [= <- <-].
      right. split; [ reflexivity | ]. exists c0. auto.
Qed.

(** [time.Parse] accepts clock times only. *)
Lemma Parse_inv s t :
  time.Parse_15_04 s = inl t ->
  exists c, s = clockString c /\ clockValid c = true.
Proof.
  unfold time.Parse_15_04.
  destruct (time.getnum s false) as [ [hour rest] | ] eqn:Hg; [ | discriminate ].
  destruct (24 <=? hour) eqn:Hhour; [ discriminate | ].
  destruct rest as [ | x rest1 ]; [ discriminate | ].
  intros H.
  assert (Hx : x = ":"%char).
  { destruct x as [[] [] [] [] [] [] [] []]; try discriminate H; reflexivity. }
  subst x.
  destruct (time.getnum rest1 true) as [ [min rest2] | ] eqn:Hg2; [ | discriminate ].
  destruct (60 <=? min) eqn:Hmin; [ discriminate | ].
  destruct rest2; [ | discriminate ].
  apply Z.leb_gt in Hhour. apply Z.leb_gt in Hmin.
  apply getnum_inv in Hg2.
  destruct Hg2 as [ (mt & mu & -> & Hmt & Hmu & ->) | [Hf _] ]; [ | discriminate ].
  apply getnum_inv in Hg.
  destruct Hg as [ (c0 & c1 & -> & H0 & H1 & ->) | (_ & c0 & -> & H0 & ->) ].
  - exists {| hourTens := Some c0; hourUnits := c1; minuteTens := mt; minuteUnits := mu |}.
    split; [ reflexivity | ].
    unfold clockValid, clockDigits, clockHour, clockMinute.
    cbn [hourTens hourUnits minuteTens minuteUnits].
    rewrite H0, H1, Hmt, Hmu. cbn [andb].
    apply andb_true_iff. split; apply Z.ltb_lt; assumption.
  - exists {| hourTens := None; hourUnits := c0; minuteTens := mt; minuteUnits := mu |}.
    split; [ reflexivity | ].
    unfold clockValid, clockDigits, clockHour, clockMinute.
    cbn [hourTens hourUnits minuteTens minuteUnits].
    rewrite H0, Hmt, Hmu. cbn [andb].
    apply andb_true_iff. split; apply Z.ltb_lt; assumption.
Qed.

(** X1.  For a [referenceTime] in a location of fixed offset ([time.UTC], a
    zone of [time.FixedZone]): an old-style entry whose time is a clock
    time [H:MM] or [HH:MM] with an hour below 24 and a minute below 60 is
    resolved by [AsTimestamp] without error; the instant has the calendar
    date of [referenceTime], that hour and minute, zero seconds and
    nanoseconds, and the location of [referenceTime]; the colours are
    those of the entry.  In a location with zone transitions a clock time
    that a transition skips is moved by [time.Date]; such locations are
    outside the model. *)
Theorem old_style_clock_time now color referenceTime c name offset :
  time.Time.Location referenceTime = time.FixedZone name offset ->
  TimedColorTemperature.Time color = clockString c ->
  clockValid c = true ->
  exists at_,
    AsTimestamp now color referenceTime = (resolved color at_, None)
    /\ time.Time.Date at_ = time.Time.Date referenceTime
    /\ time.Time.Clock at_ = (clockHour c, clockMinute c, 0)
    /\ time.Time.Nanosecond at_ = 0
    /\ time.Time.Location at_ = time.Time.Location referenceTime.
Proof.
  intros _ Hspec Hc. exists (clockOnDay referenceTime 0 c).
  split; [ apply AsTimestamp_clock; assumption | ].
  apply clockValid_inv in Hc. destruct Hc as (_ & Hh & Hm).
  destruct (@clockOnDay_read_back referenceTime 0 c Hh Hm) as (Hdate & Hclock & Hns).
  rewrite Z.add_0_r in Hdate. auto.
Qed.

Lemma old_style_clock_time_witness :
  exists at_,
    AsTimestamp time.zero (entry "04:00" 2000 60) testDate
    = (resolved (entry "04:00" 2000 60) at_, None)
    /\ time.Time.Date at_ = time.Time.Date testDate
    /\ time.Time.Clock at_ = (clockHour fourOClock, clockMinute fourOClock, 0)
    /\ time.Time.Nanosecond at_ = 0
    /\ time.Time.Location at_ = time.Time.Location testDate.
Proof.
  apply (@old_style_clock_time time.zero (entry "04:00" 2000 60) testDate fourOClock
           "UTC" 0); reflexivity.
Defined.

(** X2.  [AsTimestamp] returns without error only for such a text: the
    whole time of the entry is a clock time of one or two hour digits, a
    colon and two minute digits, the hour below 24 and the minute below
    60. *)
Theorem old_style_accepts_clock_times_only now color referenceTime timestamp :
  AsTimestamp now color referenceTime = (timestamp, None) ->
  exists c,
    TimedColorTemperature.Time color = clockString c /\ clockValid c = true.
Proof.
  unfold AsTimestamp.
  destruct (time.Parse_15_04 (TimedColorTemperature.Time color)) as [ t | e ] eqn:Hp.
  - intros _. eapply Parse_inv. exact Hp.
  - discriminate.
Qed.

Lemma old_style_accepts_clock_times_only_witness :
  exists c,
    TimedColorTemperature.Time (entry "4:00" 2000 60) = clockString c
    /\ clockValid c = true.
Proof.
  apply (@old_style_accepts_clock_times_only time.zero (entry "4:00" 2000 60) testDate
           (stamp (time.Date 2021 4 28 4 0 0 0 time.UTC) 2000 60)).
  vm_compute. reflexivity.
Defined.

(** X3.  For a [referenceTime] in a location of fixed offset ([time.UTC], a
    zone of [time.FixedZone]): a new-style entry whose whole time is a
    valid clock time is resolved by [AsTimestamp2] as a fixed time point,
    without error, at that hour and minute on the calendar date of
    [referenceTime], in its location, whatever the sunrise and the sunset
    are.  Locations with zone transitions are outside the model. *)
Theorem new_style_clock_time now color referenceTime sunrise sunset c name offset :
  time.Time.Location referenceTime = time.FixedZone name offset ->
  TimedColorTemperature.Time color = clockString c ->
  clockValid c = true ->
  exists at_,
    AsTimestamp2 now color referenceTime sunrise sunset
    = Returns (resolved color at_, FixedTimePoint, None)
    /\ time.Time.Date at_ = time.Time.Date referenceTime
    /\ time.Time.Clock at_ = (clockHour c, clockMinute c, 0)
    /\ time.Time.Nanosecond at_ = 0
    /\ time.Time.Location at_ = time.Time.Location referenceTime.
Proof.
  intros _ Hspec Hc. exists (clockOnDay referenceTime 0 c).
  split.
  - rewrite (@AsTimestamp2_clock_match now color referenceTime sunrise sunset "" c "");
      [ | rewrite append_empty; exact Hspec | reflexivity
        | apply clockValid_inv in Hc; tauto ].
    rewrite (@AsTimestamp_clock now color referenceTime c Hspec Hc). reflexivity.
  - apply clockValid_inv in Hc. destruct Hc as (_ & Hh & Hm).
    destruct (@clockOnDay_read_back referenceTime 0 c Hh Hm) as (Hdate & Hclock & Hns).
    rewrite Z.add_0_r in Hdate. auto.
Qed.

Lemma new_style_clock_time_witness :
  exists at_,
    AsTimestamp2 time.zero (entry "04:00" 2000 60) testDate MockSunrise MockSunset
    = Returns (resolved (entry "04:00" 2000 60) at_, FixedTimePoint, None)
    /\ time.Time.Date at_ = time.Time.Date testDate
    /\ time.Time.Clock at_ = (clockHour fourOClock, clockMinute fourOClock, 0)
    /\ time.Time.Nanosecond at_ = 0
    /\ time.Time.Location at_ = time.Time.Location testDate.
Proof.
  apply (@new_style_clock_time time.zero (entry "04:00" 2000 60) testDate
           MockSunrise MockSunset fourOClock "UTC" 0); reflexivity.
Defined.

(** X4.  A clock time inside other text is matched by the pattern but
    refused by [time.Parse]: when the time of an entry is a clock time of
    digits with text before it (where no match starts) or after it, or
    with an hour or a minute out of range, [AsTimestamp2] returns the
    error of [time.Parse], with the reading of the clock as its instant. *)
Theorem clock_time_in_text_rejected now color referenceTime sunrise sunset pre c post :
  TimedColorTemperature.Time color = (pre ++ clockString c ++ post)%string ->
  regexp.every startsNoMatch pre = true ->
  clockDigits c = true ->
  pre <> "" \/ post <> "" \/ clockValid c = false ->
  exists e,
    AsTimestamp2 now color referenceTime sunrise sunset
    = Returns (failed now color, FixedTimePoint, Some (TimeParseError e)).
Proof.
  intros Hspec Hpre Hc Hbad.
  rewrite (@AsTimestamp2_clock_match now color referenceTime sunrise sunset pre c post
             Hspec Hpre Hc).
  unfold AsTimestamp. rewrite Hspec.
  destruct pre as [ | x pre ].
  - cbn [String.append].
    destruct (@Parse_clock c post Hc) as [e He]. rewrite He.
    destruct (24 <=? clockHour c) eqn:Hh; [ exists e; reflexivity | ].
    destruct (60 <=? clockMinute c) eqn:Hm; [ exists e; reflexivity | ].
    destruct post; [ | exists e; reflexivity ].
    exfalso. destruct Hbad as [ H | [ H | H ] ]; try (apply H; reflexivity).
    unfold clockValid in H. rewrite Hc in H.
    apply Z.leb_gt in Hh. apply Z.leb_gt in Hm.
    apply Z.ltb_lt in Hh. apply Z.ltb_lt in Hm. rewrite Hh, Hm in H. discriminate.
  - cbn [regexp.every] in Hpre. apply andb_true_iff in Hpre. destruct Hpre as [Hx _].
    unfold startsNoMatch in Hx. apply andb_true_iff in Hx. destruct Hx as [Hx _].
    apply negb_true_iff in Hx.
    unfold time.Parse_15_04. cbn [String.append time.getnum]. rewrite Hx.
    eexists. reflexivity.
Qed.

Lemma clock_time_in_text_rejected_witness :
  exists e,
    AsTimestamp2 time.zero (entry "at 7:30" 2700 60) testDate MockSunrise MockSunset
    = Returns (failed time.zero (entry "at 7:30" 2700 60), FixedTimePoint,
               Some (TimeParseError e)).
Proof.
  apply (@clock_time_in_text_rejected time.zero (entry "at 7:30" 2700 60) testDate
           MockSunrise MockSunset "at "
           {| hourTens := None; hourUnits := "7"%char;
              minuteTens := "3"%char; minuteUnits := "0"%char |} "").
  - reflexivity.
  - reflexivity.
  - reflexivity.
  - left. discriminate.
Defined.

Lemma clockOnDay_shift referenceTime k c :
  clockOnDay (time.Time.Add referenceTime (k * (24 * 60 * time.Minute))) 0 c
  = time.Time.Add (clockOnDay referenceTime 0 c) (k * (24 * 60 * time.Minute)).
Proof.
  unfold clockOnDay, time.Time.Add, time.Time.abs, time.Minute, time.Second, time.Nanosecond.
  cbn [time.Time.instant time.Time.Location].
  f_equal.
  replace (time.Time.instant referenceTime + k * (24 * 60 * (60 * (1000000000 * 1))))
    with (time.Time.instant referenceTime + k * 86400 * (1000000000 * 1)) by ring.
  rewrite Z.div_add by lia.
  replace ((time.Time.instant referenceTime / (1000000000 * 1) + k * 86400
            + time.offset (time.Time.Location referenceTime)) / 86400 + 0)
    with ((time.Time.instant referenceTime / (1000000000 * 1)
           + time.offset (time.Time.Location referenceTime)) / 86400 + 0 + k).
  - ring.
  - replace (time.Time.instant referenceTime / (1000000000 * 1) + k * 86400
             + time.offset (time.Time.Location referenceTime))
      with (time.Time.instant referenceTime / (1000000000 * 1)
            + time.offset (time.Time.Location referenceTime) + k * 86400) by ring.
    rewrite Z.div_add by lia. ring.
Qed.

(** X5.  For a [referenceTime] in a location of fixed offset ([time.UTC], a
    zone of [time.FixedZone]) and a clock time: moving the reference day
    one day back or forth, with [AddDate(0, 0, -1)] or [AddDate(0, 0, 1)]
    as the builder does, moves the resolved instant by 24 hours back or
    forth, so that the seeds the builder resolves are the entry's clock
    time on the day before and on the day after.  In a location with zone
    transitions a day need not have 24 hours; such locations are outside
    the model. *)
Theorem clock_time_on_another_day now color referenceTime sunrise sunset c k
        name offset :
  time.Time.Location referenceTime = time.FixedZone name offset ->
  k = -1 \/ k = 1 ->
  TimedColorTemperature.Time color = clockString c ->
  clockValid c = true ->
  exists at_,
    AsTimestamp2 now color referenceTime sunrise sunset
    = Returns (resolved color at_, FixedTimePoint, None)
    /\ AsTimestamp2 now color (time.AddDate referenceTime 0 0 k) sunrise sunset
       = Returns (resolved color (time.Time.Add at_ (k * (24 * 60 * time.Minute))),
                  FixedTimePoint, None).
Proof.
  intros _ _ Hspec Hc. exists (clockOnDay referenceTime 0 c).
  assert (Hd : clockDigits c = true) by (apply clockValid_inv in Hc; tauto).
  assert (Hspec' : TimedColorTemperature.Time color = ("" ++ clockString c ++ "")%string)
    by (rewrite append_empty; exact Hspec).
  split.
  - rewrite (@AsTimestamp2_clock_match now color referenceTime sunrise sunset "" c ""
               Hspec' eq_refl Hd).
    rewrite (@AsTimestamp_clock now color referenceTime c Hspec Hc). reflexivity.
  - rewrite (@AsTimestamp2_clock_match now color _ sunrise sunset "" c ""
               Hspec' eq_refl Hd).
    rewrite (@AsTimestamp_clock now color _ c Hspec Hc).
    rewrite AddDate_days, clockOnDay_shift. reflexivity.
Qed.

Lemma clock_time_on_another_day_witness :
  exists at_,
    AsTimestamp2 time.zero (entry "04:00" 2000 60) testDate MockSunrise MockSunset
    = Returns (resolved (entry "04:00" 2000 60) at_, FixedTimePoint, None)
    /\ AsTimestamp2 time.zero (entry "04:00" 2000 60) (time.AddDate testDate 0 0 (-1))
                    MockSunrise MockSunset
       = Returns (resolved (entry "04:00" 2000 60)
                    (time.Time.Add at_ (-1 * (24 * 60 * time.Minute))),
                  FixedTimePoint, None).
Proof.
  apply (@clock_time_on_another_day time.zero (entry "04:00" 2000 60) testDate
           MockSunrise MockSunset fourOClock (-1) "UTC" 0);
    [ reflexivity | left; reflexivity | reflexivity | reflexivity ].
Defined.

(** ** The shape of a match *)

Lemma set_nth_length n t caps :
  List.length (regexp.set_nth n t caps) = List.length caps.
Proof.
  revert n. induction caps as [ | c caps IH ]; intros n; [ destruct n; reflexivity | ].
  destruct n; cbn [regexp.set_nth List.length]; [ reflexivity | ]. rewrite IH. reflexivity.
Qed.

Lemma star_invariant (R : Type) (P : R -> Prop) p s :
  forall (k : string -> string -> option R) x,
    (forall t rest y, k t rest = Some y -> P y) ->
    regexp.star p s k = Some x -> P x.
Proof.
  induction s as [ | c s IH ]; intros k x Hk; cbn [regexp.star].
  - apply Hk.
  - destruct (p c); [ | apply Hk ].
    destruct (regexp.star p s (fun t rest => k (String c t) rest)) eqn:E.
    + intros [= <-]. eapply IH; [ | exact E ]. intros t rest y. apply Hk.
    + apply Hk.
Qed.

(** A run hands to its continuation as many groups as it was given. *)
Lemma run_invariant (R : Type) (P : R -> Prop) (n : nat) r :
  forall s caps (k : string -> string -> list string -> option R) x,
    (forall t rest c y, List.length c = n -> k t rest c = Some y -> P y) ->
    List.length caps = n ->
    regexp.run r s caps k = Some x -> P x.
Proof.
  induction r as [ | p | l | r1 IH1 r2 IH2 | r1 IH1 r2 IH2 | p | g r IH ];
    intros s caps k x Hk Hcaps; cbn [regexp.run].
  - apply Hk. exact Hcaps.
  - destruct s as [ | c s ]; [ discriminate | ].
    destruct (p c); [ apply Hk; exact Hcaps | discriminate ].
  - destruct (regexp.strip_prefix l s); [ apply Hk; exact Hcaps | discriminate ].
  - apply IH1; [ | exact Hcaps ]. intros t1 s1 c1 y Hc1.
    apply IH2; [ | exact Hc1 ]. intros t2 s2 c2 y2 Hc2. apply Hk. exact Hc2.
  - destruct (regexp.run r1 s caps k) eqn:E1.
    + intros [= <-]. eapply IH1; [ exact Hk | exact Hcaps | exact E1 ].
    + apply IH2; assumption.
  - apply star_invariant. intros t rest y. apply Hk. exact Hcaps.
  - apply IH; [ | exact Hcaps ]. intros t rest c y Hc. apply Hk.
    rewrite set_nth_length. exact Hc.
Qed.

(** [FindStringSubmatch] returns nil or the whole match and the six groups. *)
Lemma FindStringSubmatch_shape s :
  regexp.FindStringSubmatch timeRegexp s = []
  \/ exists m0 m1 m2 m3 m4 m5 m6,
       regexp.FindStringSubmatch timeRegexp s = [m0; m1; m2; m3; m4; m5; m6].
Proof.
  assert (Hhere : forall s m, regexp.match_here timeRegexp s = Some m ->
                              List.length m = 7%nat).
  { intros s' m. unfold regexp.match_here.
    change (regexp.NumSubexp timeRegexp) with 6%nat.
    apply (@run_invariant _ (fun m => List.length m = 7%nat) 7); [ | reflexivity ].
    intros t rest c y Hc Hy.
    assert (Hy' : y = regexp.set_nth 0 t c) by congruence.
    subst y. rewrite set_nth_length. exact Hc. }
  assert (Hlen : regexp.FindStringSubmatch timeRegexp s = []
                 \/ List.length (regexp.FindStringSubmatch timeRegexp s) = 7%nat).
  { induction s as [ | c s IH ]; cbn [regexp.FindStringSubmatch].
    - destruct (regexp.match_here timeRegexp "") eqn:E; [ right; eauto | left; reflexivity ].
    - destruct (regexp.match_here timeRegexp (String c s)) eqn:E; [ right; eauto | exact IH ]. }
  destruct Hlen as [ H | H ]; [ left; exact H | right ].
  destruct (regexp.FindStringSubmatch timeRegexp s)
    as [ | m0 [ | m1 [ | m2 [ | m3 [ | m4 [ | m5 [ | m6 [ | ? ? ] ] ] ] ] ] ] ];
    try discriminate H.
  exists m0, m1, m2, m3, m4, m5, m6. reflexivity.
Qed.

Lemma AsTimestamp2_Panics_inv now color referenceTime sunrise sunset e :
  AsTimestamp2 now color referenceTime sunrise sunset = Panics e ->
  regexp.FindStringSubmatch timeRegexp (TimedColorTemperature.Time color) = [].
Proof.
  intros He. unfold AsTimestamp2 in He.
  destruct (FindStringSubmatch_shape (TimedColorTemperature.Time color))
    as [ H | (m0 & m1 & m2 & m3 & m4 & m5 & m6 & H) ]; [ exact H | exfalso ].
  rewrite H in He.
  repeat match type of He with
         | context [index ?l ?i] =>
             let r := eval cbv [index nth_error Z.ltb Z.compare Z.to_nat
                                Pos.to_nat Pos.iter_op Init.Nat.add] in (index l i) in
             change (index l i) with r in He
         end.
  cbn [bind] in He.
  repeat match type of He with
         | context [match ?x with _ => _ end] => destruct x
         | context [if ?b then _ else _] => destruct b
         end; discriminate He.
Qed.

(** X6.  [AsTimestamp2] panics exactly when the pattern matches nowhere in
    the time of the entry; in every other case it returns, with or without
    an error. *)
Theorem AsTimestamp2_panics_iff now color referenceTime sunrise sunset :
  (exists e, AsTimestamp2 now color referenceTime sunrise sunset = Panics e)
  <-> regexp.FindStringSubmatch timeRegexp (TimedColorTemperature.Time color) = [].
Proof.
  split.
  - intros [e He]. eapply AsTimestamp2_Panics_inv. exact He.
  - intros H. exists (IndexOutOfRange 0 0). apply no_match_panics. exact H.
Qed.

(** ** Builds that do not succeed *)

Lemma AsTimestamp2_Returns now color referenceTime sunrise sunset :
  regexp.FindStringSubmatch timeRegexp (TimedColorTemperature.Time color) <> [] ->
  exists timestamp timeType err,
    AsTimestamp2 now color referenceTime sunrise sunset
    = Returns (timestamp, timeType, err).
Proof.
  intros Hmatch.
  destruct (AsTimestamp2 now color referenceTime sunrise sunset)
    as [ [[timestamp timeType] err] | e ] eqn:E.
  - eauto.
  - exfalso. apply Hmatch. eapply AsTimestamp2_Panics_inv. exact E.
Qed.

Lemma rangeSchedule_Returns now sunrise sunset date entries :
  Forall (fun e => regexp.FindStringSubmatch timeRegexp (TimedColorTemperature.Time e)
                   <> []) entries ->
  forall acc previous lastTimeType,
  exists timeStamps timeType err,
    rangeSchedule now entries sunrise sunset date (acc ++ [previous]) lastTimeType
    = Returns (timeStamps, timeType, err).
Proof.
  induction 1 as [ | e entries He _ IH ]; intros acc previous ty0.
  - cbn [rangeSchedule]. eauto.
  - cbn [rangeSchedule].
    destruct (@AsTimestamp2_Returns now e date sunrise sunset He)
      as (timestamp & timeType & err & E).
    rewrite E. unfold bind at 1.
    destruct err as [ err | ]; [ eauto | ].
    rewrite index_last. unfold bind at 1.
    apply (IH (acc ++ [previous])).
Qed.

Lemma ComputeNewStyleSchedule_Returns_or_error now first rest sunrise sunset date :
  Forall (fun e => regexp.FindStringSubmatch timeRegexp (TimedColorTemperature.Time e)
                   <> []) (first :: rest) ->
  exists timeStamps err,
    ComputeNewStyleSchedule now (first :: rest) sunrise sunset date
    = Returns (timeStamps, err).
Proof.
  intros Hall. unfold ComputeNewStyleSchedule.
  assert (Hlast : index (first :: rest) (len (first :: rest) - 1)
                  = Returns (last (first :: rest) first)).
  { destruct (@exists_last _ (first :: rest)) as (l & a & Hl); [ discriminate | ].
    rewrite Hl, index_last, last_last. reflexivity. }
  rewrite Hlast. unfold bind at 1.
  assert (Hin : In (last (first :: rest) first) (first :: rest)).
  { destruct (@exists_last _ (first :: rest)) as (l & a & Hl); [ discriminate | ].
    rewrite Hl, last_last. apply in_or_app. right. left. reflexivity. }
  pose proof (proj1 (Forall_forall _ _) Hall) as Hmatch.
  destruct (@AsTimestamp2_Returns now _ (time.AddDate date 0 0 (-1)) sunrise sunset
              (Hmatch _ Hin)) as (seed & seedType & err & E).
  rewrite E. unfold bind at 1.
  destruct err as [ err | ]; [ eauto | ].
  destruct (@rangeSchedule_Returns now sunrise sunset date (first :: rest) Hall
              [] seed seedType) as (ts & ty & err & Eloop).
  rewrite Eloop. unfold bind at 1.
  destruct err as [ err | ]; [ eauto | ].
  change (index (first :: rest) 0) with (Returns first). unfold bind at 1.
  destruct (@AsTimestamp2_Returns now first (time.AddDate date 0 0 1) sunrise sunset
              (Hmatch _ (or_introl eq_refl))) as (next & nextType & err & Enext).
  rewrite Enext. unfold bind at 1.
  destruct err; eauto.
Qed.

(** X7.  When the pattern matches somewhere in the time of every
    new-style entry of every schedule of the configuration,
    [lightScheduleForDay] returns, for every light, date and sun
    calculator: it does not panic. *)
Theorem lightScheduleForDay_returns now configuration light date calculator :
  Forall (fun lightSchedule =>
            Forall (fun e => regexp.FindStringSubmatch timeRegexp
                               (TimedColorTemperature.Time e) <> [])
                   (LightSchedule.Schedule lightSchedule))
         (Configuration.Schedules configuration) ->
  exists schedule err,
    lightScheduleForDay now configuration light date calculator
    = Returns (schedule, err).
Proof.
  intros Hall. unfold lightScheduleForDay.
  destruct (time.Time.Date date) as [[yr mth] dy].
  destruct (find _ (Configuration.Schedules configuration)) as [ lightSchedule | ] eqn:Hfind;
    [ | eauto ].
  apply find_some in Hfind. destruct Hfind as [Hin _].
  pose proof (proj1 (Forall_forall _ _) Hall _ Hin) as Hentries.
  cbv beta in Hentries.
  destruct (LightSchedule.Schedule lightSchedule) as [ | first rest ]; [ cbn; eauto | ].
  change (0 <? len (first :: rest)) with true. cbv iota.
  destruct (@ComputeNewStyleSchedule_Returns_or_error now first rest
              (CalculateSunrise calculator date
                 (Latitude (Configuration.Location configuration))
                 (Longitude (Configuration.Location configuration)))
              (CalculateSunset calculator date
                 (Latitude (Configuration.Location configuration))
                 (Longitude (Configuration.Location configuration)))
              date Hentries) as (ts & err & E).
  cbn [TimeStamp.Time]. rewrite E. unfold bind.
  destruct err; eauto.
Qed.

Lemma lightScheduleForDay_returns_witness :
  exists schedule err,
    lightScheduleForDay time.zero sunConfiguration 1 testDate dailyCalculator
    = Returns (schedule, err).
Proof.
  apply (@lightScheduleForDay_returns time.zero sunConfiguration 1 testDate dailyCalculator).
  repeat constructor; intros H; vm_compute in H; discriminate H.
Defined.




(** X9.  A schedule that [lightScheduleForDay] returns with an error holds
    no resolved points: [times], [beforeSunrise] and [afterSunset] are
    empty, also when the builder had built some elements before it
    failed. *)
Theorem error_discards_points now configuration light date calculator schedule err :
  lightScheduleForDay now configuration light date calculator
  = Returns (schedule, Some err) ->
  Schedule.times schedule = []
  /\ Schedule.beforeSunrise schedule = []
  /\ Schedule.afterSunset schedule = [].
Proof.
  unfold lightScheduleForDay.
  destruct (time.Time.Date date) as [[yr mth] dy].
  destruct (find _ (Configuration.Schedules configuration)) as [ lightSchedule | ].
  - destruct (0 <? len (LightSchedule.Schedule lightSchedule)).
    + destruct (ComputeNewStyleSchedule _ _ _ _ _) as [ [ts [ e | ]] | ];
        cbn [bind]; try discriminate.
      intros [= <- _]. auto.
    + discriminate.
  - intros [= <- _]. auto.
Qed.

Lemma error_discards_points_witness :
  Schedule.times (unscheduled testDate) = []
  /\ Schedule.beforeSunrise (unscheduled testDate) = []
  /\ Schedule.afterSunset (unscheduled testDate) = [].
Proof.
  apply (@error_discards_points time.zero sunConfiguration 2 testDate
           MockSunStateCalculator (unscheduled testDate) (LightNotAssociated 2)).
  vm_compute. reflexivity.
Defined.

(** ** The order of the elements of the day *)

Lemma same_day_elements_increasing_witness :
  increasing (removelast expectedTimes) = true.
Proof.
  apply (@same_day_elements_increasing time.zero daySchedule MockSunrise MockSunset
           testDate expectedTimes).
  vm_compute. reflexivity.
Defined.

Lemma stored_not_before previous timestamp :
  time.Time.Before (TimeStamp.Time (stored previous timestamp))
                   (TimeStamp.Time timestamp) = false
  /\ colors (stored previous timestamp) = colors timestamp.
Proof.
  unfold stored, time.Time.Before, time.Time.Equal.
  destruct (Z.ltb_spec (time.Time.instant (TimeStamp.Time timestamp))
                       (time.Time.instant (TimeStamp.Time previous)));
    destruct (Z.eqb_spec (time.Time.instant (TimeStamp.Time timestamp))
                         (time.Time.instant (TimeStamp.Time previous)));
    cbn [orb TimeStamp.set_Time TimeStamp.Time time.Time.Add time.Time.instant];
    (split; [ apply Z.ltb_ge | reflexivity ]);
    unfold time.Minute, time.Second, time.Nanosecond; lia.
Qed.

(** X11.  In a successful build the element stored for the entry [i] of
    the schedule is never before the instant the entry resolves to on the
    day, and has the colours of the entry: the clamp only moves an entry
    to a later instant. *)
Theorem stored_at_or_after_resolved now configSchedule sunrise sunset date timeStamps :
  ComputeNewStyleSchedule now configSchedule sunrise sunset date
  = Returns (timeStamps, None) ->
  forall i e,
    nth_error configSchedule i = Some e ->
    exists timestamp timeType element,
      AsTimestamp2 now e date sunrise sunset = Returns (timestamp, timeType, None)
      /\ nth_error timeStamps (S i) = Some element
      /\ time.Time.Before (TimeStamp.Time element) (TimeStamp.Time timestamp) = false
      /\ colors element = entryColors e.
Proof.
  intros H i e Hi. apply ComputeNewStyleSchedule_Returns in H.
  destruct H as (lastSchedule & first & seed & seedType & out & next & nextType
                 & _ & _ & _ & _ & Hsteps & ->).
  pose proof (steps_length Hsteps) as Hlen.
  assert (i < List.length configSchedule)%nat as Hlt
      by (apply nth_error_Some; congruence).
  destruct (steps_nth Hsteps _ Hi) as (previous & timestamp & timeType & H1 & H2 & H3).
  exists timestamp, timeType, (stored previous timestamp).
  destruct (stored_not_before previous timestamp) as [Hafter Hcolors].
  repeat split; try assumption.
  - change (seed :: out ++ [next]) with ((seed :: out) ++ [next]).
    rewrite nth_error_app1 by (simpl; lia). exact H3.
  - rewrite Hcolors. eapply AsTimestamp2_colors. exact H2.
Qed.

Lemma stored_at_or_after_resolved_witness :
  exists timestamp timeType element,
    AsTimestamp2 time.zero (entry "sunrise" 2700 60) testDate MockSunrise MockSunset
    = Returns (timestamp, timeType, None)
    /\ nth_error
         [ stamp (time.Date 2021 4 28 7 30 0 0 time.UTC) 2700 60;
           stamp (time.Date 2021 4 28 7 31 0 0 time.UTC) 2700 60;
           stamp (time.Date 2021 4 28 7 30 0 0 time.UTC) 2700 60 ] 1 = Some element
    /\ time.Time.Before (TimeStamp.Time element) (TimeStamp.Time timestamp) = false
    /\ colors element = entryColors (entry "sunrise" 2700 60).
Proof.
  apply (@stored_at_or_after_resolved time.zero [entry "sunrise" 2700 60]
           MockSunrise MockSunset testDate).
  - vm_compute. reflexivity.
  - reflexivity.
Defined.

(** ** Old-style schedules *)

Lemma rangeCandidates_parsed now candidates date :
  forall timestamps,
    rangeCandidates now candidates date timestamps
    = timestamps ++ parsedCandidates now candidates date.
Proof.
  induction candidates as [ | c candidates IH ]; intros timestamps;
    cbn [rangeCandidates parsedCandidates flat_map].
  - rewrite app_nil_r. reflexivity.
  - destruct (AsTimestamp now c date) as [timestamp [ err | ]].
    + apply IH.
    + rewrite IH, <- app_assoc. reflexivity.
Qed.

Lemma AsTimestamp_onTheDay now color date timestamp :
  AsTimestamp now color date = (timestamp, None) ->
  onTheDay date timestamp /\ colors timestamp = entryColors color.
Proof.
  intros H.
  assert (Hparse : exists c, TimedColorTemperature.Time color = clockString c
                             /\ clockValid c = true).
  { unfold AsTimestamp in H.
    destruct (time.Parse_15_04 (TimedColorTemperature.Time color)) as [ t | e ] eqn:Hp;
      [ eapply Parse_inv; exact Hp | discriminate ]. }
  destruct Hparse as (c & Hspec & Hc).
  rewrite (@AsTimestamp_clock now color date c Hspec Hc) in H.
  injection H as <-.
  apply clockValid_inv in Hc. destruct Hc as (_ & Hh & Hm).
  destruct (@clockOnDay_read_back date 0 c Hh Hm) as (Hdate & Hclock & Hns).
  rewrite Z.add_0_r in Hdate.
  unfold onTheDay, time.Time.Second. cbn [resolved TimeStamp.Time].
  rewrite Hclock. auto.
Qed.

(** X12.  For a [date] in a location of fixed offset ([time.UTC], a zone of
    [time.FixedZone]) and a light whose schedule has an empty new-style
    list: [lightScheduleForDay] returns without error; [beforeSunrise] and
    [afterSunset] are the entries that [AsTimestamp] resolves, in their
    order, the others being skipped, and every point lies on the calendar
    date of [date], at a full minute, in the location of [date].
    Locations with zone transitions are outside the model. *)
Theorem old_style_points_on_the_day now configuration light date calculator
        lightSchedule name offset :
  time.Time.Location date = time.FixedZone name offset ->
  find (fun candidate =>
          containsInt (LightSchedule.AssociatedDeviceIDs candidate) light)
       (Configuration.Schedules configuration) = Some lightSchedule ->
  LightSchedule.Schedule lightSchedule = [] ->
  exists schedule,
    lightScheduleForDay now configuration light date calculator
    = Returns (schedule, None)
    /\ Schedule.beforeSunrise schedule
       = parsedCandidates now (LightSchedule.BeforeSunrise lightSchedule) date
    /\ Schedule.afterSunset schedule
       = parsedCandidates now (LightSchedule.AfterSunset lightSchedule) date
    /\ Forall (onTheDay date) (Schedule.beforeSunrise schedule)
    /\ Forall (onTheDay date) (Schedule.afterSunset schedule).
Proof.
  intros _ Hfind Hempty.
  assert (Hall : forall candidates,
             Forall (onTheDay date) (parsedCandidates now candidates date)).
  { induction candidates as [ | c candidates IH ]; cbn [parsedCandidates flat_map].
    - constructor.
    - destruct (AsTimestamp now c date) as [timestamp [ err | ]] eqn:E; [ exact IH | ].
      cbn [app]. constructor; [ | exact IH ].
      apply (@AsTimestamp_onTheDay now c date timestamp E). }
  unfold lightScheduleForDay. rewrite Hfind, Hempty.
  change (0 <? len []) with false. cbv iota.
  destruct (time.Time.Date date) as [[yr mth] dy].
  eexists. split; [ reflexivity | ].
  cbn [Schedule.beforeSunrise Schedule.afterSunset].
  rewrite !rangeCandidates_parsed. cbn [app]. auto.
Qed.

Lemma old_style_points_on_the_day_witness :
  exists schedule,
    lightScheduleForDay time.zero emptyScheduleConfiguration 1 testDate
                        MockSunStateCalculator
    = Returns (schedule, None)
    /\ Schedule.beforeSunrise schedule
       = parsedCandidates time.zero [entry "4:00" 2000 60] testDate
    /\ Schedule.afterSunset schedule
       = parsedCandidates time.zero [entry "20:00" 2300 80; entry "22:00" 2000 60]
                          testDate
    /\ Forall (onTheDay testDate) (Schedule.beforeSunrise schedule)
    /\ Forall (onTheDay testDate) (Schedule.afterSunset schedule).
Proof.
  apply (@old_style_points_on_the_day time.zero emptyScheduleConfiguration 1 testDate
           MockSunStateCalculator
           {| LightSchedule.Name := "default";
              LightSchedule.AssociatedDeviceIDs := [1];
              LightSchedule.EnableWhenLightsAppear := false;
              LightSchedule.DefaultColorTemperature := 2750;
              LightSchedule.DefaultBrightness := 100;
              LightSchedule.BeforeSunrise := [entry "4:00" 2000 60];
              LightSchedule.AfterSunset :=
                [entry "20:00" 2300 80; entry "22:00" 2000 60];
              LightSchedule.Schedule := [] |} "UTC" 0); reflexivity.
Defined.

(** ** The default configuration *)

(** X14.  The default configuration schedules no light: after
    [initializeDefaults], [lightScheduleForDay] returns for every light the
    error that the light is not associated with any schedule, and a
    schedule that holds the end of the day only. *)
Theorem defaults_schedule_no_light now configuration light date calculator :
  lightScheduleForDay now (initializeDefaults configuration) light date calculator
  = Returns (unscheduled date, Some (LightNotAssociated light)).
Proof.
  unfold lightScheduleForDay, unscheduled, initializeDefaults.
  cbn [Configuration.Schedules find LightSchedule.AssociatedDeviceIDs containsInt existsb].
  destruct (time.Time.Date date) as [[yr mth] dy]. reflexivity.
Qed.

(** ** Schedules of clock times *)

Lemma AsTimestamp2_clock now color referenceTime sunrise sunset c :
  clockEntry color c ->
  AsTimestamp2 now color referenceTime sunrise sunset
  = Returns (resolved color (clockOnDay referenceTime 0 c), FixedTimePoint, None).
Proof.
  intros [Hspec Hc].
  rewrite (@AsTimestamp2_clock_match now color referenceTime sunrise sunset "" c "");
    [ | rewrite append_empty; exact Hspec | reflexivity
      | apply clockValid_inv in Hc; tauto ].
  rewrite (@AsTimestamp_clock now color referenceTime c Hspec Hc). reflexivity.
Qed.

Lemma clockOnDay_AddDate date k c :
  clockOnDay (time.AddDate date 0 0 k) 0 c = clockOnDay date k c.
Proof.
  rewrite AddDate_days, clockOnDay_shift.
  unfold clockOnDay, time.Time.Add, time.Minute, time.Second, time.Nanosecond.
  cbn [time.Time.instant time.Time.Location]. f_equal. ring.
Qed.

Lemma minuteOfDay_range c : clockValid c = true -> 0 <= minuteOfDay c < 1440.
Proof.
  intros Hc. apply clockValid_inv in Hc. unfold minuteOfDay. lia.
Qed.

Lemma clockOnDay_instant date k c :
  time.Time.instant (clockOnDay date k c)
  = ((time.Time.abs date / 86400 + k) * 86400 + minuteOfDay c * 60
     - time.offset (time.Time.Location date)) * 1000000000.
Proof. unfold clockOnDay, minuteOfDay. cbn [time.Time.instant]. ring. Qed.

Lemma stored_later previous timestamp :
  time.Time.instant (TimeStamp.Time previous)
  < time.Time.instant (TimeStamp.Time timestamp) ->
  stored previous timestamp = timestamp.
Proof.
  intros H. unfold stored, time.Time.Before, time.Time.Equal.
  destruct (Z.ltb_spec (time.Time.instant (TimeStamp.Time timestamp))
                       (time.Time.instant (TimeStamp.Time previous))); [ lia | ].
  destruct (Z.eqb_spec (time.Time.instant (TimeStamp.Time timestamp))
                       (time.Time.instant (TimeStamp.Time previous))); [ lia | ].
  reflexivity.
Qed.

Lemma steps_clocks now sunrise sunset date entries clocks :
  Forall2 clockEntry entries clocks ->
  forall previous m,
    time.Time.instant (TimeStamp.Time previous)
    <= (time.Time.abs date / 86400 * 86400 + m * 60
        - time.offset (time.Time.Location date)) * 1000000000 ->
    ascendingFrom m clocks = true ->
    steps now sunrise sunset date entries previous (dayPoints date entries clocks).
Proof.
  induction 1 as [ | e c entries clocks He _ IH ]; intros previous m Hprev Hasc.
  - constructor.
  - cbn [ascendingFrom] in Hasc. apply andb_true_iff in Hasc.
    destruct Hasc as [Hm Hasc]. apply Z.ltb_lt in Hm.
    cbn [dayPoints].
    assert (Hstored : stored previous (resolved e (clockOnDay date 0 c))
                      = resolved e (clockOnDay date 0 c)).
    { apply stored_later. cbn [resolved TimeStamp.Time].
      rewrite clockOnDay_instant. lia. }
    rewrite <- Hstored.
    apply steps_turn with (timeType := FixedTimePoint).
    + apply AsTimestamp2_clock. exact He.
    + rewrite Hstored. apply (IH _ (minuteOfDay c)); [ | exact Hasc ].
      cbn [resolved TimeStamp.Time]. rewrite clockOnDay_instant. lia.
Qed.

Lemma ComputeNewStyleSchedule_steps now first rest sunrise sunset date
      seed seedType out next nextType :
  AsTimestamp2 now (last (first :: rest) first) (time.AddDate date 0 0 (-1))
               sunrise sunset
  = Returns (seed, seedType, None) ->
  steps now sunrise sunset date (first :: rest) seed out ->
  AsTimestamp2 now first (time.AddDate date 0 0 1) sunrise sunset
  = Returns (next, nextType, None) ->
  ComputeNewStyleSchedule now (first :: rest) sunrise sunset date
  = Returns (seed :: out ++ [next], None).
Proof.
  intros Eseed Hsteps Enext.
  destruct (@steps_rangeSchedule now sunrise sunset date (first :: rest) seed out
              Hsteps [] seedType) as [ty Hty].
  unfold ComputeNewStyleSchedule.
  assert (Hlast : index (first :: rest) (len (first :: rest) - 1)
                  = Returns (last (first :: rest) first)).
  { destruct (@exists_last _ (first :: rest)) as (l & a & Hl); [ discriminate | ].
    rewrite Hl, index_last, last_last. reflexivity. }
  rewrite Hlast. unfold bind at 1. rewrite Eseed. unfold bind at 1.
  rewrite Hty. unfold bind at 1.
  change (index (first :: rest) 0) with (Returns first). unfold bind at 1.
  rewrite Enext. reflexivity.
Qed.

Lemma Forall2_last {A B : Type} (P : A -> B -> Prop) (l : list A) (l' : list B) a b :
  P a b -> Forall2 P l l' -> P (last l a) (last l' b).
Proof.
  intros Hab H. induction H as [ | x y l l' Hxy H IH ]; [ exact Hab | ].
  destruct H as [ | x' y' l l' Hxy' H ]; [ exact Hxy | exact IH ].
Qed.

Lemma adjacent_last before l x :
  adjacent before l = true ->
  (forall a, In a l -> before (TimeStamp.Time a) (TimeStamp.Time x) = true) ->
  adjacent before (l ++ [x]) = true.
Proof.
  induction l as [ | a l IH ]; intros Hadj Hall; [ reflexivity | ].
  destruct l as [ | b l ].
  - cbn [app adjacent]. rewrite (Hall a (or_introl eq_refl)). reflexivity.
  - cbn [adjacent] in Hadj. apply andb_true_iff in Hadj. destruct Hadj as [Hab Hadj].
    change ((a :: b :: l) ++ [x]) with (a :: ((b :: l) ++ [x])).
    change (adjacent before (a :: (b :: l) ++ [x]))
      with (before (TimeStamp.Time a) (TimeStamp.Time b)
            && adjacent before ((b :: l) ++ [x])).
    rewrite Hab. apply IH; [ exact Hadj | ].
    intros a' Ha'. apply Hall. right. exact Ha'.
Qed.

Lemma dayPoints_In date entries clocks a :
  Forall2 clockEntry entries clocks ->
  In a (dayPoints date entries clocks) ->
  exists c, clockValid c = true /\ TimeStamp.Time a = clockOnDay date 0 c.
Proof.
  induction 1 as [ | e c entries clocks [_ Hc] _ IH ]; cbn [dayPoints In].
  - tauto.
  - intros [ <- | Ha ]; [ exists c; split; [ exact Hc | reflexivity ] | exact (IH Ha) ].
Qed.

(** X15.  For a [date] in a location of fixed offset ([time.UTC], a zone of
    [time.FixedZone]): a new-style schedule whose entries are valid clock
    times in strictly ascending order is built without error and without
    clamping, whatever the sunrise and the sunset are; the result is the
    last entry at its clock time on the day before, every entry at its
    clock time on the day, and the first entry at its clock time on the day
    after, and this whole sequence, the last seed included, is strictly
    increasing.  In a location with zone transitions a clock time that a
    transition skips is moved and may then be clamped; such locations are
    outside the model. *)
Theorem clock_times_in_order now first rest firstClock restClocks sunrise sunset date
        name offset :
  time.Time.Location date = time.FixedZone name offset ->
  Forall2 clockEntry (first :: rest) (firstClock :: restClocks) ->
  ascending (firstClock :: restClocks) = true ->
  let timeStamps :=
    resolved (last rest first) (clockOnDay date (-1) (last restClocks firstClock))
    :: dayPoints date (first :: rest) (firstClock :: restClocks)
    ++ [resolved first (clockOnDay date 1 firstClock)] in
  ComputeNewStyleSchedule now (first :: rest) sunrise sunset date
  = Returns (timeStamps, None)
  /\ increasing timeStamps = true.
Proof.
  intros _ Hentries Hasc timeStamps.
  assert (Hfirst : clockEntry first firstClock) by (inversion Hentries; assumption).
  assert (Hlast : clockEntry (last (first :: rest) first)
                             (last (firstClock :: restClocks) firstClock))
    by (apply Forall2_last; assumption).
  assert (Hl1 : last (first :: rest) first = last rest first)
    by (destruct rest; reflexivity).
  assert (Hl2 : last (firstClock :: restClocks) firstClock = last restClocks firstClock)
    by (destruct restClocks; reflexivity).
  pose proof (@minuteOfDay_range _ (proj2 Hlast)) as Hrange.
  pose proof (@minuteOfDay_range _ (proj2 Hfirst)) as Hrange1.
  assert (Hsteps : steps now sunrise sunset date (first :: rest)
                     (resolved (last rest first)
                        (clockOnDay date (-1) (last restClocks firstClock)))
                     (dayPoints date (first :: rest) (firstClock :: restClocks))).
  { apply (@steps_clocks now sunrise sunset date _ _ Hentries _ (-1)); [ | exact Hasc ].
    cbn [resolved TimeStamp.Time]. rewrite clockOnDay_instant, <- Hl2. lia. }
  split.
  - apply (@ComputeNewStyleSchedule_steps now first rest sunrise sunset date _
             FixedTimePoint _ _ FixedTimePoint).
    + rewrite (@AsTimestamp2_clock now _ _ sunrise sunset _ Hlast).
      rewrite clockOnDay_AddDate, Hl1, Hl2. reflexivity.
    + exact Hsteps.
    + rewrite (@AsTimestamp2_clock now _ _ sunrise sunset _ Hfirst).
      rewrite clockOnDay_AddDate. reflexivity.
  - unfold timeStamps, increasing.
    rewrite app_comm_cons. apply adjacent_last.
    + exact (@steps_increasing _ _ _ _ _ _ _ Hsteps).
    + intros a [ <- | Ha ]; unfold time.Time.Before; apply Z.ltb_lt;
        cbn [resolved TimeStamp.Time]; rewrite !clockOnDay_instant.
      * rewrite <- Hl2. lia.
      * destruct (@dayPoints_In date _ _ a Hentries Ha) as (c & Hc & ->).
        pose proof (@minuteOfDay_range _ Hc). rewrite clockOnDay_instant. lia.
Qed.

Lemma clock_times_in_order_witness :
  let timeStamps :=
    resolved (last [entry "12:00" 5000 100; entry "22:00" 2000 70] (entry "04:00" 2000 60))
             (clockOnDay testDate (-1) (last [noon; tenPM] fourOClock))
    :: dayPoints testDate
         (entry "04:00" 2000 60 :: [entry "12:00" 5000 100; entry "22:00" 2000 70])
         (fourOClock :: [noon; tenPM])
    ++ [resolved (entry "04:00" 2000 60) (clockOnDay testDate 1 fourOClock)] in
  ComputeNewStyleSchedule time.zero
    (entry "04:00" 2000 60 :: [entry "12:00" 5000 100; entry "22:00" 2000 70])
    MockSunrise MockSunset testDate
  = Returns (timeStamps, None)
  /\ increasing timeStamps = true.
Proof.
  apply (@clock_times_in_order time.zero (entry "04:00" 2000 60)
           [entry "12:00" 5000 100; entry "22:00" 2000 70]
           fourOClock [noon; tenPM] MockSunrise MockSunset testDate "UTC" 0).
  - reflexivity.
  - repeat constructor.
  - reflexivity.
Defined.

(** X16.  The schedule [initializeDefaults] generates is an old-style
    schedule all of whose entries resolve on every day: the wake-up time at
    4:00 before sunrise, and 20:00 and 22:00 after sunset; none is
    skipped. *)
Theorem default_times_resolve now configuration date lightSchedule :
  In lightSchedule (Configuration.Schedules (initializeDefaults configuration)) ->
  LightSchedule.Schedule lightSchedule = []
  /\ parsedCandidates now (LightSchedule.BeforeSunrise lightSchedule) date
     = dayPoints date (LightSchedule.BeforeSunrise lightSchedule) [fourAM]
  /\ parsedCandidates now (LightSchedule.AfterSunset lightSchedule) date
     = dayPoints date (LightSchedule.AfterSunset lightSchedule) [eightPM; tenPM].
Proof.
  intros [ <- | [] ].
  cbn [LightSchedule.Schedule LightSchedule.BeforeSunrise LightSchedule.AfterSunset
       parsedCandidates flat_map dayPoints app].
  pose proof (@AsTimestamp_clock now (entry "4:00" 2000 60) date fourAM eq_refl eq_refl)
    as Hwakeup.
  pose proof (@AsTimestamp_clock now (entry "20:00" 2300 80) date eightPM eq_refl eq_refl)
    as Htv.
  pose proof (@AsTimestamp_clock now (entry "22:00" 2000 60) date tenPM eq_refl eq_refl)
    as Hbed.
  unfold entry in Hwakeup, Htv, Hbed. rewrite Hwakeup, Htv, Hbed.
  auto.
Qed.

Lemma default_times_resolve_witness :
  let lightSchedule :=
    {| LightSchedule.Name := "default";
       LightSchedule.AssociatedDeviceIDs := [];
       LightSchedule.EnableWhenLightsAppear := false;
       LightSchedule.DefaultColorTemperature := 2750;
       LightSchedule.DefaultBrightness := 100;
       LightSchedule.BeforeSunrise := [entry "4:00" 2000 60];
       LightSchedule.AfterSunset := [entry "20:00" 2300 80; entry "22:00" 2000 60];
       LightSchedule.Schedule := [] |} in
  LightSchedule.Schedule lightSchedule = []
  /\ parsedCandidates time.zero (LightSchedule.BeforeSunrise lightSchedule) testDate
     = dayPoints testDate (LightSchedule.BeforeSunrise lightSchedule) [fourAM]
  /\ parsedCandidates time.zero (LightSchedule.AfterSunset lightSchedule) testDate
     = dayPoints testDate (LightSchedule.AfterSunset lightSchedule) [eightPM; tenPM].
Proof.
  intros lightSchedule.
  apply (@default_times_resolve time.zero emptyScheduleConfiguration testDate lightSchedule).
  left. reflexivity.
Defined.

(** ** Saving the configuration *)

Lemma Sprintf_x_nonempty b : b <> [] -> Sprintf_x b <> "".
Proof. destruct b; [ congruence | discriminate ]. Qed.

Section PersistenceProperties.

Variable LibraryError : Type.
Variable Marshal :
  Z * Bridge * Location * WebInterface * list LightSchedule.t
  -> list Byte.byte * option LibraryError.
Variable MarshalIndent :
  Z * Bridge * Location * WebInterface * list LightSchedule.t -> string -> string
  -> list Byte.byte * option LibraryError.
Variable Sum256 : list Byte.byte -> list Byte.byte.
Variable JSONToYAML : list Byte.byte -> list Byte.byte * option LibraryError.
Variable Disk : Type.
Variable WriteFile :
  Disk -> string -> list Byte.byte -> Z -> Disk * option LibraryError.
Variable isYAMLFile : string -> bool.

Lemma HashValue_set_Hash configuration hash :
  HashValue Marshal Sum256 (set_Hash configuration hash)
  = HashValue Marshal Sum256 configuration.
Proof. reflexivity. Qed.

Lemma HashValue_nonempty configuration :
  (forall b, List.length (Sum256 b) = 32%nat) ->
  HashValue Marshal Sum256 configuration <> "".
Proof.
  intros Hsize. unfold HashValue.
  destruct (Marshal (exported configuration)) as [json err].
  apply Sprintf_x_nonempty. intros Hnil.
  specialize (Hsize json). rewrite Hnil in Hsize. discriminate Hsize.
Qed.

(** X17.  After a [Write] that returns no error the configuration has not
    changed: [HasChanged] is false, the fields that are saved and the file
    name are as before, and a further [Write] returns no error and leaves
    the configuration and the files as they are, without calling
    [WriteFile].  The digest of SHA-256 has 32 bytes. *)
Theorem written_configuration_is_unchanged disk configuration disk' configuration' :
  (forall b, List.length (Sum256 b) = 32%nat) ->
  Write Marshal MarshalIndent Sum256 JSONToYAML WriteFile isYAMLFile disk configuration
  = (disk', configuration', None) ->
  HasChanged Marshal Sum256 configuration' = false
  /\ exported configuration' = exported configuration
  /\ Configuration.ConfigurationFile configuration'
     = Configuration.ConfigurationFile configuration
  /\ forall disk'',
       Write Marshal MarshalIndent Sum256 JSONToYAML WriteFile isYAMLFile
             disk'' configuration'
       = (disk'', configuration', None).
Proof.
  intros Hsize H.
  assert (Hfile : String.eqb (Configuration.ConfigurationFile configuration) "" = false).
  { unfold Write in H.
    destruct (String.eqb (Configuration.ConfigurationFile configuration) "");
      [ discriminate H | reflexivity ]. }
  assert (Hsaved : HasChanged Marshal Sum256 configuration' = false
                   /\ exported configuration' = exported configuration
                   /\ Configuration.ConfigurationFile configuration'
                      = Configuration.ConfigurationFile configuration).
  { unfold Write in H. rewrite Hfile in H.
    destruct (HasChanged Marshal Sum256 configuration) eqn:Hchanged; cbn [negb] in H.
    - destruct (MarshalIndent (exported configuration) "" "  ") as [raw [ err | ]];
        [ discriminate H | ].
      destruct (if isYAMLFile (Configuration.ConfigurationFile configuration)
                then JSONToYAML raw else (raw, None)) as [raw' [ err | ]];
        [ discriminate H | ].
      destruct (WriteFile disk (Configuration.ConfigurationFile configuration) raw' 420)
        as [disk1 [ err | ]]; [ discriminate H | ].
      injection H as _ <-.
      repeat split. unfold HasChanged.
      rewrite HashValue_set_Hash. cbn [set_Hash Configuration.Hash].
      destruct (String.eqb_spec (HashValue Marshal Sum256 configuration) "") as [ E | _ ].
      + exfalso. exact (@HashValue_nonempty configuration Hsize E).
      + rewrite String.eqb_refl. reflexivity.
    - injection H as _ <-. auto. }
  destruct Hsaved as (Hsaved & Hexported & Hname).
  repeat split; try assumption.
  intros disk''. unfold Write. rewrite Hname, Hfile, Hsaved. reflexivity.
Qed.

(** X18.  A [Write] that returns an error leaves the configuration as it
    was, the hash included; when the file name is set, [HasChanged] is
    still true, so that the next [Write] tries again. *)
Theorem failed_write_keeps_configuration disk configuration disk' configuration' err :
  Write Marshal MarshalIndent Sum256 JSONToYAML WriteFile isYAMLFile disk configuration
  = (disk', configuration', Some err) ->
  configuration' = configuration
  /\ (Configuration.ConfigurationFile configuration <> ""
      -> HasChanged Marshal Sum256 configuration' = true).
Proof.
  unfold Write.
  destruct (String.eqb_spec (Configuration.ConfigurationFile configuration) "")
    as [ Hname | Hname ].
  - intros [= _ <- _]. split; [ reflexivity | ]. intros H. contradiction.
  - destruct (HasChanged Marshal Sum256 configuration) eqn:Hchanged; cbn [negb];
      [ | discriminate ].
    destruct (MarshalIndent (exported configuration) "" "  ") as [raw [ e | ]].
    + intros [= _ <- _]. auto.
    + destruct (if isYAMLFile (Configuration.ConfigurationFile configuration)
                then JSONToYAML raw else (raw, None)) as [raw' [ e | ]].
      * intros [= _ <- _]. auto.
      * destruct (WriteFile disk (Configuration.ConfigurationFile configuration) raw' 420)
          as [disk1 [ e | ]]; [ | discriminate ].
        intros [= _ <- _]. auto.
Qed.

End PersistenceProperties.

Lemma written_configuration_is_unchanged_witness :
  let saved :=
    set_Hash emptyScheduleConfiguration
             (HashValue emptyDocument zeroDigest emptyScheduleConfiguration) in
  HasChanged emptyDocument zeroDigest saved = false
  /\ exported saved = exported emptyScheduleConfiguration
  /\ Configuration.ConfigurationFile saved
     = Configuration.ConfigurationFile emptyScheduleConfiguration
  /\ forall disk'',
       Write emptyDocument (fun v _ _ => emptyDocument v) zeroDigest
             (fun raw => (raw, None)) storeFile (fun _ => false) disk'' saved
       = (disk'', saved, None).
Proof.
  intros saved.
  apply (@written_configuration_is_unchanged unit emptyDocument
           (fun v _ _ => emptyDocument v) zeroDigest (fun raw => (raw, None))
           (list (string * list Byte.byte)) storeFile (fun _ => false)
           [] emptyScheduleConfiguration [("config.json", [])] saved).
  - intros b. reflexivity.
  - reflexivity.
Defined.

Lemma failed_write_keeps_configuration_witness :
  emptyScheduleConfiguration = emptyScheduleConfiguration
  /\ (Configuration.ConfigurationFile emptyScheduleConfiguration <> ""
      -> HasChanged emptyDocument zeroDigest emptyScheduleConfiguration = true).
Proof.
  apply (@failed_write_keeps_configuration unit emptyDocument
           (fun v _ _ => emptyDocument v) zeroDigest (fun raw => (raw, None))
           (list (string * list Byte.byte)) refuseFile (fun _ => false)
           [] emptyScheduleConfiguration [] emptyScheduleConfiguration (Library tt)).
  reflexivity.
Defined.

(** ** What the schedule of a light carries *)

(** X19.  The flag [enableWhenLightsAppear] of the returned schedule is the
    flag of the light's schedule in the old-style path only: for a
    schedule with a non-empty new-style list it is false, whatever the
    configuration says. *)
Theorem enable_flag_only_old_style now configuration light date calculator
        lightSchedule schedule err :
  find (fun candidate => containsInt (LightSchedule.AssociatedDeviceIDs candidate) light)
       (Configuration.Schedules configuration) = Some lightSchedule ->
  lightScheduleForDay now configuration light date calculator
  = Returns (schedule, err) ->
  Schedule.enableWhenLightsAppear schedule
  = match LightSchedule.Schedule lightSchedule with
    | [] => LightSchedule.EnableWhenLightsAppear lightSchedule
    | _ :: _ => false
    end.
Proof.
  intros Hfind. unfold lightScheduleForDay. rewrite Hfind.
  destruct (time.Time.Date date) as [[yr mth] dy].
  destruct (LightSchedule.Schedule lightSchedule) as [ | first rest ].
  - cbn. intros [= <- _]. reflexivity.
  - change (0 <? len (first :: rest)) with true. cbv iota.
    destruct (ComputeNewStyleSchedule _ _ _ _ _) as [ [ts [ e | ]] | ];
      cbn [bind]; try discriminate; intros [= <- _]; reflexivity.
Qed.

Lemma enable_flag_only_old_style_witness :
  exists schedule,
    lightScheduleForDay time.zero appearingConfiguration 1 testDate dailyCalculator
    = Returns (schedule, None)
    /\ Schedule.enableWhenLightsAppear schedule = false.
Proof.
  eexists. split; [ vm_compute; reflexivity | ].
  apply (@enable_flag_only_old_style time.zero appearingConfiguration 1 testDate
           dailyCalculator
           {| LightSchedule.Name := "sun";
              LightSchedule.AssociatedDeviceIDs := [1];
              LightSchedule.EnableWhenLightsAppear := true;
              LightSchedule.DefaultColorTemperature := 2750;
              LightSchedule.DefaultBrightness := 100;
              LightSchedule.BeforeSunrise := [];
              LightSchedule.AfterSunset := [];
              LightSchedule.Schedule := sunSchedule |} _ None).
  - reflexivity.
  - vm_compute. reflexivity.
Defined.
